(** * Document gathering and consolidation pipeline

    A shallow embedding of the document pipeline of the TestGenius
    assistant: [utils/document_processor.py] (class [DocumentProcessor]),
    the link extraction of [utils/jira_client.py], the tools of
    [agents/document_agent.py] and the gathering phase of
    [test_genius_chatbot.py].

    Conventions of the embedding.
    - A Python [str] is a [string]; each character stands for the code
      point of the same number, so the model covers the code points
      below 256.  [bytes] are lists of [Byte.byte].
    - Calls that can raise are computations in an error monad; code that
      reads or writes files or talks to the network threads a [World].
    - [print] and the [rich] console only write to the terminal; they are
      left out. *)

From Stdlib Require Import Ascii String List Bool Arith Lia Sorted.
From stdpp Require Import base option list strings gmap pretty.

Local Open Scope list_scope.

(** ** Python strings *)

Module Py.

(** [str.lower] on one code point below 256: the ASCII capitals and the
    Latin-1 capitals U+00C0..U+00DE (U+00D7, the multiplication sign,
    apart) move up by 32. *)
Definition lower_char (c : ascii) : ascii :=
  let n := nat_of_ascii c in
  if ((65 <=? n) && (n <=? 90)) || ((192 <=? n) && (n <=? 222) && negb (n =? 215))
  then ascii_of_nat (n + 32) else c.

Fixpoint lower (s : string) : string :=
  match s with
  | EmptyString => EmptyString
  | String c s' => String (lower_char c) (lower s')
  end.

(** [str.isspace] on one code point below 256; also the class [\s] of
    [re] on [str] patterns. *)
Definition isspace (c : ascii) : bool :=
  let n := nat_of_ascii c in
  ((9 <=? n) && (n <=? 13)) || ((28 <=? n) && (n <=? 32)) || (n =? 133) || (n =? 160).

(** [\d] of [re]: below 256 the decimal digits are 0..9. *)
Definition isdigit (c : ascii) : bool :=
  let n := nat_of_ascii c in (48 <=? n) && (n <=? 57).

Definition newline : ascii := "010"%char.
Definition nl : string := String newline EmptyString.

(** [s.startswith(p)] *)
Fixpoint startswith (s p : string) : bool :=
  match p, s with
  | EmptyString, _ => true
  | String a p', String b s' => Ascii.eqb a b && startswith s' p'
  | String _ _, EmptyString => false
  end.

(** [p in s] for strings *)
Fixpoint contains (s p : string) : bool :=
  startswith s p ||
  match s with
  | EmptyString => false
  | String _ s' => contains s' p
  end.

(** [s.endswith(p)] *)
Fixpoint endswith (s p : string) : bool :=
  String.eqb s p ||
  match s with
  | EmptyString => false
  | String _ s' => endswith s' p
  end.

(** [s.lstrip()], [s.rstrip()], [s.strip()] *)
Fixpoint lstrip (s : string) : string :=
  match s with
  | EmptyString => EmptyString
  | String c s' => if isspace c then lstrip s' else s
  end.

Fixpoint rstrip (s : string) : string :=
  match s with
  | EmptyString => EmptyString
  | String c s' =>
      match rstrip s' with
      | EmptyString => if isspace c then EmptyString else String c EmptyString
      | r => String c r
      end
  end.

Definition strip (s : string) : string := rstrip (lstrip s).

(** [sep.join(l)] *)
Fixpoint join (sep : string) (l : list string) : string :=
  match l with
  | [] => ""
  | [x] => x
  | x :: l' => x +:+ sep +:+ join sep l'
  end.

(** Truth value of a string: [not s] holds of the empty string only. *)
Definition truthy (s : string) : bool :=
  match s with EmptyString => false | _ => true end.

(** Concatenation of the pieces of an f-string. *)
Fixpoint concat (l : list string) : string :=
  match l with
  | [] => ""
  | x :: l' => x +:+ concat l'
  end.

Definition cr : ascii := "013"%char.

(** What reading a file opened in text mode does to line ends
    (universal newlines): CR LF and a lone CR become LF. *)
Fixpoint universal_newlines (s : string) : string :=
  match s with
  | EmptyString => EmptyString
  | String c s' =>
      if Ascii.eqb c cr then
        match s' with
        | String c' s'' =>
            if Ascii.eqb c' newline then String newline (universal_newlines s'')
            else String newline (universal_newlines s')
        | EmptyString => String newline EmptyString
        end
      else String c (universal_newlines s')
  end.

(** [os.path.join(a, p)] of [posixpath], two arguments. *)
Definition os_path_join (a p : string) : string :=
  if startswith p "/" then p
  else if negb (truthy a) || endswith a "/" then a +:+ p
  else a +:+ "/" +:+ p.

(** [s.encode('ascii')]: raises on a code point above 127. *)
Fixpoint encode_ascii (s : string) : option (list Byte.byte) :=
  match s with
  | EmptyString => Some []
  | String c s' =>
      if nat_of_ascii c <? 128 then
        match encode_ascii s' with
        | Some l => Some (byte_of_ascii c :: l)
        | None => None
        end
      else None
  end.

(** [b.decode('ascii')]: raises on a byte above 127. *)
Fixpoint decode_ascii (b : list Byte.byte) : option string :=
  match b with
  | [] => Some EmptyString
  | x :: b' =>
      if nat_of_ascii (ascii_of_byte x) <? 128 then
        match decode_ascii b' with
        | Some s => Some (String (ascii_of_byte x) s)
        | None => None
        end
      else None
  end.

(** [s[:n]] *)
Fixpoint take (n : nat) (s : string) : string :=
  match n, s with
  | S n', String c s' => String c (take n' s')
  | _, _ => EmptyString
  end.

End Py.

(** ** The fragment of [re] the patterns of the repository use

    A backtracking matcher in the list-of-successes style: [rall r s g]
    lists, in the order the backtracking engine of [re] explores them,
    the ways [r] can match a prefix of [s]; each entry is the rest of the
    input and the text of group 1.  The first entry is the match [re]
    reports. *)

Module Re.

Inductive regex : Type :=
| Eps                                  (* the empty pattern *)
| Chr (p : ascii -> bool)              (* one character of a class *)
| Cat (r1 r2 : regex)                  (* r1 r2 *)
| Alt (r1 r2 : regex)                  (* r1 tried before r2 *)
| Star (p : ascii -> bool)             (* greedy c* over a class *)
| Group (r : regex)                    (* ( r ), the only group of a pattern *)
| Eol.                                 (* $ *)

(** Character classes. *)
Definition dot (c : ascii) : bool := negb (Ascii.eqb c Py.newline).
Definition digit : ascii -> bool := Py.isdigit.
Definition chr_is (ic : bool) (a : ascii) (c : ascii) : bool :=
  if ic then Ascii.eqb (Py.lower_char c) (Py.lower_char a) else Ascii.eqb c a.
Definition not_slash (c : ascii) : bool := negb (Ascii.eqb c "/"%char).
Definition not_space_paren (c : ascii) : bool :=
  negb (Py.isspace c) && negb (Ascii.eqb c ")"%char).

(** A literal; [ic] is the flag [re.IGNORECASE]. *)
Fixpoint lit (ic : bool) (s : string) : regex :=
  match s with
  | EmptyString => Eps
  | String a s' => Cat (Chr (chr_is ic a)) (lit ic s')
  end.

Definition Plus (p : ascii -> bool) : regex := Cat (Chr p) (Star p).
Definition Opt (r : regex) : regex := Alt r Eps.

(** Concatenation of a list of pieces. *)
Fixpoint seq (l : list regex) : regex :=
  match l with
  | [] => Eps
  | [r] => r
  | r :: l' => Cat r (seq l')
  end.

(** Rests of the input after a greedy [c*], the longest match first. *)
Fixpoint star_all (p : ascii -> bool) (s : string) : list string :=
  match s with
  | String c s' => if p c then star_all p s' ++ [s] else [s]
  | EmptyString => [s]
  end.

(** [$] without [re.MULTILINE]: the end of the string, or just before a
    newline that ends the string. *)
Definition at_end (s : string) : bool :=
  match s with
  | EmptyString => true
  | String c EmptyString => Ascii.eqb c Py.newline
  | _ => false
  end.

(** The text consumed between input [s] and its suffix [s']. *)
Definition consumed (s s' : string) : string :=
  Py.take (String.length s - String.length s') s.

Fixpoint rall (r : regex) (s : string) (g : option string)
  : list (string * option string) :=
  match r with
  | Eps => [(s, g)]
  | Chr p =>
      match s with
      | String c s' => if p c then [(s', g)] else []
      | EmptyString => []
      end
  | Cat r1 r2 => flat_map (fun x => rall r2 (fst x) (snd x)) (rall r1 s g)
  | Alt r1 r2 => rall r1 s g ++ rall r2 s g
  | Star p => map (fun s' => (s', g)) (star_all p s)
  | Group r1 => map (fun x => (fst x, Some (consumed s (fst x)))) (rall r1 s g)
  | Eol => if at_end s then [(s, g)] else []
  end.

(** A match object: the text before the match, the matched text
    ([group(0)]), group 1, and the rest of the input. *)
Record match_obj : Type := MatchObj {
  m_pre : string;
  m_text : string;
  m_group1 : option string;
  m_rest : string
}.

(** [re.match(r, s)]: a match that starts at the first character. *)
Definition py_match (r : regex) (s : string) : option match_obj :=
  match rall r s None with
  | [] => None
  | (s', g) :: _ => Some (MatchObj "" (consumed s s') g s')
  end.

(** [re.search(r, s)]: the match at the leftmost position that has one;
    the position after the last character is tried too. *)
Fixpoint search (r : regex) (s : string) : option match_obj :=
  match py_match r s with
  | Some m => Some m
  | None =>
      match s with
      | EmptyString => None
      | String c s' =>
          match search r s' with
          | Some m => Some (MatchObj (String c (m_pre m)) (m_text m) (m_group1 m) (m_rest m))
          | None => None
          end
      end
  end.

(** [re.findall(r, s)] for a pattern without groups: the texts of the
    successive non-overlapping matches.  After an empty match the scan
    moves on by one character.  [fuel] bounds the number of matches; one
    more than the length of [s] is enough. *)
Fixpoint findall_fuel (fuel : nat) (r : regex) (s : string) : list string :=
  match fuel with
  | O => []
  | S fuel' =>
      match search r s with
      | None => []
      | Some m =>
          m_text m ::
          match m_text m, m_rest m with
          | EmptyString, EmptyString => []
          | EmptyString, String _ rest' => findall_fuel fuel' r rest'
          | _, rest => findall_fuel fuel' r rest
          end
      end
  end.

Definition findall (r : regex) (s : string) : list string :=
  findall_fuel (S (String.length s)) r s.

End Re.

(** ** Exceptions and effects *)

(** The outcome of a call that can raise; [msg] is [str(e)]. *)
Inductive Res (A : Type) : Type :=
| Ok (a : A)
| Raise (msg : string).
Arguments Ok {A} a.
Arguments Raise {A} msg.

Definition res_bind {A B} (c : Res A) (k : A -> Res B) : Res B :=
  match c with
  | Ok a => k a
  | Raise e => Raise e
  end.

(** [try: c except Exception as e: h e] *)
Definition res_try {A} (c : Res A) (h : string -> Res A) : Res A :=
  match c with
  | Ok a => Ok a
  | Raise e => h e
  end.

(** A computation over a state [S] that can raise.  The state survives an
    exception: what was written before the [raise] stays written.  [None]
    is no outcome of the program: it marks a run of the model in which a
    loop that waits on the terminal was cut after the number of rounds
    (the fuel) the model was given. *)
Definition M (S A : Type) : Type := S -> option (Res A * S).

Definition ret {S A} (a : A) : M S A := fun s => Some (Ok a, s).

Definition raise {S A} (msg : string) : M S A := fun s => Some (Raise msg, s).

Definition out_of_fuel {S A} : M S A := fun s => None.

Definition bind {S A B} (c : M S A) (k : A -> M S B) : M S B :=
  fun s =>
    match c s with
    | Some (Ok a, s') => k a s'
    | Some (Raise e, s') => Some (Raise e, s')
    | None => None
    end.

Definition try_except {S A} (c : M S A) (h : string -> M S A) : M S A :=
  fun s =>
    match c s with
    | Some (Ok a, s') => Some (Ok a, s')
    | Some (Raise e, s') => h e s'
    | None => None
    end.

Definition lift_res {S A} (r : Res A) : M S A := fun s => Some (r, s).

Definition get_state {S} : M S S := fun s => Some (Ok s, s).

Definition modify {S} (f : S -> S) : M S unit := fun s => Some (Ok tt, f s).

(** Run a computation on a component of the state. *)
Definition zoom {S T A} (get : S -> T) (set : T -> S -> S) (c : M T A) : M S A :=
  fun s =>
    match c (get s) with
    | Some (r, t') => Some (r, set t' s)
    | None => None
    end.

Notation "x <- c ;; k" := (bind c (fun x => k))
  (at level 20, c at level 99, k at level 200, only parsing).
Notation "c ;;; k" := (bind c (fun _ => k))
  (at level 20, k at level 200, only parsing).
Notation "'let!' x := c 'in' k" := (res_bind c (fun x => k))
  (at level 20, x name, c at level 99, k at level 200, only parsing).

(** ** Data *)

Definition bytes : Type := list Byte.byte.

(** An entry of [ticket_data['attachments']] ([JiraClient.get_ticket_details]). *)
Record Attachment : Type := {
  a_id : string;
  a_filename : string;
  a_size : nat;
  a_created : string;
  a_author : string;
  a_content_type : string;
  a_download_url : string
}.

Record Parent : Type := {
  p_key : string;
  p_summary : string;
  p_issue_type : string
}.

Record Subtask : Type := {
  s_key : string;
  s_summary : string;
  s_status : string
}.

(** The dictionary [ticket_data]. *)
Record Ticket : Type := {
  t_key : string;
  t_summary : string;
  t_description : string;
  t_issue_type : string;
  t_status : string;
  t_priority : string;
  t_assignee : string;
  t_reporter : string;
  t_created : string;
  t_updated : string;
  t_project : string;
  t_project_key : string;
  t_attachments : list Attachment;
  t_epic_link : option string;
  t_parent : option Parent;
  t_subtasks : list Subtask;
  t_components : list string;
  t_labels : list string;
  t_fix_versions : list string
}.

Global Instance Attachment_eq_dec : EqDecision Attachment.
Proof. solve_decision. Defined.

(** A decoded JSON value; [JNum] keeps the text of the number. *)
#[warnings="-register-all"]
Inductive json : Type :=
| JNull
| JBool (b : bool)
| JNum (repr : string)
| JStr (s : string)
| JArr (l : list json)
| JObj (l : list (string * json)).

Fixpoint assoc {A} (k : string) (l : list (string * A)) : option A :=
  match l with
  | [] => None
  | (k', v) :: l' => if String.eqb k k' then Some v else assoc k l'
  end.

(** [d.get(k, default)]; only a dictionary has [get]. *)
Definition json_get (d : json) (k : string) (default : json) : Res json :=
  match d with
  | JObj l => Ok (match assoc k l with Some v => v | None => default end)
  | _ => Raise "object has no attribute 'get'"
  end.

(** What the code reads of a [requests.Response]. *)
Record Response : Type := {
  raise_for_status : Res unit;
  resp_content : bytes;
  resp_text : string;
  resp_content_type : option string;   (* headers.get('content-type') *)
  resp_json : Res json
}.

(** The files under the working directory, by path, with their text, and
    the state of everything outside the program (network, clock). *)
Record World (Env : Type) : Type := {
  w_fs : gmap string string;
  w_env : Env
}.
Arguments w_fs {Env} w.
Arguments w_env {Env} w.

Definition set_fs {Env} (f : gmap string string -> gmap string string) (w : World Env) : World Env :=
  {| w_fs := f (w_fs w); w_env := w_env w |}.

Definition set_env {Env} (e : Env) (w : World Env) : World Env :=
  {| w_fs := w_fs w; w_env := e |}.

(** A call to something outside the program. *)
Definition external {Env A} (f : Env -> Res A * Env) : M (World Env) A :=
  fun w => let (r, e) := f (w_env w) in Some (r, set_env e w).

(** [os.path.exists(p)] *)
Definition os_path_exists {Env} (p : string) : M (World Env) bool :=
  fun w => Some (Ok (bool_decide (is_Some (w_fs w !! p))), w).

(** [open(p, 'r', encoding='utf-8').read()] *)
Definition read_text {Env} (p : string) : M (World Env) string :=
  fun w =>
    match w_fs w !! p with
    | Some c => Some (Ok (Py.universal_newlines c), w)
    | None => Some (Raise "No such file or directory", w)
    end.

(** [ProcessedDocument], [MissingDocumentRequest] and
    [DocumentProcessingResult] of [agents/document_agent.py]. *)
Record ProcessedDocument : Type := {
  filepath : string;
  document_type : string;
  source_ticket : string;
  filename : string;
  success : bool;
  error_message : option string
}.

Record MissingDocumentRequest : Type := {
  mr_document_type : string;
  mr_ticket_key : string;
  mr_message : string;
  mr_options : list string
}.

Record DocumentProcessingResult : Type := {
  processed_documents_field : list ProcessedDocument;
  total_documents : nat;
  successful_documents : nat;
  failed_documents : nat;
  final_content_path_field : option string;
  missing_documents_field : list string;
  user_provided_content_field : list string
}.

(** The mutable lists of a [DocumentContext], with the world its
    [doc_processor] and [jira_client] act on. *)
Record AgentState (Env : Type) : Type := {
  ag_world : World Env;
  processed_files : list string;
  missing_documents : list string;
  user_provided_content : list string
}.
Arguments ag_world {Env} a.
Arguments processed_files {Env} a.
Arguments missing_documents {Env} a.
Arguments user_provided_content {Env} a.

(** The session state of [TestGeniusChatbot] that the gathering and
    consolidation phases use. *)
Record BotState (Env : Type) : Type := {
  b_world : World Env;
  current_ticket : Ticket;
  current_epic : option Ticket;
  processed_documents : list string;
  final_content_path : option string
}.
Arguments b_world {Env} b.
Arguments current_ticket {Env} b.
Arguments current_epic {Env} b.
Arguments processed_documents {Env} b.
Arguments final_content_path {Env} b.

(** What the program is given from outside the repository: the libraries
    it calls, the object [jira_client] handed to [process_attachment], the
    terminal, and the fields [__init__] reads from [Config]. *)
Record Runtime {Env : Type} : Type := {
  PdfReader_pages : bytes -> Res (list (Res string));
    (* PyPDF2.PdfReader(io.BytesIO(b)).pages, each with the outcome of extract_text() *)
  Document_paragraphs : bytes -> Res (list (Res string));
    (* docx.Document(io.BytesIO(b)).paragraphs, each with its .text *)
  soup_get_text : json -> Res string;
    (* BeautifulSoup(x, 'html.parser').get_text() *)
  decode_utf8_ignore : bytes -> string;
    (* b.decode('utf-8', errors='ignore') *)
  str_upper : string -> string;                (* s.upper() *)
  str_title : string -> string;                (* s.title() *)
  json_repr : json -> string;                  (* str(x) of a decoded JSON value that is no string *)
  b64encode : bytes -> bytes;                  (* base64.b64encode *)
  requests_get :
    string -> list (string * string) -> option nat -> Env -> Res Response * Env;
    (* requests.get(url, headers=..., timeout=...) *)
  datetime_now : Env -> string * Env;
    (* datetime.now().strftime("%Y-%m-%d %H:%M:%S") *)
  open_w_error : string -> option string;
    (* the error open(path, 'w') raises, if the path cannot be written *)
  download_attachment : string -> string -> Env -> Res bytes * Env;
    (* jira_client.download_attachment(url, filename) *)
  Confirm_ask : string -> Env -> bool * Env;   (* rich.prompt.Confirm.ask *)
  Prompt_ask : string -> Env -> string * Env;  (* rich.prompt.Prompt.ask *)
  input : Env -> option string * Env;          (* input(); None is EOFError *)
  documents_folder : string;
  confluence_server : string;
  confluence_username : string;
  confluence_api_token : string
}.
Arguments Runtime Env : clear implicits.

(** ** The program

    [utils/document_processor.py] (class [DocumentProcessor]), then
    [utils/jira_client.py], [agents/document_agent.py] and
    [test_genius_chatbot.py]. *)

Module DocumentProcessor.
Section Defs.

Context {Env : Type} (C : Runtime Env).

Local Abbreviation W := (World Env).

(** [with open(p, 'w', encoding='utf-8') as f: f.write(c)] *)
Definition write_text (p c : string) : M W unit :=
  match (open_w_error C) p with
  | Some e => raise e
  | None => modify (set_fs (fun fs => <[p := c]> fs))
  end.

(** f-string rendering of a JSON value. *)
Definition json_str (x : json) : string :=
  match x with
  | JStr s => s
  | _ => (json_repr C) x
  end.

Definition _format_jira_as_markdown (ticket_data : Ticket) : string :=
  let content := Py.concat [
    "# Jira Ticket: "; t_key ticket_data; Py.nl; Py.nl;
    "## Summary"; Py.nl; t_summary ticket_data; Py.nl; Py.nl;
    "## Details"; Py.nl;
    "- **Issue Type**: "; t_issue_type ticket_data; Py.nl;
    "- **Status**: "; t_status ticket_data; Py.nl;
    "- **Priority**: "; t_priority ticket_data; Py.nl;
    "- **Assignee**: "; t_assignee ticket_data; Py.nl;
    "- **Reporter**: "; t_reporter ticket_data; Py.nl;
    "- **Project**: "; t_project ticket_data; " ("; t_project_key ticket_data; ")"; Py.nl;
    "- **Created**: "; t_created ticket_data; Py.nl;
    "- **Updated**: "; t_updated ticket_data; Py.nl; Py.nl;
    "## Description"; Py.nl;
    (if Py.truthy (t_description ticket_data) then t_description ticket_data
     else "No description provided"); Py.nl; Py.nl ] in
  let content :=
    match t_epic_link ticket_data with
    | Some (String c l) => content +:+ Py.concat ["## Epic Link"; Py.nl; String c l; Py.nl; Py.nl]
    | _ => content
    end in
  let content :=
    match t_parent ticket_data with
    | Some parent =>
        content +:+ Py.concat [
          "## Parent"; Py.nl; "- **Key**: "; p_key parent; Py.nl;
          "- **Summary**: "; p_summary parent; Py.nl;
          "- **Type**: "; p_issue_type parent; Py.nl; Py.nl ]
    | None => content
    end in
  let content :=
    match t_subtasks ticket_data with
    | [] => content
    | subtasks =>
        fold_left (fun content subtask =>
            content +:+ Py.concat [
              "- **"; s_key subtask; "**: "; s_summary subtask;
              " ("; s_status subtask; ")"; Py.nl ])
          subtasks (content +:+ "## Subtasks" +:+ Py.nl)
        +:+ Py.nl
    end in
  let content :=
    match t_components ticket_data with
    | [] => content
    | l => content +:+ Py.concat ["## Components"; Py.nl; Py.join ", " l; Py.nl; Py.nl]
    end in
  let content :=
    match t_labels ticket_data with
    | [] => content
    | l => content +:+ Py.concat ["## Labels"; Py.nl; Py.join ", " l; Py.nl; Py.nl]
    end in
  let content :=
    match t_fix_versions ticket_data with
    | [] => content
    | l => content +:+ Py.concat ["## Fix Versions"; Py.nl; Py.join ", " l; Py.nl; Py.nl]
    end in
  let content :=
    match t_attachments ticket_data with
    | [] => content
    | attachments =>
        fold_left (fun content attachment =>
            content +:+ Py.concat [
              "- **"; a_filename attachment; "** ("; pretty (a_size attachment);
              " bytes) - "; a_content_type attachment; Py.nl ]
            +:+ Py.concat [
              "  - Created: "; a_created attachment; " by "; a_author attachment; Py.nl ])
          attachments (content +:+ "## Attachments" +:+ Py.nl)
        +:+ Py.nl
    end in
  content.

(** [filename_prefix] is [None] when the caller leaves it out. *)
Definition save_jira_content (ticket_data : Ticket) (filename_prefix : option string)
  : M W string :=
  let filename_prefix :=
    match filename_prefix with
    | Some (String c p) => String c p
    | _ => "jira-" +:+ t_key ticket_data
    end in
  let filename := filename_prefix +:+ "-content.md" in
  let filepath := Py.os_path_join (documents_folder C) filename in
  let content := _format_jira_as_markdown ticket_data in
  write_text filepath content ;;;
  ret filepath.

(** [re.match(pattern, s, re.IGNORECASE)] is not [None] *)
Definition matches (pattern : Re.regex) (s : string) : bool :=
  match Re.py_match pattern s with
  | Some _ => true
  | None => false
  end.

(** The pieces of the patterns: [.*], a literal under [re.IGNORECASE],
    [\.pdf$] and [\.docx?$]. *)
Definition any : Re.regex := Re.Star Re.dot.
Definition word (s : string) : Re.regex := Re.lit true s.
Definition dot_pdf : list Re.regex := [word ".pdf"; Re.Eol].
Definition dot_docx : list Re.regex := [word ".doc"; Re.Opt (word "x"); Re.Eol].

Definition prd_patterns : list Re.regex := [
  Re.seq ([any; word "prd"; any] ++ dot_pdf);
  Re.seq ([any; word "product"; any; word "requirement"; any] ++ dot_pdf);
  Re.seq ([any; word "requirement"; any; word "document"; any] ++ dot_pdf);
  Re.seq ([any; word "functional"; any; word "spec"; any] ++ dot_pdf);
  Re.seq ([any; word "business"; any; word "requirement"; any] ++ dot_pdf);
  Re.seq ([any; word "prd"; any] ++ dot_docx);
  Re.seq ([any; word "product"; any; word "requirement"; any] ++ dot_docx);
  Re.seq ([any; word "requirement"; any; word "document"; any] ++ dot_docx)
].

Definition design_patterns : list Re.regex := [
  Re.seq ([any; word "hld"; any] ++ dot_pdf);
  Re.seq ([any; word "high"; any; word "level"; any; word "design"; any] ++ dot_pdf);
  Re.seq ([any; word "lld"; any] ++ dot_pdf);
  Re.seq ([any; word "low"; any; word "level"; any; word "design"; any] ++ dot_pdf);
  Re.seq ([any; word "technical"; any; word "design"; any] ++ dot_pdf);
  Re.seq ([any; word "architecture"; any] ++ dot_pdf);
  Re.seq ([any; word "design"; any; word "document"; any] ++ dot_pdf);
  Re.seq ([any; word "hld"; any] ++ dot_docx);
  Re.seq ([any; word "lld"; any] ++ dot_docx);
  Re.seq ([any; word "design"; any] ++ dot_docx)
].

(** The loop of both classifiers: an attachment is kept at the first
    pattern its lowercased file name matches. *)
Definition identify_by (patterns : list Re.regex) (attachments : list Attachment)
  : list Attachment :=
  List.filter
    (fun attachment =>
       let filename_lower := Py.lower (a_filename attachment) in
       existsb (fun pattern => matches pattern filename_lower) patterns)
    attachments.

Definition identify_prd_attachments (ticket_data : Ticket) : list Attachment :=
  match t_attachments ticket_data with
  | [] => []
  | attachments => identify_by prd_patterns attachments
  end.

Definition identify_hld_lld_attachments (ticket_data : Ticket) : list Attachment :=
  match t_attachments ticket_data with
  | [] => []
  | attachments => identify_by design_patterns attachments
  end.

(** The loop [for x in xs: text += x + "\n"] of the PDF and DOCX readers;
    the first item that raises ends it. *)
Fixpoint join_lines (items : list (Res string)) (text : string) : Res string :=
  match items with
  | [] => Ok text
  | item :: items' =>
      let! t := item in
      join_lines items' (text +:+ t +:+ Py.nl)
  end.

Definition _extract_pdf_text (content_bytes : bytes) : Res (option string) :=
  res_try
    (let! pages := (PdfReader_pages C) content_bytes in
     let! text := join_lines pages "" in
     Ok (Some (Py.strip text)))
    (fun e => Ok None).

Definition _extract_docx_text (content_bytes : bytes) : Res (option string) :=
  res_try
    (let! paragraphs := (Document_paragraphs C) content_bytes in
     let! text := join_lines paragraphs "" in
     Ok (Some (Py.strip text)))
    (fun e => Ok None).

Definition _extract_html_text (content_bytes : bytes) : Res (option string) :=
  res_try
    (let html_content := (decode_utf8_ignore C) content_bytes in
     let! text := (soup_get_text C) (JStr html_content) in
     Ok (Some text))
    (fun e => Ok None).

Definition _extract_text_from_bytes (content_bytes : bytes) (filename content_type : string)
  : Res (option string) :=
  res_try
    (if Py.endswith (Py.lower filename) ".pdf" || Py.contains (Py.lower content_type) "pdf" then
       _extract_pdf_text content_bytes
     else if (Py.endswith (Py.lower filename) ".docx" || Py.endswith (Py.lower filename) ".doc")
             || Py.contains (Py.lower content_type) "word" then
       _extract_docx_text content_bytes
     else if (Py.endswith (Py.lower filename) ".txt" || Py.endswith (Py.lower filename) ".md")
             || Py.contains (Py.lower content_type) "text" then
       Ok (Some ((decode_utf8_ignore C) content_bytes))
     else if Py.endswith (Py.lower filename) ".html" || Py.contains (Py.lower content_type) "html" then
       _extract_html_text content_bytes
     else
       res_try (Ok (Some ((decode_utf8_ignore C) content_bytes))) (fun _ => Ok None))
    (fun e => Ok None).

(** [not text_content] for an optional string. *)
Definition no_text (text_content : option string) : bool :=
  match text_content with
  | Some s => negb (Py.truthy s)
  | None => true
  end.

Definition text_of (text_content : option string) : string :=
  match text_content with
  | Some s => s
  | None => ""
  end.

Definition process_attachment (attachment : Attachment)
    (attachment_type source_ticket : string) (attachment_number : nat)
  : M W (option string) :=
  try_except
    (content_bytes <- external ((download_attachment C) (a_download_url attachment)
                                  (a_filename attachment)) ;;
     text_content <- lift_res (_extract_text_from_bytes content_bytes
                                 (a_filename attachment) (a_content_type attachment)) ;;
     if no_text text_content then ret None
     else
       let filename := Py.concat [
         attachment_type; "-from-"; source_ticket; "-attachment";
         pretty attachment_number; "-content.md" ] in
       let filepath := Py.os_path_join (documents_folder C) filename in
       let markdown_content := Py.concat [
         "# "; (str_upper C) attachment_type; " Document: "; a_filename attachment; Py.nl; Py.nl;
         "**Source**: Jira Ticket "; source_ticket; Py.nl;
         "**File Type**: "; a_content_type attachment; Py.nl;
         "**Size**: "; pretty (a_size attachment); " bytes"; Py.nl;
         "**Created**: "; a_created attachment; " by "; a_author attachment; Py.nl; Py.nl;
         "## Content"; Py.nl; Py.nl;
         text_of text_content; Py.nl ] in
       write_text filepath markdown_content ;;;
       ret (Some filepath))
    (fun e => ret None).

Definition page_id_patterns : list Re.regex := [
  Re.seq [Re.lit false "/pages/"; Re.Group (Re.Plus Re.digit); Re.lit false "/"];
  Re.seq [Re.lit false "pageId="; Re.Group (Re.Plus Re.digit)];
  Re.seq [Re.lit false "/"; Re.Group (Re.Plus Re.digit); Re.lit false "/"]
].

(** [for pattern in patterns: match = re.search(pattern, page_url);
    if match: return match.group(1)] *)
Fixpoint first_group (patterns : list Re.regex) (page_url : string) : option string :=
  match patterns with
  | [] => None
  | pattern :: patterns' =>
      match Re.search pattern page_url with
      | Some m => Re.m_group1 m
      | None => first_group patterns' page_url
      end
  end.

Definition _extract_confluence_page_id (page_url : string) : option string :=
  first_group page_id_patterns page_url.

Definition of_option {A} (o : option A) (msg : string) : Res A :=
  match o with
  | Some a => Ok a
  | None => Raise msg
  end.

(** The header [Authorization: Basic ...] both clients build. *)
Definition basic_auth (username api_token : string) : Res string :=
  let auth_string := Py.concat [username; ":"; api_token] in
  let! auth_bytes := of_option (Py.encode_ascii auth_string) "'ascii' codec can't encode" in
  let! auth_b64 := of_option (Py.decode_ascii ((b64encode C) auth_bytes)) "'ascii' codec can't decode" in
  Ok ("Basic " +:+ auth_b64).

Definition fetch_confluence_page (page_url source_ticket : string) (page_number : nat)
  : M W (option string) :=
  try_except
    (let page_id := _extract_confluence_page_id page_url in
     if no_text page_id then ret None
     else
       let api_url := Py.concat [
         (confluence_server C); "/rest/api/content/"; text_of page_id;
         "?expand=body.storage,version" ] in
       authorization <- lift_res (basic_auth (confluence_username C) (confluence_api_token C)) ;;
       let headers := [("Authorization", authorization); ("Accept", "application/json")] in
       response <- external ((requests_get C) api_url headers None) ;;
       lift_res (raise_for_status response) ;;;
       page_data <- lift_res (resp_json response) ;;
       title <- lift_res (json_get page_data "title" (JStr "Unknown Page")) ;;
       body <- lift_res (json_get page_data "body" (JObj [])) ;;
       storage <- lift_res (json_get body "storage" (JObj [])) ;;
       content_html <- lift_res (json_get storage "value" (JStr "")) ;;
       text_content <- lift_res ((soup_get_text C) content_html) ;;
       let filename := Py.concat [
         "conf-from-"; source_ticket; "-page"; pretty page_number; "-content.md" ] in
       let filepath := Py.os_path_join (documents_folder C) filename in
       version <- lift_res (json_get page_data "version" (JObj [])) ;;
       number <- lift_res (json_get version "number" (JStr "Unknown")) ;;
       let markdown_content := Py.concat [
         "# Confluence Page: "; json_str title; Py.nl; Py.nl;
         "**Source**: "; page_url; Py.nl;
         "**Referenced from**: Jira Ticket "; source_ticket; Py.nl;
         "**Version**: "; json_str number; Py.nl; Py.nl;
         "## Content"; Py.nl; Py.nl;
         text_content; Py.nl ] in
       write_text filepath markdown_content ;;;
       ret (Some filepath))
    (fun e => ret None).

Definition consolidated_header : string :=
  "# Consolidated Content for Test Documentation Generation" +:+ Py.nl +:+ Py.nl.

(** One round of the loop of [consolidate_documents]: what a file's text
    adds to [final_content]. *)
Definition consolidated_part (content : string) : string :=
  Py.concat [Py.nl; "---"; Py.nl; Py.nl; content; Py.nl; Py.nl].

Fixpoint consolidate_loop (document_files : list string) (final_content : string)
  : M W string :=
  match document_files with
  | [] => ret final_content
  | doc_file :: document_files' =>
      present <- os_path_exists doc_file ;;
      if present then
        content <- read_text doc_file ;;
        consolidate_loop document_files' (final_content +:+ consolidated_part content)
      else consolidate_loop document_files' final_content
  end.

Definition consolidate_documents (document_files : list string) : M W string :=
  final_content <- consolidate_loop document_files consolidated_header ;;
  let final_filepath := Py.os_path_join (documents_folder C) "final-content.md" in
  write_text final_filepath final_content ;;;
  ret final_filepath.

Definition save_markdown_file (content filename : string) : M W string :=
  let filepath := Py.os_path_join (documents_folder C) filename in
  write_text filepath content ;;;
  ret filepath.

Definition _get_current_timestamp : M W string :=
  external (fun e => let (t, e') := (datetime_now C) e in (Ok t, e')).

Definition save_user_content (content filename : string) : M W string :=
  let filepath := Py.os_path_join (documents_folder C) filename in
  timestamp <- _get_current_timestamp ;;
  let markdown_content := Py.concat [
    "# User-Provided Document"; Py.nl; Py.nl;
    "**Source**: User Input"; Py.nl;
    "**Created**: "; timestamp; Py.nl; Py.nl;
    "## Content"; Py.nl; Py.nl;
    content; Py.nl ] in
  write_text filepath markdown_content ;;;
  ret filepath.

Definition fetch_document_from_url (url content_type ticket_key : string)
  : M W (option string) :=
  try_except
    (response <- external ((requests_get C) url [] (Some 30)) ;;
     lift_res (raise_for_status response) ;;;
     let detected_content_type :=
       Py.lower (match resp_content_type response with Some t => t | None => "" end) in
     text_content <- lift_res (
       if Py.contains detected_content_type "pdf" || Py.endswith (Py.lower url) ".pdf" then
         _extract_pdf_text (resp_content response)
       else if Py.contains detected_content_type "word"
               || (Py.endswith (Py.lower url) ".doc" || Py.endswith (Py.lower url) ".docx") then
         _extract_docx_text (resp_content response)
       else if Py.contains detected_content_type "html" || Py.endswith (Py.lower url) ".html" then
         _extract_html_text (resp_content response)
       else Ok (Some (resp_text response))) ;;
     if no_text text_content then ret None
     else
       let filename := Py.concat [
         "user-provided-"; content_type; "-"; ticket_key; "-from-url.md" ] in
       let filepath := Py.os_path_join (documents_folder C) filename in
       timestamp <- _get_current_timestamp ;;
       let markdown_content := Py.concat [
         "# "; (str_title C) content_type; " Document from URL"; Py.nl; Py.nl;
         "**Source**: "; url; Py.nl;
         "**Ticket**: "; ticket_key; Py.nl;
         "**Content Type**: "; detected_content_type; Py.nl;
         "**Fetched**: "; timestamp; Py.nl; Py.nl;
         "## Content"; Py.nl; Py.nl;
         text_of text_content; Py.nl ] in
       write_text filepath markdown_content ;;;
       ret (Some filepath))
    (fun e => ret None).

End Defs.
End DocumentProcessor.

(** *** [utils/jira_client.py] *)

Module JiraClient.

Definition confluence_patterns : list Re.regex :=
  let http := [Re.lit true "http"; Re.Opt (Re.lit true "s"); Re.lit true "://";
               Re.Plus Re.not_slash] in
  [ Re.seq (http ++ [Re.lit true "/wiki/spaces/"; Re.Plus Re.not_slash;
                     Re.lit true "/pages/"; Re.Plus Re.digit; Re.lit true "/";
                     Re.Plus Re.not_space_paren]);
    Re.seq (http ++ [Re.lit true "/display/"; Re.Plus Re.not_slash; Re.lit true "/";
                     Re.Plus Re.not_space_paren]);
    Re.seq (http ++ [Re.lit true ".atlassian.net/wiki/"; Re.Plus Re.not_space_paren]) ].

(** [list(dict.fromkeys(l))]: the first occurrence of each element, in order. *)
Fixpoint dict_fromkeys (seen l : list string) : list string :=
  match l with
  | [] => []
  | x :: l' =>
      if existsb (String.eqb x) seen then dict_fromkeys seen l'
      else x :: dict_fromkeys (x :: seen) l'
  end.

Definition extract_confluence_links (text : string) : list string :=
  if negb (Py.truthy text) then []
  else
    let links := flat_map (fun pattern => Re.findall pattern text) confluence_patterns in
    dict_fromkeys [] links.

Definition is_epic (ticket_data : Ticket) : bool :=
  String.eqb (Py.lower (t_issue_type ticket_data)) "epic".

End JiraClient.

(** *** [agents/document_agent.py] *)

Module DocumentAgent.
Import DocumentProcessor JiraClient.
Section Defs.
Context {Env : Type} (C : Runtime Env).

Local Abbreviation W := (World Env).
Local Abbreviation A := (AgentState Env).

Definition doc_processor {T} (c : M W T) : M A T :=
  zoom ag_world
    (fun w a => {| ag_world := w; processed_files := processed_files a;
                   missing_documents := missing_documents a;
                   user_provided_content := user_provided_content a |}) c.

(** [context.processed_files.append(x)] and its two siblings *)
Definition processed_files_append (x : string) : M A unit :=
  modify (fun a => {| ag_world := ag_world a; processed_files := processed_files a ++ [x];
                      missing_documents := missing_documents a;
                      user_provided_content := user_provided_content a |}).

Definition missing_documents_append (x : string) : M A unit :=
  modify (fun a => {| ag_world := ag_world a; processed_files := processed_files a;
                      missing_documents := missing_documents a ++ [x];
                      user_provided_content := user_provided_content a |}).

Definition user_provided_content_append (x : string) : M A unit :=
  modify (fun a => {| ag_world := ag_world a; processed_files := processed_files a;
                      missing_documents := missing_documents a;
                      user_provided_content := user_provided_content a ++ [x] |}).

Definition process_jira_content (ticket_data : Ticket) : M A ProcessedDocument :=
  try_except
    (filepath <- doc_processor (save_jira_content C ticket_data None) ;;
     processed_files_append filepath ;;;
     ret {| filepath := filepath; document_type := "jira";
            source_ticket := t_key ticket_data;
            filename := Py.concat ["jira-"; t_key ticket_data; "-content.md"];
            success := true; error_message := None |})
    (fun e =>
       ret {| filepath := ""; document_type := "jira";
              source_ticket := t_key ticket_data; filename := "";
              success := false; error_message := Some e |}).

Definition check_for_missing_documents (ticket_data : Ticket)
  : M A (list MissingDocumentRequest) :=
  let missing_requests := [] in
  let prd_attachments := identify_prd_attachments ticket_data in
  missing_requests <-
    (match prd_attachments with
     | [] =>
         missing_documents_append "PRD" ;;;
         ret (missing_requests ++ [
           {| mr_document_type := "prd";
              mr_ticket_key := t_key ticket_data;
              mr_message := Py.concat [
                "No PRD (Product Requirements Document) found in "; t_key ticket_data;
                ". This is important for comprehensive test documentation." ];
              mr_options := [
                "Provide PRD content as text";
                "Provide PRD file path/URL";
                "Skip PRD and continue with available information";
                "Check parent Epic for PRD" ] |} ])
     | _ => ret missing_requests
     end) ;;
  let confluence_links := extract_confluence_links (t_description ticket_data) in
  missing_requests <-
    (match confluence_links with
     | [] =>
         missing_documents_append "Confluence" ;;;
         ret (missing_requests ++ [
           {| mr_document_type := "confluence";
              mr_ticket_key := t_key ticket_data;
              mr_message := Py.concat [
                "No Confluence page links found in "; t_key ticket_data;
                ". Additional documentation could improve test coverage." ];
              mr_options := [
                "Provide Confluence page URL(s)";
                "Provide additional documentation as text";
                "Skip Confluence and continue with available information" ] |} ])
     | _ => ret missing_requests
     end) ;;
  let design_attachments := identify_hld_lld_attachments ticket_data in
  missing_requests <-
    (match design_attachments with
     | [] =>
         missing_documents_append "Design Documents" ;;;
         ret (missing_requests ++ [
           {| mr_document_type := "design";
              mr_ticket_key := t_key ticket_data;
              mr_message := Py.concat [
                "No HLD/LLD (High/Low Level Design) documents found in "; t_key ticket_data;
                ". Design docs help create better test cases." ];
              mr_options := [
                "Provide design document file path/URL";
                "Provide design specifications as text";
                "Skip design docs and continue with available information" ] |} ])
     | _ => ret missing_requests
     end) ;;
  ret missing_requests.

Definition process_user_provided_content (content_type content ticket_key : string)
  : M A ProcessedDocument :=
  try_except
    (filepath <-
       (if String.eqb (Py.lower content_type) "prd" then
          doc_processor (save_user_content C content
                           (Py.concat ["user-provided-prd-"; ticket_key; ".md"]))
        else if String.eqb (Py.lower content_type) "confluence" then
          doc_processor (save_user_content C content
                           (Py.concat ["user-provided-confluence-"; ticket_key; ".md"]))
        else if String.eqb (Py.lower content_type) "design" then
          doc_processor (save_user_content C content
                           (Py.concat ["user-provided-design-"; ticket_key; ".md"]))
        else
          doc_processor (save_user_content C content
                           (Py.concat ["user-provided-"; content_type; "-"; ticket_key; ".md"]))) ;;
     processed_files_append filepath ;;;
     user_provided_content_append content_type ;;;
     ret {| filepath := filepath;
            document_type := "user-provided-" +:+ Py.lower content_type;
            source_ticket := ticket_key;
            filename := Py.concat ["user-provided-"; Py.lower content_type; "-"; ticket_key; ".md"];
            success := true; error_message := None |})
    (fun e =>
       ret {| filepath := "";
              document_type := "user-provided-" +:+ Py.lower content_type;
              source_ticket := ticket_key; filename := "";
              success := false; error_message := Some e |}).

Definition process_user_provided_url (url content_type ticket_key : string)
  : M A ProcessedDocument :=
  try_except
    (filepath <-
       (if Py.contains (Py.lower url) "confluence" then
          doc_processor (fetch_confluence_page C url ticket_key 1)
        else
          doc_processor (fetch_document_from_url C url content_type ticket_key)) ;;
     if negb (no_text filepath) then
       processed_files_append (text_of filepath) ;;;
       user_provided_content_append content_type ;;;
       ret {| filepath := text_of filepath;
              document_type := "user-provided-" +:+ Py.lower content_type;
              source_ticket := ticket_key;
              filename := Py.concat ["user-provided-"; Py.lower content_type; "-"; ticket_key];
              success := true; error_message := None |}
     else
       ret {| filepath := "";
              document_type := "user-provided-" +:+ Py.lower content_type;
              source_ticket := ticket_key; filename := "";
              success := false;
              error_message := Some "Could not fetch content from URL" |})
    (fun e =>
       ret {| filepath := "";
              document_type := "user-provided-" +:+ Py.lower content_type;
              source_ticket := ticket_key; filename := "";
              success := false; error_message := Some e |}).

(** The body of [for i, attachment in enumerate(prd_attachments, 1)];
    [i] is the number of the first item of [attachments]. *)
Fixpoint process_prd_loop (ticket_data : Ticket) (attachments : list Attachment) (i : nat)
    (results : list ProcessedDocument) : M A (list ProcessedDocument) :=
  match attachments with
  | [] => ret results
  | attachment :: attachments' =>
      result <-
        try_except
          (filepath <- doc_processor (process_attachment C attachment "prd"
                                        (t_key ticket_data) i) ;;
           if negb (no_text filepath) then
             processed_files_append (text_of filepath) ;;;
             ret {| filepath := text_of filepath; document_type := "prd";
                    source_ticket := t_key ticket_data;
                    filename := a_filename attachment;
                    success := true; error_message := None |}
           else
             ret {| filepath := ""; document_type := "prd";
                    source_ticket := t_key ticket_data;
                    filename := a_filename attachment;
                    success := false;
                    error_message := Some "Could not extract content" |})
          (fun e =>
             ret {| filepath := ""; document_type := "prd";
                    source_ticket := t_key ticket_data;
                    filename := a_filename attachment;
                    success := false; error_message := Some e |}) ;;
      process_prd_loop ticket_data attachments' (S i) (results ++ [result])
  end.

Definition process_prd_attachments (ticket_data : Ticket) : M A (list ProcessedDocument) :=
  let results := [] in
  let prd_attachments := identify_prd_attachments ticket_data in
  match prd_attachments with
  | [] => ret results
  | _ => process_prd_loop ticket_data prd_attachments 1 results
  end.

(** ["hld" if "hld" in name.lower() or "high" in name.lower() else "lld"] *)
Definition doc_type_of (name : string) : string :=
  if Py.contains (Py.lower name) "hld" || Py.contains (Py.lower name) "high"
  then "hld" else "lld".

Fixpoint process_design_loop (ticket_data : Ticket) (attachments : list Attachment) (i : nat)
    (results : list ProcessedDocument) : M A (list ProcessedDocument) :=
  match attachments with
  | [] => ret results
  | attachment :: attachments' =>
      result <-
        try_except
          (let doc_type := doc_type_of (a_filename attachment) in
           filepath <- doc_processor (process_attachment C attachment doc_type
                                        (t_key ticket_data) i) ;;
           if negb (no_text filepath) then
             processed_files_append (text_of filepath) ;;;
             ret {| filepath := text_of filepath; document_type := doc_type;
                    source_ticket := t_key ticket_data;
                    filename := a_filename attachment;
                    success := true; error_message := None |}
           else
             ret {| filepath := ""; document_type := doc_type;
                    source_ticket := t_key ticket_data;
                    filename := a_filename attachment;
                    success := false;
                    error_message := Some "Could not extract content" |})
          (fun e =>
             ret {| filepath := ""; document_type := "lld";
                    source_ticket := t_key ticket_data;
                    filename := a_filename attachment;
                    success := false; error_message := Some e |}) ;;
      process_design_loop ticket_data attachments' (S i) (results ++ [result])
  end.

Definition process_design_attachments (ticket_data : Ticket) : M A (list ProcessedDocument) :=
  let results := [] in
  let design_attachments := identify_hld_lld_attachments ticket_data in
  match design_attachments with
  | [] => ret results
  | _ => process_design_loop ticket_data design_attachments 1 results
  end.

Fixpoint process_confluence_loop (source_ticket : string) (confluence_links : list string)
    (i : nat) (results : list ProcessedDocument) : M A (list ProcessedDocument) :=
  match confluence_links with
  | [] => ret results
  | link :: confluence_links' =>
      result <-
        try_except
          (filepath <- doc_processor (fetch_confluence_page C link source_ticket i) ;;
           if negb (no_text filepath) then
             processed_files_append (text_of filepath) ;;;
             ret {| filepath := text_of filepath; document_type := "confluence";
                    source_ticket := source_ticket;
                    filename := "confluence-page-" +:+ pretty i;
                    success := true; error_message := None |}
           else
             ret {| filepath := ""; document_type := "confluence";
                    source_ticket := source_ticket;
                    filename := "confluence-page-" +:+ pretty i;
                    success := false;
                    error_message := Some "Could not fetch page" |})
          (fun e =>
             ret {| filepath := ""; document_type := "confluence";
                    source_ticket := source_ticket;
                    filename := "confluence-page-" +:+ pretty i;
                    success := false; error_message := Some e |}) ;;
      process_confluence_loop source_ticket confluence_links' (S i) (results ++ [result])
  end.

Definition process_confluence_links (confluence_links : list string) (source_ticket : string)
  : M A (list ProcessedDocument) :=
  let results := [] in
  match confluence_links with
  | [] => ret results
  | _ => process_confluence_loop source_ticket confluence_links 1 results
  end.

Definition consolidate_documents : M A string :=
  try_except
    (context <- get_state ;;
     final_path <- doc_processor (DocumentProcessor.consolidate_documents C
                                    (processed_files context)) ;;
     ret final_path)
    (fun e => raise ("Failed to consolidate documents: " +:+ e)).

Definition get_processing_summary : M A DocumentProcessingResult :=
  context <- get_state ;;
  let successful_docs := List.filter Py.truthy (processed_files context) in
  let failed_count := length (processed_files context) - length successful_docs in
  ret {| processed_documents_field := [];
         total_documents := length (processed_files context);
         successful_documents := length successful_docs;
         failed_documents := failed_count;
         final_content_path_field := None;
         missing_documents_field := missing_documents context;
         user_provided_content_field := user_provided_content context |}.

End Defs.
End DocumentAgent.

(** *** [test_genius_chatbot.py]: phases 2 and 3 of [TestGeniusChatbot] *)

Module Chatbot.
Import DocumentProcessor JiraClient.
Section Defs.
Context {Env : Type} (C : Runtime Env).

Local Abbreviation W := (World Env).
Local Abbreviation B := (BotState Env).

Definition doc_processor {T} (c : M W T) : M B T :=
  zoom b_world
    (fun w b => {| b_world := w; current_ticket := current_ticket b;
                   current_epic := current_epic b;
                   processed_documents := processed_documents b;
                   final_content_path := final_content_path b |}) c.

(** [self.processed_documents.append(x)] *)
Definition processed_documents_append (x : string) : M B unit :=
  modify (fun b => {| b_world := b_world b; current_ticket := current_ticket b;
                      current_epic := current_epic b;
                      processed_documents := processed_documents b ++ [x];
                      final_content_path := final_content_path b |}).

Definition set_final_content_path (x : string) : M B unit :=
  modify (fun b => {| b_world := b_world b; current_ticket := current_ticket b;
                      current_epic := current_epic b;
                      processed_documents := processed_documents b;
                      final_content_path := Some x |}).

Definition _save_jira_content : M B unit :=
  self <- get_state ;;
  try_except
    (filepath <- doc_processor (save_jira_content C (current_ticket self) None) ;;
     processed_documents_append filepath)
    (fun e => ret tt) ;;;
  match current_epic self with
  | Some epic =>
      try_except
        (filepath <- doc_processor (save_jira_content C epic None) ;;
         processed_documents_append filepath)
        (fun e => ret tt)
  | None => ret tt
  end.

(** [while True: line = input(); prd_content += line + "\n"], left at
    [EOFError]. *)
Fixpoint read_lines (fuel : nat) (prd_content : string) : M B string :=
  match fuel with
  | O => out_of_fuel
  | S fuel' =>
      line <- doc_processor (external (fun e => let (l, e') := input C e in (Ok l, e'))) ;;
      match line with
      | Some line => read_lines fuel' (prd_content +:+ line +:+ Py.nl)
      | None => ret prd_content
      end
  end.

Definition _handle_manual_prd_input (fuel : nat) : M B unit :=
  prd_content <- read_lines fuel "" ;;
  if Py.truthy (Py.strip prd_content) then
    let filename := "prd-manual-content.md" in
    filepath <- doc_processor (save_markdown_file C
                  (Py.concat ["# Manual PRD Content"; Py.nl; Py.nl; prd_content]) filename) ;;
    processed_documents_append filepath
  else ret tt.

Fixpoint _handle_manual_confluence_input (fuel : nat) : M B unit :=
  match fuel with
  | O => out_of_fuel
  | S fuel' =>
      url <- doc_processor (external (fun e =>
               let (u, e') := Prompt_ask C "Enter Confluence page URL (or press Enter to skip)" e
               in (Ok u, e'))) ;;
      if negb (Py.truthy url) then ret tt
      else
        try_except
          (self <- get_state ;;
           filepath <- doc_processor (fetch_confluence_page C url
                         (t_key (current_ticket self))
                         (length (processed_documents self) + 1)) ;;
           if negb (no_text filepath) then processed_documents_append (text_of filepath)
           else ret tt)
          (fun e => ret tt) ;;;
        _handle_manual_confluence_input fuel'
  end.

Definition confirm (question : string) : M B bool :=
  doc_processor (external (fun e => let (b, e') := Confirm_ask C question e in (Ok b, e'))).

(** [True] when the epic is set and [attachment] is one of the
    attachments [identify] finds on it. *)
Definition from_epic (identify : Ticket -> list Attachment) (epic : option Ticket)
    (attachment : Attachment) : bool :=
  match epic with
  | Some epic => bool_decide (attachment ∈ identify epic)
  | None => false
  end.

Fixpoint _process_prd_loop (attachments : list Attachment) (i : nat) : M B unit :=
  match attachments with
  | [] => ret tt
  | attachment :: attachments' =>
      try_except
        (self <- get_state ;;
         let source_ticket :=
           if from_epic identify_prd_attachments (current_epic self) attachment
           then match current_epic self with
                | Some epic => t_key epic
                | None => t_key (current_ticket self)
                end
           else t_key (current_ticket self) in
         filepath <- doc_processor (process_attachment C attachment "prd" source_ticket i) ;;
         if negb (no_text filepath) then processed_documents_append (text_of filepath)
         else ret tt)
        (fun e => ret tt) ;;;
      _process_prd_loop attachments' (S i)
  end.

Definition _process_prd_attachments (fuel : nat) : M B unit :=
  self <- get_state ;;
  let prd_attachments := identify_prd_attachments (current_ticket self) in
  let prd_attachments :=
    match current_epic self with
    | Some epic => prd_attachments ++ identify_prd_attachments epic
    | None => prd_attachments
    end in
  match prd_attachments with
  | _ :: _ => _process_prd_loop prd_attachments 1
  | [] =>
      answer <- confirm "Would you like to provide PRD content manually?" ;;
      if answer then _handle_manual_prd_input fuel else ret tt
  end.

Fixpoint _process_confluence_loop (confluence_links : list (string * string)) (i : nat)
  : M B unit :=
  match confluence_links with
  | [] => ret tt
  | (link, source_ticket) :: confluence_links' =>
      try_except
        (filepath <- doc_processor (fetch_confluence_page C link source_ticket i) ;;
         if negb (no_text filepath) then processed_documents_append (text_of filepath)
         else ret tt)
        (fun e => ret tt) ;;;
      _process_confluence_loop confluence_links' (S i)
  end.

Definition _process_confluence_links (fuel : nat) : M B unit :=
  self <- get_state ;;
  let confluence_links := [] in
  let confluence_links :=
    if Py.truthy (t_description (current_ticket self)) then
      let links := extract_confluence_links (t_description (current_ticket self)) in
      confluence_links ++ map (fun link => (link, t_key (current_ticket self))) links
    else confluence_links in
  let confluence_links :=
    match current_epic self with
    | Some epic =>
        if Py.truthy (t_description epic) then
          let links := extract_confluence_links (t_description epic) in
          confluence_links ++ map (fun link => (link, t_key epic)) links
        else confluence_links
    | None => confluence_links
    end in
  match confluence_links with
  | _ :: _ => _process_confluence_loop confluence_links 1
  | [] =>
      answer <- confirm "Would you like to provide Confluence page URLs manually?" ;;
      if answer then _handle_manual_confluence_input fuel else ret tt
  end.

Fixpoint _process_design_loop (attachments : list Attachment) (i : nat) : M B unit :=
  match attachments with
  | [] => ret tt
  | attachment :: attachments' =>
      try_except
        (self <- get_state ;;
         let source_ticket :=
           if from_epic identify_hld_lld_attachments (current_epic self) attachment
           then match current_epic self with
                | Some epic => t_key epic
                | None => t_key (current_ticket self)
                end
           else t_key (current_ticket self) in
         let doc_type := DocumentAgent.doc_type_of (a_filename attachment) in
         filepath <- doc_processor (process_attachment C attachment doc_type source_ticket i) ;;
         if negb (no_text filepath) then processed_documents_append (text_of filepath)
         else ret tt)
        (fun e => ret tt) ;;;
      _process_design_loop attachments' (S i)
  end.

Definition _process_design_documents (fuel : nat) : M B unit :=
  self <- get_state ;;
  let design_attachments := identify_hld_lld_attachments (current_ticket self) in
  let design_attachments :=
    match current_epic self with
    | Some epic => design_attachments ++ identify_hld_lld_attachments epic
    | None => design_attachments
    end in
  (match design_attachments with
   | _ :: _ => _process_design_loop design_attachments 1
   | [] => ret tt
   end) ;;;
  _process_confluence_links fuel.

Definition _phase_2_information_gathering (fuel : nat) : M B unit :=
  _save_jira_content ;;;
  _process_prd_attachments fuel ;;;
  _process_design_documents fuel.

Definition _phase_3_consolidation : M B unit :=
  self <- get_state ;;
  match processed_documents self with
  | [] => ret tt
  | _ =>
      try_except
        (final_path <- doc_processor (consolidate_documents C (processed_documents self)) ;;
         set_final_content_path final_path)
        (fun e => ret tt)
  end.

End Defs.
End Chatbot.

(** ** A concrete runtime, tickets and attachments for the examples *)

Module Example.

(** The environment counts the calls made so far.  Downloading the URL
    ["bad"] fails, any other download yields the bytes its URL names:
    nothing for ["empty"], one letter otherwise.  The PDF reader finds two
    pages unless there are no bytes. *)
Definition runtime : Runtime nat := {|
  PdfReader_pages b :=
    match b with
    | [] => Raise "Cannot read an empty file"
    | _ => Ok [Ok "page one"; Ok " page two "]
    end;
  Document_paragraphs b := Ok [Ok "paragraph"];
  soup_get_text j := match j with JStr s => Ok s | _ => Raise "expected string" end;
  decode_utf8_ignore b := match Py.decode_ascii b with Some s => s | None => "" end;
  str_upper s := s;
  str_title s := s;
  json_repr j := "?";
  b64encode b := b;
  requests_get url headers timeout e := (Raise "offline", S e);
  datetime_now e := ("2024-01-01 00:00:00", S e);
  open_w_error p := None;
  download_attachment url name e :=
    (if String.eqb url "bad" then Raise "404"
     else if String.eqb url "empty" then Ok []
     else Ok [Byte.x41], S e);
  Confirm_ask q e := (false, S e);
  Prompt_ask q e := ("", S e);
  input e := (None, S e);
  documents_folder := "documents";
  confluence_server := "https://wiki.example";
  confluence_username := "user";
  confluence_api_token := "token"
|}.

(** The same with a network that answers: every request is served the
    wiki page whose title and body name the URL that was asked for. *)
Definition online : Runtime nat := {|
  PdfReader_pages := PdfReader_pages runtime;
  Document_paragraphs := Document_paragraphs runtime;
  soup_get_text := soup_get_text runtime;
  decode_utf8_ignore := decode_utf8_ignore runtime;
  str_upper := str_upper runtime;
  str_title := str_title runtime;
  json_repr := json_repr runtime;
  b64encode := b64encode runtime;
  requests_get url headers timeout e :=
    (Ok {| raise_for_status := Ok tt;
           resp_content := [];
           resp_text := "";
           resp_content_type := Some "application/json";
           resp_json := Ok (JObj [
             ("title", JStr ("Page at " +:+ url));
             ("body", JObj [("storage", JObj [("value", JStr ("Body of " +:+ url))])]);
             ("version", JObj [("number", JStr "3")]) ]) |}, S e);
  datetime_now := datetime_now runtime;
  open_w_error := open_w_error runtime;
  download_attachment := download_attachment runtime;
  Confirm_ask := Confirm_ask runtime;
  Prompt_ask := Prompt_ask runtime;
  input := input runtime;
  documents_folder := documents_folder runtime;
  confluence_server := confluence_server runtime;
  confluence_username := confluence_username runtime;
  confluence_api_token := confluence_api_token runtime
|}.

Definition attachment (name url : string) : Attachment := {|
  a_id := "1"; a_filename := name; a_size := 10; a_created := "2024-01-01";
  a_author := "author"; a_content_type := "application/octet-stream";
  a_download_url := url
|}.

Definition ticket (key description : string) (attachments : list Attachment) : Ticket := {|
  t_key := key; t_summary := "summary"; t_description := description;
  t_issue_type := "Story"; t_status := "Open"; t_priority := "High";
  t_assignee := "assignee"; t_reporter := "reporter";
  t_created := "2024-01-01"; t_updated := "2024-01-02";
  t_project := "Project"; t_project_key := "PRJ";
  t_attachments := attachments; t_epic_link := None; t_parent := None;
  t_subtasks := []; t_components := []; t_labels := []; t_fix_versions := []
|}.

Definition world : World nat := {| w_fs := ∅; w_env := 0 |}.

(** A world with two stored units. *)
Definition stored : World nat := {|
  w_fs := <["documents/b.md" := "B"]> (<["documents/a.md" := "A"]> ∅);
  w_env := 0
|}.

Definition agent : AgentState nat := {|
  ag_world := world; processed_files := []; missing_documents := [];
  user_provided_content := []
|}.

Definition bot (t : Ticket) (epic : option Ticket) : BotState nat := {|
  b_world := world; current_ticket := t; current_epic := epic;
  processed_documents := []; final_content_path := None
|}.

End Example.

(** * The vocabulary of the statements

    Definitions the theorems are stated with.  None of them is part of
    the program. *)

Import DocumentProcessor JiraClient.

(** ** Texts and patterns *)

(** [all p u]: every character of [u] is in the class [p]. *)
Fixpoint all (p : ascii -> bool) (u : string) : bool :=
  match u with
  | EmptyString => true
  | String c u' => p c && all p u'
  end.

(** [matches_to r s s']: the pattern [r] can match a prefix of [s] and
    leave [s']. *)
Fixpoint matches_to (r : Re.regex) (s s' : string) : Prop :=
  match r with
  | Re.Eps => s' = s
  | Re.Chr p => exists c, s = String c s' /\ p c = true
  | Re.Cat r1 r2 => exists m, matches_to r1 s m /\ matches_to r2 m s'
  | Re.Alt r1 r2 => matches_to r1 s s' \/ matches_to r2 s s'
  | Re.Star p => exists u, s = u +:+ s' /\ all p u = true
  | Re.Group r1 => matches_to r1 s s'
  | Re.Eol => s' = s /\ Re.at_end s = true
  end.

(** [s[n:]] *)
Fixpoint skip (n : nat) (s : string) : string :=
  match n, s with
  | S n', String _ s' => skip n' s'
  | _, _ => s
  end.

(** A string [str.lower] leaves as it is. *)
Definition is_lower (s : string) : Prop := Py.lower s = s.

(** Equality of a piece of text with a literal, under [re.IGNORECASE] or not. *)
Definition same (ic : bool) (u w : string) : Prop :=
  if ic then Py.lower u = Py.lower w else u = w.

(** Text without a line feed: what [.*] can run over. *)
Definition one_line (s : string) : bool := all Re.dot s.

(** [w] occurs in [s] and what follows that occurrence satisfies [k]. *)
Fixpoint occurs_then (w : string) (k : string -> bool) (s : string) : bool :=
  (Py.startswith s w && k (skip (String.length w) s))
  || match s with
     | EmptyString => false
     | String _ s' => occurs_then w k s'
     end.

(** [s] contains the words [ws] one after the other, without overlap. *)
Fixpoint in_order (ws : list string) (s : string) : bool :=
  match ws with
  | [] => true
  | w :: ws' => occurs_then w (in_order ws') s
  end.

(** [s] without its ending [suffix], if it ends so. *)
Definition strip_suffix (suffix s : string) : option string :=
  if Py.endswith s suffix
  then Some (Py.take (String.length s - String.length suffix) s)
  else None.

(** [s], or [s] without a line feed that ends it, is a one-line text that
    contains the words [ws] in order and then ends with one of [exts]. *)
Definition named (exts ws : list string) (s : string) : bool :=
  existsb (fun ext =>
    existsb (fun t =>
      match strip_suffix (ext +:+ t) s with
      | Some body => one_line body && in_order ws body
      | None => false
      end) [""; Py.nl]) exts.

(** The names the two classifiers keep, read off the two pattern tables. *)
Definition requirements_name (s : string) : bool :=
  existsb (fun ws => named [".pdf"] ws s)
    [["prd"]; ["product"; "requirement"]; ["requirement"; "document"];
     ["functional"; "spec"]; ["business"; "requirement"]]
  || existsb (fun ws => named [".doc"; ".docx"] ws s)
    [["prd"]; ["product"; "requirement"]; ["requirement"; "document"]].

Definition design_name (s : string) : bool :=
  existsb (fun ws => named [".pdf"] ws s)
    [["hld"]; ["high"; "level"; "design"]; ["lld"]; ["low"; "level"; "design"];
     ["technical"; "design"]; ["architecture"]; ["design"; "document"]]
  || existsb (fun ws => named [".doc"; ".docx"] ws s)
    [["hld"]; ["lld"]; ["design"]].

(** The pattern [.*w1.*w2 ... .*] *)
Definition words_pattern (ws : list string) : list Re.regex :=
  any :: flat_map (fun w => [word w; any]) ws.

(** When the end of a pattern accepts exactly the extensions [exts],
    followed by nothing or by one line feed. *)
Definition accepts (tail : list Re.regex) (exts : list string) : Prop :=
  forall rest, is_lower rest ->
    (exists s', matches_to (Re.seq tail) rest s') <->
    exists ext t, In ext exts /\ (t = "" \/ t = Py.nl) /\ rest = ext +:+ t.

(** The names the specification says the classifiers keep. *)
Definition claimed_requirements_name (s : string) : bool :=
  existsb (Py.contains s)
    ["prd"; "product requirement"; "requirement document"; "functional spec";
     "business requirement"]
  && existsb (Py.endswith s) [".pdf"; ".doc"; ".docx"].

Definition claimed_design_name (s : string) : bool :=
  existsb (Py.contains s)
    ["hld"; "high level design"; "lld"; "low level design"; "technical design";
     "architecture"; "design document"]
  && existsb (Py.endswith s) [".pdf"; ".doc"; ".docx"].

(** The longest prefix of [s] made of characters of the class [p]. *)
Fixpoint take_while (p : ascii -> bool) (s : string) : string :=
  match s with
  | EmptyString => EmptyString
  | String c s' => if p c then String c (take_while p s') else EmptyString
  end.

(** The digits right after [pre] at the start of [s]: all of them, at
    least one, and only when [post] follows. *)
Definition digits_between (pre post s : string) : option string :=
  if Py.startswith s pre then
    let rest := skip (String.length pre) s in
    let d := take_while Re.digit rest in
    if Py.truthy d && Py.startswith (skip (String.length d) rest) post then Some d else None
  else None.

(** The same at the first place of [s] that has such digits. *)
Fixpoint first_digits (pre post s : string) : option string :=
  match digits_between pre post s with
  | Some d => Some d
  | None =>
      match s with
      | EmptyString => None
      | String _ s' => first_digits pre post s'
      end
  end.

(** The page identifier of a URL, in the words of the specification. *)
Definition page_id_spec (page_url : string) : option string :=
  match first_digits "/pages/" "/" page_url with
  | Some d => Some d
  | None =>
      match first_digits "pageId=" "" page_url with
      | Some d => Some d
      | None => first_digits "/" "/" page_url
      end
  end.

(** A literal that cannot begin inside a run of the class [p]. *)
Definition stops (p : ascii -> bool) (post : string) : Prop :=
  match post with
  | EmptyString => True
  | String c _ => p c = false
  end.

(** ** Files and their names *)


(** Whether [_extract_text_from_bytes] takes its first branch. *)
Definition is_pdf (filename content_type : string) : bool :=
  Py.endswith (Py.lower filename) ".pdf" || Py.contains (Py.lower content_type) "pdf".

(** The text the specification gives for the pages of a PDF: their texts
    with a line feed between one and the next. *)
Definition claimed_pdf_text (texts : list string) : string := Py.join Py.nl texts.

(** The same with a line feed after every page, the last one included. *)
Definition claimed_pdf_lines (texts : list string) : string :=
  Py.concat (map (fun text => text +:+ Py.nl) texts).

(** The texts [consolidate_documents] reads: those of the listed files
    that exist, in the order of the list, as text mode delivers them. *)
Definition stored_texts (fs : gmap string string) (document_files : list string)
  : list string :=
  omap (fun doc_file => Py.universal_newlines <$> fs !! doc_file) document_files.

(** The numbers under which the successful results of a loop that
    starts counting at [i] were stored. *)
Fixpoint stored_numbers (results : list ProcessedDocument) (i : nat) : list nat :=
  match results with
  | [] => []
  | r :: results' => (if success r then [i] else []) ++ stored_numbers results' (S i)
  end.

(** The paths a loop of the chatbot appends: [flags] tells, attachment by
    attachment, whether the fetch succeeded; [i] is the number of the
    first attachment. *)
Fixpoint stored_paths (path : Attachment -> nat -> string)
    (attachments : list Attachment) (flags : list bool) (i : nat) : list string :=
  match attachments, flags with
  | attachment :: attachments', flag :: flags' =>
      (if flag then [path attachment i] else [])
      ++ stored_paths path attachments' flags' (S i)
  | _, _ => []
  end.

(** Whether [_extract_text_from_bytes] takes its second branch when the
    first is not taken. *)
Definition is_word (filename content_type : string) : bool :=
  (Py.endswith (Py.lower filename) ".docx" || Py.endswith (Py.lower filename) ".doc")
  || Py.contains (Py.lower content_type) "word".

(** Whether the HTML reader is what is left to run: the name or type says
    HTML and nothing says text. *)
Definition is_html_only (filename content_type : string) : bool :=
  negb ((Py.endswith (Py.lower filename) ".txt" || Py.endswith (Py.lower filename) ".md")
        || Py.contains (Py.lower content_type) "text")
  && (Py.endswith (Py.lower filename) ".html" || Py.contains (Py.lower content_type) "html").


(** The text written for the artifact. *)
Definition artifact_text (fs : gmap string string) (document_files : list string) : string :=
  consolidated_header +:+ Py.concat (map consolidated_part (stored_texts fs document_files)).

(** The name of a unit in the documents folder: a plain file name (no
    folder in it) that ends with .md and is not the name of the artifact,
    whatever the case of its letters. *)
Definition unit_name (name : string) : bool :=
  Py.endswith name ".md" && negb (Py.contains name "/")
  && negb (String.eqb (Py.lower name) "final-content.md").

(** [[x]] when [l] is empty, and nothing else. *)
Definition if_none {A B} (l : list A) (x : B) : list B :=
  match l with
  | [] => [x]
  | _ => []
  end.


Section Vocabulary.
Context {Env : Type} (C : Runtime Env).

(** The path [process_attachment] writes to. *)
Definition attachment_path (attachment_type source_ticket : string) (n : nat) : string :=
  Py.os_path_join (documents_folder C)
    (Py.concat [attachment_type; "-from-"; source_ticket; "-attachment"; pretty n; "-content.md"]).

(** The text [process_attachment] writes for the extracted [text]. *)
Definition attachment_markdown (attachment : Attachment)
    (attachment_type source_ticket text : string) : string :=
  Py.concat [
    "# "; str_upper C attachment_type; " Document: "; a_filename attachment; Py.nl; Py.nl;
    "**Source**: Jira Ticket "; source_ticket; Py.nl;
    "**File Type**: "; a_content_type attachment; Py.nl;
    "**Size**: "; pretty (a_size attachment); " bytes"; Py.nl;
    "**Created**: "; a_created attachment; " by "; a_author attachment; Py.nl; Py.nl;
    "## Content"; Py.nl; Py.nl;
    text; Py.nl ].

(** The text [process_attachment] finds in an attachment that it
    downloads in the environment [e]: none when the download fails, when
    the extraction gives nothing, and when the text is empty. *)
Definition attachment_text (attachment : Attachment) (e : Env) : option string :=
  match fst (download_attachment C (a_download_url attachment) (a_filename attachment) e) with
  | Ok content_bytes =>
      match _extract_text_from_bytes C content_bytes (a_filename attachment)
              (a_content_type attachment) with
      | Ok (Some text) => if Py.truthy text then Some text else None
      | _ => None
      end
  | Raise _ => None
  end.

(** The text that gets stored at [path] for an attachment: the text found
    in it, when the file can be written. *)
Definition stored_text (path : string) (attachment : Attachment) (e : Env) : option string :=
  match open_w_error C path with
  | None => attachment_text attachment e
  | Some _ => None
  end.

(** The environment in which a loop downloads the [k]-th of [attachments]
    when it downloads the first of them in [e]: every download before has
    moved it on. *)
Fixpoint env_at (attachments : list Attachment) (k : nat) (e : Env) : Env :=
  match attachments, k with
  | attachment :: attachments', S k' =>
      env_at attachments' k'
        (snd (download_attachment C (a_download_url attachment) (a_filename attachment) e))
  | _, _ => e
  end.

(** Whether the [k]-th attachment of a loop gets stored.  The loop runs
    over [attachments] from the environment [e] and counts from [i]; [ty]
    and [src] give the category and the ticket an attachment is filed
    under. *)
Definition is_stored (ty src : Attachment -> string) (i : nat)
    (attachments : list Attachment) (e : Env) (k : nat) (attachment : Attachment) : bool :=
  match stored_text (attachment_path (ty attachment) (src attachment) (i + k)) attachment
          (env_at attachments k e) with
  | Some _ => true
  | None => false
  end.

(** What such a loop has done to the world [w] when it leaves [w']: the
    downloads, one for each attachment, have moved the environment on;
    every text that was found and could be written is in the file named
    by the category, the ticket and the number of its attachment; and no
    other file has changed. *)
Definition units_stored (ty src : Attachment -> string) (i : nat)
    (attachments : list Attachment) (w w' : World Env) : Prop :=
  w_env w' = env_at attachments (length attachments) (w_env w) /\
  (forall k attachment text,
     attachments !! k = Some attachment ->
     stored_text (attachment_path (ty attachment) (src attachment) (i + k)) attachment
       (env_at attachments k (w_env w)) = Some text ->
     w_fs w' !! attachment_path (ty attachment) (src attachment) (i + k)
       = Some (attachment_markdown attachment (ty attachment) (src attachment) text)) /\
  (forall q,
     (forall k attachment,
        attachments !! k = Some attachment ->
        is_stored ty src i attachments (w_env w) k attachment = true ->
        attachment_path (ty attachment) (src attachment) (i + k) <> q) ->
     w_fs w' !! q = w_fs w !! q).

Definition final_path : string := Py.os_path_join (documents_folder C) "final-content.md".

Definition confluence_path (source_ticket : string) (n : nat) : string :=
  Py.os_path_join (documents_folder C)
    (Py.concat ["conf-from-"; source_ticket; "-page"; pretty n; "-content.md"]).

Definition jira_path (key : string) : string :=
  Py.os_path_join (documents_folder C) (Py.concat ["jira-"; key; "-content.md"]).


(** One round of the loop of [process_design_attachments] (and, with the
    type fixed to "prd", of [process_prd_attachments]). *)
Definition round_ok (ty key : string) (attachment : Attachment) (i : nat)
    (a : AgentState Env) (r : ProcessedDocument) (a' : AgentState Env) : Prop :=
  filename r = a_filename attachment /\
  document_type r = ty /\
  source_ticket r = key /\
  missing_documents a' = missing_documents a /\
  user_provided_content a' = user_provided_content a /\
  w_env (ag_world a') =
    snd (download_attachment C (a_download_url attachment) (a_filename attachment)
           (w_env (ag_world a))) /\
  ((success r = false /\ filepath r = "" /\
    processed_files a' = processed_files a /\
    w_fs (ag_world a') = w_fs (ag_world a)) \/
   (success r = true /\ filepath r = attachment_path ty key i /\
    error_message r = None /\
    processed_files a' = processed_files a ++ [attachment_path ty key i] /\
    exists text, Py.truthy text = true /\
      w_fs (ag_world a') =
        <[attachment_path ty key i := attachment_markdown attachment ty key text]>
          (w_fs (ag_world a)))).

(** The rounds of a loop over [attachments] that starts counting at [i]:
    the state before, the results and the state after. *)
Inductive rounds (ty : Attachment -> string) (key : string)
  : nat -> AgentState Env -> list Attachment -> list ProcessedDocument -> AgentState Env -> Prop :=
| rounds_nil i a : rounds ty key i a [] [] a
| rounds_cons i a attachment attachments r rs a1 a2 :
    round_ok (ty attachment) key attachment i a r a1 ->
    rounds ty key (S i) a1 attachments rs a2 ->
    rounds ty key i a (attachment :: attachments) (r :: rs) a2.

(** The ticket the chatbot files an attachment under. *)
Definition source_of (identify : Ticket -> list Attachment) (b : BotState Env)
    (attachment : Attachment) : string :=
  if Chatbot.from_epic identify (current_epic b) attachment
  then match current_epic b with
       | Some epic => t_key epic
       | None => t_key (current_ticket b)
       end
  else t_key (current_ticket b).

(** Two states of the chatbot with the same tickets and artifact path. *)
Definition same_session (b b' : BotState Env) : Prop :=
  current_ticket b' = current_ticket b /\
  current_epic b' = current_epic b /\
  final_content_path b' = final_content_path b.

End Vocabulary.

(** * Properties *)

(** ** Strings *)

Section StringFacts.

Lemma str_app_cons (c : ascii) (s t : string) : String c s +:+ t = String c (s +:+ t).
Proof. reflexivity. Qed.

Lemma str_app_nil_l (s : string) : "" +:+ s = s.
Proof. reflexivity. Qed.

Lemma str_app_nil_r (s : string) : s +:+ "" = s.
Proof. induction s as [|c s IH]; [reflexivity|]. by rewrite str_app_cons, IH. Qed.

Lemma str_app_assoc (s t u : string) : (s +:+ t) +:+ u = s +:+ t +:+ u.
Proof. induction s as [|c s IH]; [reflexivity|]. by rewrite !str_app_cons, IH. Qed.

Lemma str_app_length (s t : string) :
  String.length (s +:+ t) = String.length s + String.length t.
Proof.
  induction s as [|c s IH]; [reflexivity|].
  rewrite str_app_cons. change (S (String.length (s +:+ t)) = S (String.length s + String.length t)).
  by rewrite IH.
Qed.

End StringFacts.

Section ExtractFacts.
Context {Env : Type} (C : Runtime Env).

Lemma res_try_none {A} (c : Res (option A)) :
  exists r, res_try c (fun _ => Ok None) = Ok r.
Proof. destruct c; cbn; eauto. Qed.

Lemma extract_returns (content_bytes : bytes) (filename content_type : string) :
  exists r, _extract_text_from_bytes C content_bytes filename content_type = Ok r.
Proof. unfold _extract_text_from_bytes. apply res_try_none. Qed.

(** Claim C5.  For every byte string, file name and content type,
    [_extract_text_from_bytes] returns: it yields a text or [None] and
    never raises, whatever the libraries it calls do; and called from a
    computation it leaves the world, files and environment, as it was. *)
Theorem extract_text_never_raises (content_bytes : bytes) (filename content_type : string)
    (w : World Env) :
  exists text : option string,
    _extract_text_from_bytes C content_bytes filename content_type = Ok text /\
    lift_res (S := World Env)
      (_extract_text_from_bytes C content_bytes filename content_type) w
    = Some (Ok text, w).
Proof.
  destruct (extract_returns content_bytes filename content_type) as [r Hr].
  exists r. split; [done|]. unfold lift_res. by rewrite Hr.
Qed.

Lemma join_lines_ok (texts : list string) (acc : string) :
  join_lines (map Ok texts) acc = Ok (acc +:+ Py.concat (map (fun t => t +:+ Py.nl) texts)).
Proof.
  revert acc. induction texts as [|t texts IH]; intros acc; cbn.
  - by rewrite str_app_nil_r.
  - rewrite IH. f_equal. by rewrite !str_app_assoc.
Qed.

Lemma join_lines_raise (pages : list (Res string)) (e : string) (acc : string) :
  In (Raise e) pages -> exists e', join_lines pages acc = Raise e'.
Proof.
  revert acc. induction pages as [|p pages IH]; intros acc Hin; [destruct Hin|].
  destruct p as [t|e0]; cbn.
  - destruct Hin as [Heq|Hin]; [discriminate|]. by apply IH.
  - eauto.
Qed.

Lemma rstrip_app_space (s : string) (c : ascii) :
  Py.isspace c = true -> Py.rstrip (s +:+ String c "") = Py.rstrip s.
Proof.
  intros Hc. induction s as [|a s IH].
  - rewrite str_app_nil_l. cbn [Py.rstrip]. by rewrite Hc.
  - rewrite str_app_cons. cbn [Py.rstrip]. by rewrite IH.
Qed.

Lemma lstrip_app (s t : string) :
  Py.lstrip (s +:+ t) =
  match Py.lstrip s with
  | EmptyString => Py.lstrip t
  | r => r +:+ t
  end.
Proof.
  induction s as [|a s IH]; [reflexivity|].
  rewrite str_app_cons. cbn [Py.lstrip]. destruct (Py.isspace a); [exact IH|reflexivity].
Qed.

Lemma strip_app_nl (s : string) : Py.strip (s +:+ Py.nl) = Py.strip s.
Proof.
  unfold Py.strip. rewrite lstrip_app.
  destruct (Py.lstrip s) as [|a r] eqn:E; [reflexivity|].
  by apply rstrip_app_space.
Qed.

Lemma concat_lines_join (texts : list string) :
  Py.strip (Py.concat (map (fun t => t +:+ Py.nl) texts)) = Py.strip (Py.join Py.nl texts).
Proof.
  destruct texts as [|t texts]; [reflexivity|].
  transitivity (Py.strip (Py.join Py.nl (t :: texts) +:+ Py.nl)); [|apply strip_app_nl].
  f_equal. revert t. induction texts as [|t' texts IH]; intros t.
  - cbn. by rewrite !str_app_nil_r.
  - change ((t +:+ Py.nl) +:+ Py.concat (map (fun t => t +:+ Py.nl) (t' :: texts))
            = (t +:+ Py.nl +:+ Py.join Py.nl (t' :: texts)) +:+ Py.nl).
    rewrite IH. by rewrite !str_app_assoc.
Qed.

(** Claim C8, amended.  When the file name ends with .pdf or the content
    type contains "pdf", the extraction is the one of the PDF branch:
    [None] when the reader raises, [None] when the extraction of any page
    raises, never the text of the pages before the failure, and else the
    texts of the pages joined by line feeds with the white space at the
    start and at the end of the whole removed. *)
Theorem pdf_extraction_fails_closed (content_bytes : bytes) (filename content_type : string) :
  is_pdf filename content_type = true ->
  (forall e, PdfReader_pages C content_bytes = Raise e ->
     _extract_text_from_bytes C content_bytes filename content_type = Ok None) /\
  (forall pages e, PdfReader_pages C content_bytes = Ok pages -> In (Raise e) pages ->
     _extract_text_from_bytes C content_bytes filename content_type = Ok None) /\
  (forall texts, PdfReader_pages C content_bytes = Ok (map Ok texts) ->
     _extract_text_from_bytes C content_bytes filename content_type
     = Ok (Some (Py.strip (Py.join Py.nl texts)))).
Proof.
  unfold is_pdf. intros Hpdf. unfold _extract_text_from_bytes. rewrite Hpdf.
  unfold _extract_pdf_text. repeat split.
  - intros e ->. reflexivity.
  - intros pages e -> Hin. cbn.
    destruct (join_lines_raise pages e "" Hin) as [e' ->]. reflexivity.
  - intros texts ->. cbn [res_bind res_try]. rewrite join_lines_ok. cbn [res_bind res_try].
    by rewrite str_app_nil_l, concat_lines_join.
Qed.
End ExtractFacts.

(** Claim C8 as stated fails: the result is not the texts of the pages
    with line feeds between (or after) them.  [_extract_pdf_text] strips
    the whole text, so a second page " page two " loses the space at its
    end. *)
Lemma pdf_text_is_stripped :
  ~ (forall (C : Runtime nat) (content_bytes : bytes) (filename content_type : string)
            (texts : list string),
       is_pdf filename content_type = true ->
       PdfReader_pages C content_bytes = Ok (map Ok texts) ->
       _extract_text_from_bytes C content_bytes filename content_type
         = Ok (Some (claimed_pdf_text texts)) \/
       _extract_text_from_bytes C content_bytes filename content_type
         = Ok (Some (claimed_pdf_lines texts))).
Proof.
  intros H.
  destruct (H Example.runtime [Byte.x41] "PRD-v2.pdf" "application/octet-stream"
              ["page one"; " page two "] eq_refl eq_refl) as [H1|H1];
    vm_compute in H1; discriminate.
Qed.

Lemma pdf_extraction_fails_closed_witness :
  is_pdf "PRD-v2.pdf" "application/octet-stream" = true /\
  _extract_text_from_bytes Example.runtime [Byte.x41] "PRD-v2.pdf" "application/octet-stream"
  = Ok (Some (Py.concat ["page one"; Py.nl; " page two"])).
Proof.
  split; [reflexivity|].
  apply (proj2 (proj2 (pdf_extraction_fails_closed Example.runtime [Byte.x41] "PRD-v2.pdf"
                         "application/octet-stream" eq_refl)) ["page one"; " page two "]).
  reflexivity.
Defined.

Section ProcessAttachment.
Context {Env : Type} (C : Runtime Env).

Lemma truthy_app_l (s t : string) : Py.truthy s = true -> Py.truthy (s +:+ t) = true.
Proof. by destruct s. Qed.

Lemma truthy_app_r (s t : string) : Py.truthy t = true -> Py.truthy (s +:+ t) = true.
Proof. destruct s; [by rewrite str_app_nil_l|done]. Qed.

Lemma truthy_os_path_join (a p : string) :
  Py.truthy p = true -> Py.truthy (Py.os_path_join a p) = true.
Proof.
  intros Hp. unfold Py.os_path_join.
  destruct (Py.startswith p "/"); [done|].
  destruct (negb (Py.truthy a) || Py.endswith a "/"); repeat apply truthy_app_r; done.
Qed.

Lemma truthy_attachment_path (ty src : string) (n : nat) :
  Py.truthy (attachment_path C ty src n) = true.
Proof.
  apply truthy_os_path_join. unfold Py.concat. apply truthy_app_r. by apply truthy_app_l.
Qed.

(** What [process_attachment] does, by the outcome of the download, of
    the extraction and of opening the file. *)
Lemma process_attachment_unfold (attachment : Attachment) (ty src : string) (n : nat)
    (w : World Env) :
  process_attachment C attachment ty src n w =
  let (d, e') := download_attachment C (a_download_url attachment) (a_filename attachment)
                   (w_env w) in
  let w1 := set_env e' w in
  match d with
  | Raise _ => Some (Ok None, w1)
  | Ok content_bytes =>
      match _extract_text_from_bytes C content_bytes (a_filename attachment)
              (a_content_type attachment) with
      | Ok (Some (String c text)) =>
          match open_w_error C (attachment_path C ty src n) with
          | Some _ => Some (Ok None, w1)
          | None =>
              Some (Ok (Some (attachment_path C ty src n)),
                    set_fs (fun fs => <[attachment_path C ty src n :=
                                         attachment_markdown C attachment ty src (String c text)]> fs) w1)
          end
      | _ => Some (Ok None, w1)
      end
  end.
Proof.
  unfold process_attachment, try_except, bind, external.
  destruct (download_attachment C _ _ _) as [[b|e] e']; cbn [lift_res]; [|reflexivity].
  unfold lift_res.
  destruct (_extract_text_from_bytes C b _ _) as [[[|c text]|]|e]; try reflexivity.
  cbn [no_text Py.truthy negb text_of]. fold (attachment_path C ty src n).
  fold (attachment_markdown C attachment ty src (String c text)).
  unfold write_text. destruct (open_w_error C _); reflexivity.
Qed.

(** [process_attachment] never raises and always returns; when it returns
    no path the files are as before, else the one file named by the
    type, the ticket and the number has been written. *)
Lemma process_attachment_cases (attachment : Attachment) (ty src : string) (n : nat)
    (w : World Env) :
  exists (r : option string) (w' : World Env),
    process_attachment C attachment ty src n w = Some (Ok r, w') /\
    ((r = None /\ w_fs w' = w_fs w) \/
     (r = Some (attachment_path C ty src n) /\
      exists text, Py.truthy text = true /\
        w_fs w' = <[attachment_path C ty src n :=
                     attachment_markdown C attachment ty src text]> (w_fs w))).
Proof.
  rewrite process_attachment_unfold.
  destruct (download_attachment C _ _ _) as [[b|e] e']; cbn zeta; [|eauto 10].
  destruct (_extract_text_from_bytes C b _ _) as [[[|c text]|]|e]; eauto 10.
  destruct (open_w_error C _); eauto 10.
  do 2 eexists. split; [reflexivity|]. right. split; [reflexivity|].
  exists (String c text). split; reflexivity.
Qed.

(** Claim C10.  When the download succeeds and the extraction yields the
    empty string, [process_attachment] returns [None] like on a failed
    extraction: no file is written, only the environment has moved on by
    the download. *)
Theorem process_attachment_empty_text (attachment : Attachment) (ty src : string) (n : nat)
    (w : World Env) (content_bytes : bytes) (e' : Env) :
  download_attachment C (a_download_url attachment) (a_filename attachment) (w_env w)
    = (Ok content_bytes, e') ->
  _extract_text_from_bytes C content_bytes (a_filename attachment) (a_content_type attachment)
    = Ok (Some "") ->
  process_attachment C attachment ty src n w = Some (Ok None, set_env e' w) /\
  w_fs (set_env e' w) = w_fs w.
Proof.
  intros Hd Hx. rewrite process_attachment_unfold, Hd. cbn zeta. rewrite Hx. done.
Qed.

End ProcessAttachment.

(** A file of no bytes named notes.txt decodes to the empty string and is
    not stored. *)
Lemma process_attachment_empty_text_witness :
  download_attachment Example.runtime "empty" "notes.txt" 0 = (Ok [], 1) /\
  _extract_text_from_bytes Example.runtime [] "notes.txt" "application/octet-stream"
    = Ok (Some "") /\
  process_attachment Example.runtime (Example.attachment "notes.txt" "empty") "prd" "T-1" 1
    Example.world = Some (Ok None, set_env 1 Example.world) /\
  w_fs (set_env 1 Example.world) = w_fs Example.world.
Proof.
  split; [reflexivity|]. split; [reflexivity|].
  apply (process_attachment_empty_text Example.runtime
           (Example.attachment "notes.txt" "empty") "prd" "T-1" 1 Example.world [] 1);
    reflexivity.
Defined.

Section AgentLoops.
Context {Env : Type} (C : Runtime Env).
Import DocumentAgent.

Lemma stored_numbers_app (rs1 rs2 : list ProcessedDocument) (i : nat) :
  stored_numbers (rs1 ++ rs2) i = stored_numbers rs1 i ++ stored_numbers rs2 (i + length rs1).
Proof.
  revert i. induction rs1 as [|r rs1 IH]; intros i; cbn.
  - by rewrite Nat.add_0_r.
  - rewrite IH, <- List.app_assoc. do 3 f_equal. lia.
Qed.

Lemma stored_numbers_bounds (rs : list ProcessedDocument) (i k : nat) :
  In k (stored_numbers rs i) -> i <= k < i + length rs.
Proof.
  revert i. induction rs as [|r rs IH]; intros i; cbn; [tauto|].
  rewrite in_app_iff. intros [Hk|Hk].
  - destruct (success r); [|destruct Hk]. destruct Hk as [<-|[]]. lia.
  - apply IH in Hk. lia.
Qed.

Lemma stored_numbers_sorted (rs : list ProcessedDocument) (i : nat) :
  StronglySorted lt (stored_numbers rs i).
Proof.
  revert i. induction rs as [|r rs IH]; intros i; cbn; [constructor|].
  destruct (success r); cbn; [|apply IH].
  constructor; [apply IH|]. apply List.Forall_forall. intros k Hk.
  apply stored_numbers_bounds in Hk. lia.
Qed.

Lemma process_attachment_env (attachment : Attachment) (ty src : string) (n : nat)
    (w : World Env) r w' :
  process_attachment C attachment ty src n w = Some (r, w') ->
  w_env w' = snd (download_attachment C (a_download_url attachment) (a_filename attachment)
                    (w_env w)).
Proof.
  rewrite process_attachment_unfold.
  destruct (download_attachment C _ _ _) as [[b|e] e']; cbn zeta; [|by intros [= <- <-]].
  destruct (_extract_text_from_bytes C b _ _) as [[[|c text]|]|e]; try by intros [= <- <-].
  destruct (open_w_error C _); by intros [= <- <-].
Qed.

Ltac round_tac C attachment ty key i a :=
  unfold round_ok, try_except, bind, doc_processor, zoom;
  destruct (process_attachment_cases C attachment ty key i (ag_world a))
    as (r & w' & Hrun & Hcases);
  pose proof (process_attachment_env attachment ty key i (ag_world a) _ _ Hrun) as Henv;
  rewrite Hrun;
  destruct Hcases as [[-> Hfs]|[-> (text & Htext & Hfs)]];
  [ cbn [no_text negb]; unfold ret; do 2 eexists; split; [reflexivity|];
    cbn; repeat split; try done; left; done
  | cbn [no_text negb text_of]; rewrite truthy_attachment_path; cbn [negb];
    unfold processed_files_append, modify, ret; do 2 eexists; split; [reflexivity|];
    cbn; repeat split; try done; right; repeat split; try done; eauto ].

Lemma prd_round (ticket_data : Ticket) (attachment : Attachment) (i : nat)
    (a : AgentState Env) :
  exists r a',
    try_except
      (filepath <- doc_processor (process_attachment C attachment "prd"
                                    (t_key ticket_data) i) ;;
       if negb (no_text filepath) then
         processed_files_append (text_of filepath) ;;;
         ret {| filepath := text_of filepath; document_type := "prd";
                source_ticket := t_key ticket_data;
                filename := a_filename attachment;
                success := true; error_message := None |}
       else
         ret {| filepath := ""; document_type := "prd";
                source_ticket := t_key ticket_data;
                filename := a_filename attachment;
                success := false;
                error_message := Some "Could not extract content" |})
      (fun e =>
         ret {| filepath := ""; document_type := "prd";
                source_ticket := t_key ticket_data;
                filename := a_filename attachment;
                success := false; error_message := Some e |}) a
    = Some (Ok r, a') /\
    round_ok C "prd" (t_key ticket_data) attachment i a r a'.
Proof. round_tac C attachment "prd" (t_key ticket_data) i a. Qed.

Lemma process_prd_loop_rounds (ticket_data : Ticket) (attachments : list Attachment) (i : nat)
    (results : list ProcessedDocument) (a : AgentState Env) :
  exists rs a',
    process_prd_loop C ticket_data attachments i results a = Some (Ok (results ++ rs), a') /\
    rounds C (fun _ => "prd") (t_key ticket_data) i a attachments rs a'.
Proof.
  revert i results a. induction attachments as [|attachment attachments IH]; intros i results a.
  - exists [], a. rewrite List.app_nil_r. split; [reflexivity|constructor].
  - cbn [process_prd_loop]. unfold bind at 1.
    destruct (prd_round ticket_data attachment i a) as (r & a1 & -> & Hr).
    destruct (IH (S i) (results ++ [r]) a1) as (rs & a2 & -> & Hrs).
    exists (r :: rs), a2. rewrite <- List.app_assoc. split; [reflexivity|].
    econstructor; eassumption.
Qed.

Section Rounds.
Variables (ty : Attachment -> string) (key : string).

Lemma rounds_length i a attachments rs a' :
  rounds C ty key i a attachments rs a' -> length rs = length attachments.
Proof. induction 1; cbn; congruence. Qed.

End Rounds.

Lemma rounds_stored_numbers (ty key : string) i a attachments rs a' :
  rounds C (fun _ => ty) key i a attachments rs a' ->
  processed_files a' =
    processed_files a ++ map (attachment_path C ty key) (stored_numbers rs i).
Proof.
  induction 1 as [|i a attachment attachments r rs a1 a2 Hr Hrs IH].
  - by rewrite List.app_nil_r.
  - rewrite IH. cbn [stored_numbers].
    destruct Hr as (? & ? & ? & ? & ? & ? & [(-> & ? & -> & _)|(-> & ? & ? & -> & _)]);
      cbn; [done|]. by rewrite <- List.app_assoc.
Qed.

End AgentLoops.

Section ChatbotLoops.
Context {Env : Type} (C : Runtime Env).
Import Chatbot.

Lemma same_session_refl (b : BotState Env) : same_session b b.
Proof. done. Qed.

Lemma same_session_trans (b1 b2 b3 : BotState Env) :
  same_session b1 b2 -> same_session b2 b3 -> same_session b1 b3.
Proof. unfold same_session. intros (-> & -> & ->) (-> & -> & ->). done. Qed.

Lemma source_of_same identify (b b' : BotState Env) attachment :
  same_session b b' -> source_of identify b' attachment = source_of identify b attachment.
Proof. unfold source_of. by intros (-> & -> & _). Qed.

Ltac bot_round_tac C attachment ty src i b :=
  unfold doc_processor, zoom;
  destruct (process_attachment_cases C attachment ty src i (b_world b))
    as (r & w' & Hrun & Hcases);
  rewrite Hrun;
  destruct Hcases as [[-> Hfs]|[-> (text & Htext & Hfs)]];
  [ exists false; cbn [no_text negb]; unfold ret; eexists; split; [reflexivity|];
    cbn; rewrite ?List.app_nil_r; done
  | exists true; cbn [no_text negb text_of]; rewrite truthy_attachment_path; cbn [negb];
    unfold processed_documents_append, modify; eexists; split; [reflexivity|]; cbn; done ].

Lemma _process_prd_round (attachment : Attachment) (i : nat) (b : BotState Env) :
  exists (flag : bool) b',
    try_except
      (self <- get_state ;;
       let source_ticket :=
         if from_epic identify_prd_attachments (current_epic self) attachment
         then match current_epic self with
              | Some epic => t_key epic
              | None => t_key (current_ticket self)
              end
         else t_key (current_ticket self) in
       filepath <- doc_processor (process_attachment C attachment "prd" source_ticket i) ;;
       if negb (no_text filepath) then processed_documents_append (text_of filepath)
       else ret tt)
      (fun e => ret tt) b
    = Some (Ok tt, b') /\
    same_session b b' /\
    processed_documents b' = processed_documents b ++
      (if flag then [attachment_path C "prd" (source_of identify_prd_attachments b attachment) i]
       else []).
Proof.
  unfold try_except, bind, get_state. cbn beta iota zeta.
  fold (source_of identify_prd_attachments b attachment).
  bot_round_tac C attachment "prd" (source_of identify_prd_attachments b attachment) i b.
Qed.

Lemma stored_paths_ext (path path' : Attachment -> nat -> string) attachments flags i :
  (forall attachment n, path attachment n = path' attachment n) ->
  stored_paths path attachments flags i = stored_paths path' attachments flags i.
Proof.
  intros H. revert flags i. induction attachments as [|x xs IH]; intros [|f fs] i; cbn; try done.
  by rewrite H, IH.
Qed.

Lemma _process_prd_loop_spec (attachments : list Attachment) (i : nat) (b : BotState Env) :
  exists (flags : list bool) b',
    _process_prd_loop C attachments i b = Some (Ok tt, b') /\
    same_session b b' /\
    length flags = length attachments /\
    processed_documents b' = processed_documents b ++
      stored_paths (fun attachment n =>
          attachment_path C "prd" (source_of identify_prd_attachments b attachment) n)
        attachments flags i.
Proof.
  revert i b. induction attachments as [|attachment attachments IH]; intros i b.
  - exists [], b. cbn. by rewrite List.app_nil_r.
  - cbn [_process_prd_loop]. unfold bind at 1.
    destruct (_process_prd_round attachment i b) as (flag & b1 & Hrun & Hs1 & Hp1).
    cbn zeta in Hrun. rewrite Hrun.
    destruct (IH (S i) b1) as (flags & b2 & -> & Hs2 & Hlen & Hp2).
    exists (flag :: flags), b2. split; [reflexivity|].
    split; [by eapply same_session_trans|]. split; [cbn; congruence|].
    rewrite Hp2, Hp1, <- List.app_assoc. cbn [stored_paths]. do 2 f_equal.
    apply stored_paths_ext. intros att n. by rewrite (source_of_same _ b b1).
Qed.

End ChatbotLoops.

Section ReFacts.
Import Re.

Lemma star_all_In (p : ascii -> bool) (s s' : string) :
  In s' (star_all p s) <-> exists u, s = u +:+ s' /\ all p u = true.
Proof.
  revert s'. induction s as [|c s IH]; intros s'; cbn [star_all].
  - split.
    + intros [<-|[]]. by exists "".
    + intros ([|a u] & Hu & _); [left; by rewrite str_app_nil_l in Hu|discriminate].
  - destruct (p c) eqn:Hc.
    + rewrite in_app_iff, IH. split.
      * intros [(u & -> & Hu)|[<-|[]]].
        -- exists (String c u). cbn. by rewrite Hc.
        -- by exists "".
      * intros ([|a u] & Hu & Hall).
        -- right. left. by rewrite str_app_nil_l in Hu.
        -- rewrite str_app_cons in Hu. injection Hu as <- ->. left. exists u.
           split; [done|]. cbn in Hall. by apply andb_true_iff in Hall as [_ ?].
    + split.
      * intros [<-|[]]. by exists "".
      * intros ([|a u] & Hu & Hall).
        -- left. by rewrite str_app_nil_l in Hu.
        -- rewrite str_app_cons in Hu. injection Hu as <- ->. cbn in Hall.
           rewrite Hc in Hall. discriminate.
Qed.

(** Every entry of [rall] is a match ... *)
Lemma rall_sound (r : regex) (s : string) (g : option string) s' g' :
  In (s', g') (rall r s g) -> matches_to r s s'.
Proof.
  revert s g s' g'. induction r as [|p|r1 IH1 r2 IH2|r1 IH1 r2 IH2|p|r1 IH1|];
    intros s g s' g'; cbn [rall matches_to].
  - by intros [[= <- _]|[]].
  - destruct s as [|c s]; [intros []|]. destruct (p c) eqn:Hc; [|intros []].
    intros [[= <- _]|[]]. eauto.
  - rewrite in_flat_map. intros ([m gm] & H1 & H2). cbn in H2. eauto.
  - rewrite in_app_iff. intros [H|H]; eauto.
  - rewrite in_map_iff. intros (x & [= <- _] & Hx). by apply star_all_In.
  - rewrite in_map_iff. intros ([m gm] & [= <- _] & Hx). cbn. eauto.
  - destruct (at_end s) eqn:He; [|intros []]. by intros [[= <- _]|[]].
Qed.

(** ... and every match has an entry. *)
Lemma rall_complete (r : regex) (s : string) (g : option string) s' :
  matches_to r s s' -> exists g', In (s', g') (rall r s g).
Proof.
  revert s g s'. induction r as [|p|r1 IH1 r2 IH2|r1 IH1 r2 IH2|p|r1 IH1|];
    intros s g s'; cbn [rall matches_to].
  - intros ->. exists g. by left.
  - intros (c & -> & Hc). rewrite Hc. exists g. by left.
  - intros (m & H1 & H2). destruct (IH1 s g m H1) as (gm & Hm).
    destruct (IH2 m gm s' H2) as (g' & Hg'). exists g'.
    apply in_flat_map. by exists (m, gm).
  - intros [H|H]; [destruct (IH1 s g s' H) as (g' & ?)|destruct (IH2 s g s' H) as (g' & ?)];
      exists g'; apply in_app_iff; auto.
  - intros H. exists g. apply in_map_iff. exists s'. split; [done|]. by apply star_all_In.
  - intros H. destruct (IH1 s g s' H) as (g' & Hg').
    eexists. apply in_map_iff. exists (s', g'). split; [reflexivity|done].
  - intros [-> He]. rewrite He. exists g. by left.
Qed.

Lemma py_match_Some_iff (r : regex) (s : string) :
  is_Some (py_match r s) <-> exists s', matches_to r s s'.
Proof.
  unfold py_match. split.
  - destruct (rall r s None) as [|[s' g'] l] eqn:E; [by intros [? [=]]|].
    intros _. exists s'. apply (rall_sound r s None s' g'). rewrite E. by left.
  - intros (s' & H). destruct (rall_complete r s None s' H) as (g' & Hin).
    destruct (rall r s None) as [|[? ?] l]; [destruct Hin|eauto].
Qed.

End ReFacts.

Section StringFacts2.

Lemma str_app_inv (a b c d : string) :
  a +:+ b = c +:+ d -> String.length a = String.length c -> a = c /\ b = d.
Proof.
  revert c. induction a as [|x a IH]; intros [|y c] H Hl; try discriminate.
  - by rewrite !str_app_nil_l in H.
  - rewrite !str_app_cons in H. injection H as -> H. injection Hl as Hl.
    destruct (IH c H Hl) as [-> ->]. done.
Qed.

Lemma lower_app (a b : string) : Py.lower (a +:+ b) = Py.lower a +:+ Py.lower b.
Proof.
  induction a as [|c a IH]; [reflexivity|].
  rewrite str_app_cons. cbn [Py.lower]. by rewrite IH, str_app_cons.
Qed.

Lemma lower_length (s : string) : String.length (Py.lower s) = String.length s.
Proof. induction s as [|c s IH]; [reflexivity|]. cbn. by rewrite IH. Qed.

Lemma lower_char_idem (c : ascii) : Py.lower_char (Py.lower_char c) = Py.lower_char c.
Proof. destruct c as [[] [] [] [] [] [] [] []]; reflexivity. Qed.

Lemma lower_idem (s : string) : is_lower (Py.lower s).
Proof.
  unfold is_lower. induction s as [|c s IH]; [reflexivity|].
  cbn [Py.lower]. by rewrite lower_char_idem, IH.
Qed.

Lemma is_lower_app (a b : string) : is_lower (a +:+ b) <-> is_lower a /\ is_lower b.
Proof.
  unfold is_lower. rewrite lower_app. split.
  - intros H. apply str_app_inv in H; [done|apply lower_length].
  - by intros [-> ->].
Qed.

Lemma startswith_iff (s p : string) :
  Py.startswith s p = true <-> exists r, s = p +:+ r.
Proof.
  revert s. induction p as [|a p IH]; intros s.
  - split; [intros _; exists s; reflexivity|intros _; by destruct s].
  - destruct s as [|b s]; cbn [Py.startswith].
    + split; [done|]. intros (r & Hr). by rewrite str_app_cons in Hr.
    + rewrite andb_true_iff, IH, Ascii.eqb_eq. split.
      * intros (-> & r & ->). by exists r.
      * intros (r & Hr). rewrite str_app_cons in Hr. injection Hr as -> ->. eauto.
Qed.

Lemma skip_app (a b : string) : skip (String.length a) (a +:+ b) = b.
Proof. induction a as [|c a IH]; [by destruct b|]. rewrite str_app_cons. exact IH. Qed.

Lemma take_app (a b : string) : Py.take (String.length a) (a +:+ b) = a.
Proof.
  induction a as [|c a IH]; [by destruct b|].
  rewrite str_app_cons. cbn. by rewrite IH.
Qed.

Lemma endswith_iff (s p : string) :
  Py.endswith s p = true <-> exists a, s = a +:+ p.
Proof.
  induction s as [|c s IH]; cbn [Py.endswith].
  - rewrite orb_false_r, String.eqb_eq. split.
    + intros <-. by exists "".
    + intros ([|x a] & Ha); [by rewrite str_app_nil_l in Ha|by rewrite str_app_cons in Ha].
  - rewrite orb_true_iff, String.eqb_eq, IH. split.
    + intros [<-|(a & ->)]; [by exists ""|by exists (String c a)].
    + intros ([|x a] & Ha).
      * left. by rewrite str_app_nil_l in Ha.
      * right. rewrite str_app_cons in Ha. injection Ha as -> ->. eauto.
Qed.

Lemma all_app (p : ascii -> bool) (a b : string) :
  all p (a +:+ b) = all p a && all p b.
Proof.
  induction a as [|c a IH]; [reflexivity|].
  rewrite str_app_cons. cbn. by rewrite IH, andb_assoc.
Qed.

End StringFacts2.

Section LitFacts.
Import Re.

Lemma matches_to_lit (ic : bool) (w s s' : string) :
  matches_to (lit ic w) s s' <-> exists u, s = u +:+ s' /\ same ic u w.
Proof.
  revert s. induction w as [|a w IH]; intros s; cbn [lit matches_to].
  - split.
    + intros ->. exists "". split; [done|]. by destruct ic.
    + intros ([|x u] & -> & Hs); [done|]. destruct ic; cbn in Hs; discriminate.
  - split.
    + intros (m & (c & -> & Hc) & Hm). apply IH in Hm as (u & -> & Hu).
      exists (String c u). split; [done|].
      unfold chr_is, same in *. destruct ic.
      * apply Ascii.eqb_eq in Hc. cbn. by rewrite Hc, Hu.
      * apply Ascii.eqb_eq in Hc. by rewrite Hc, Hu.
    + intros ([|c u] & -> & Hs).
      { destruct ic; cbn in Hs; discriminate. }
      exists (u +:+ s'). split.
      * exists c. split; [done|]. unfold chr_is, same in *. destruct ic.
        -- cbn in Hs. injection Hs as -> _. apply Ascii.eqb_refl.
        -- injection Hs as -> _. apply Ascii.eqb_refl.
      * apply IH. exists u. split; [done|]. unfold same in *. destruct ic.
        -- cbn in Hs. by injection Hs.
        -- by injection Hs.
Qed.

(** On lowercase text a lowercase literal under [re.IGNORECASE] matches
    itself only. *)
Lemma matches_to_word (w s s' : string) :
  is_lower w -> is_lower s ->
  matches_to (lit true w) s s' <-> s = w +:+ s'.
Proof.
  intros Hw Hs. rewrite matches_to_lit. unfold same. split.
  - intros (u & -> & Hu). apply is_lower_app in Hs as [Hu' _].
    rewrite Hu', Hw in Hu. by subst.
  - intros ->. by exists w.
Qed.

Lemma matches_to_seq_cons (r : regex) (l : list regex) (s s' : string) :
  matches_to (seq (r :: l)) s s' <-> exists m, matches_to r s m /\ matches_to (seq l) m s'.
Proof.
  destruct l as [|r' l]; [|reflexivity]. cbn. split.
  - intros H. by exists s'.
  - by intros (m & H & ->).
Qed.

Lemma matches_to_seq_app (l1 l2 : list regex) (s s' : string) :
  matches_to (seq (l1 ++ l2)) s s' <->
  exists m, matches_to (seq l1) s m /\ matches_to (seq l2) m s'.
Proof.
  revert s. induction l1 as [|r l1 IH]; intros s.
  - cbn [app]. split; [intros H; by exists s|]. by intros (m & -> & H).
  - change ((r :: l1) ++ l2) with (r :: (l1 ++ l2)). rewrite matches_to_seq_cons. split.
    + intros (m & Hr & H). apply IH in H as (m' & H1 & H2). exists m'. split; [|done].
      apply matches_to_seq_cons. eauto.
    + intros (m' & H1 & H2). apply matches_to_seq_cons in H1 as (m & Hr & H1).
      exists m. split; [done|]. apply IH. eauto.
Qed.

Lemma at_end_iff (s : string) : at_end s = true <-> s = "" \/ s = Py.nl.
Proof.
  destruct s as [|c [|d s]]; cbn.
  - tauto.
  - rewrite Ascii.eqb_eq. unfold Py.nl. split; [intros ->; by right|].
    intros [|[= ->]]; done.
  - split; [done|]. intros [|]; discriminate.
Qed.

End LitFacts.

Section ClassifierFacts.

Lemma occurs_then_iff (w : string) (k : string -> bool) (s : string) :
  occurs_then w k s = true <-> exists u r, s = u +:+ w +:+ r /\ k r = true.
Proof.
  induction s as [|c s IH]; cbn [occurs_then]; rewrite orb_true_iff, andb_true_iff, startswith_iff.
  - split.
    + intros [[(r & Hr) Hk]|]; [|done]. exists "", r. split; [done|].
      by rewrite Hr, skip_app in Hk.
    + intros (u & r & Hs & Hk). left. destruct u; [|by rewrite str_app_cons in Hs].
      rewrite str_app_nil_l in Hs. split; [eauto|]. by rewrite Hs, skip_app.
  - rewrite IH. split.
    + intros [[(r & Hr) Hk]|(u & r & -> & Hk)].
      * exists "", r. split; [done|]. by rewrite Hr, skip_app in Hk.
      * by exists (String c u), r.
    + intros ([|x u] & r & Hs & Hk).
      * left. rewrite str_app_nil_l in Hs. split; [eauto|]. by rewrite Hs, skip_app.
      * right. rewrite str_app_cons in Hs. injection Hs as -> ->. eauto.
Qed.

Lemma strip_suffix_iff (suffix s body : string) :
  strip_suffix suffix s = Some body <-> s = body +:+ suffix.
Proof.
  unfold strip_suffix. destruct (Py.endswith s suffix) eqn:E.
  - apply endswith_iff in E as (a & ->).
    rewrite str_app_length, Nat.add_sub, take_app. split.
    + by intros [= ->].
    + intros H. apply str_app_inv in H as [-> _]; [done|].
      apply (f_equal String.length) in H. rewrite !str_app_length in H. lia.
  - split; [done|]. intros ->.
    assert (Py.endswith (body +:+ suffix) suffix = true) by (apply endswith_iff; eauto).
    congruence.
Qed.

Lemma named_iff (exts ws : list string) (s : string) :
  named exts ws s = true <->
  exists ext t body, In ext exts /\ (t = "" \/ t = Py.nl) /\ s = body +:+ ext +:+ t /\
    one_line body = true /\ in_order ws body = true.
Proof.
  unfold named. rewrite existsb_exists. split.
  - intros (ext & Hext & H). apply existsb_exists in H as (t & Ht & H).
    destruct (strip_suffix (ext +:+ t) s) as [body|] eqn:E; [|done].
    apply strip_suffix_iff in E. apply andb_true_iff in H as [H1 H2].
    exists ext, t, body. repeat split; try done.
    destruct Ht as [<-|[<-|[]]]; auto.
  - intros (ext & t & body & Hext & Ht & -> & H1 & H2). exists ext. split; [done|].
    apply existsb_exists. exists t. split; [destruct Ht as [->| ->]; cbn; auto|].
    assert (strip_suffix (ext +:+ t) (body +:+ ext +:+ t) = Some body) as ->
      by by apply strip_suffix_iff.
    by rewrite H1, H2.
Qed.

Lemma matches_iff (pattern : Re.regex) (s : string) :
  matches pattern s = true <-> exists s', matches_to pattern s s'.
Proof.
  rewrite <- py_match_Some_iff. unfold matches.
  destruct (Re.py_match pattern s); split; intros H; try done; try (by eauto);
    by destruct H as [? [=]].
Qed.

Lemma words_pattern_iff (ws : list string) (tail : list Re.regex) (s : string) :
  Forall is_lower ws -> Forall (fun w => one_line w = true) ws -> is_lower s ->
  (exists s', matches_to (Re.seq (words_pattern ws ++ tail)) s s') <->
  exists body rest, s = body +:+ rest /\ one_line body = true /\ in_order ws body = true /\
    exists s', matches_to (Re.seq tail) rest s'.
Proof.
  intros Hlow Hone. revert s. induction ws as [|w ws IH]; intros s Hs.
  - change (words_pattern [] ++ tail) with (any :: tail). split.
    + intros (s' & H). apply matches_to_seq_cons in H as (m & (u & -> & Hu) & H).
      exists u, m. eauto.
    + intros (body & rest & -> & Hb & _ & s' & H). exists s'.
      apply matches_to_seq_cons. exists rest. split; [|done]. by exists body.
  - change (words_pattern (w :: ws) ++ tail)
      with (any :: word w :: (words_pattern ws ++ tail)).
    apply Forall_cons_1 in Hlow as [Hw Hlow]. apply Forall_cons_1 in Hone as [Hw1 Hone].
    specialize (IH Hlow Hone). split.
    + intros (s' & H). apply matches_to_seq_cons in H as (m1 & (u & -> & Hu) & H).
      apply matches_to_seq_cons in H as (m2 & Hword & H).
      apply is_lower_app in Hs as [_ Hm1].
      apply matches_to_word in Hword; [|done..]. subst m1.
      apply is_lower_app in Hm1 as [_ Hm2].
      destruct (proj1 (IH m2 Hm2)) as (body & rest & -> & Hb & Hin & Htail); [eauto|].
      exists (u +:+ w +:+ body), rest. rewrite !str_app_assoc. split; [done|].
      split; [unfold one_line in *; by rewrite !all_app, Hu, Hw1, Hb|].
      split; [|done]. cbn [in_order]. apply occurs_then_iff. eauto.
    + intros (body & rest & -> & Hb & Hin & Htail).
      cbn [in_order] in Hin. apply occurs_then_iff in Hin as (u & r & -> & Hin).
      unfold one_line in Hb. rewrite !all_app in Hb.
      apply andb_true_iff in Hb as [Hu Hb]. apply andb_true_iff in Hb as [_ Hr].
      rewrite !str_app_assoc in Hs. apply is_lower_app in Hs as [_ Hs].
      pose proof Hs as Hm1. apply is_lower_app in Hs as [_ Hm2].
      destruct (proj2 (IH (r +:+ rest) Hm2)) as (s' & H); [by exists r, rest|].
      exists s'. rewrite !str_app_assoc. apply matches_to_seq_cons.
      exists (w +:+ r +:+ rest). split; [by exists u|].
      apply matches_to_seq_cons. exists (r +:+ rest). split; [|done].
      by apply matches_to_word.
Qed.

End ClassifierFacts.

Section ClassifierFacts2.

Lemma dot_pdf_accepts : accepts dot_pdf [".pdf"].
Proof.
  intros rest Hrest. change (Re.seq dot_pdf) with (Re.Cat (word ".pdf") Re.Eol).
  cbn [matches_to]. split.
  - intros (s' & m & Hw & -> & He). apply matches_to_word in Hw; [|done..].
    apply at_end_iff in He. exists ".pdf", m. split; [by left|done].
  - intros (ext & t & [<-|[]] & Ht & ->). exists t, t. split.
    + apply matches_to_word; done.
    + split; [done|]. by apply at_end_iff.
Qed.

Lemma dot_docx_accepts : accepts dot_docx [".doc"; ".docx"].
Proof.
  intros rest Hrest.
  change (Re.seq dot_docx)
    with (Re.Cat (word ".doc") (Re.Cat (Re.Alt (word "x") Re.Eps) Re.Eol)).
  cbn [matches_to]. split.
  - intros (s' & m1 & Hw & m2 & Hx & -> & He). apply matches_to_word in Hw; [|done..].
    subst rest. apply is_lower_app in Hrest as [_ Hm1]. apply at_end_iff in He.
    destruct Hx as [Hx| ->].
    + apply matches_to_word in Hx; [|done..]. subst m1.
      exists ".docx", m2. split; [right; by left|]. split; [done|].
      by rewrite !str_app_cons, str_app_nil_l.
    + exists ".doc", m1. split; [by left|done].
  - intros (ext & t & [<-|[<-|[]]] & Ht & ->).
    + exists t, t. split; [by apply matches_to_word|].
      exists t. split; [by right|]. split; [done|]. by apply at_end_iff.
    + exists t, ("x" +:+ t). split.
      * apply matches_to_word; [done|done|]. by rewrite !str_app_cons, str_app_nil_l.
      * exists t. split; [left|split; [done|by apply at_end_iff]].
        apply matches_to_word; [done| |done].
        rewrite !str_app_cons in Hrest. by apply (is_lower_app ".doc" ("x" +:+ t)).
Qed.

Lemma pattern_named (ws : list string) (tail : list Re.regex) (exts : list string)
    (s : string) :
  Forall is_lower ws -> Forall (fun w => one_line w = true) ws -> accepts tail exts ->
  is_lower s ->
  matches (Re.seq (words_pattern ws ++ tail)) s = named exts ws s.
Proof.
  intros Hlow Hone Hacc Hs. apply eq_true_iff_eq.
  rewrite matches_iff, words_pattern_iff, named_iff by done. split.
  - intros (body & rest & -> & Hb & Hin & Ht).
    apply is_lower_app in Hs as [_ Hrest].
    apply Hacc in Ht as (ext & t & Hext & Ht & ->); [|done].
    exists ext, t, body. done.
  - intros (ext & t & body & Hext & Ht & -> & Hb & Hin).
    exists body, (ext +:+ t). repeat split; try done.
    apply is_lower_app in Hs as [_ Hrest]. apply Hacc; eauto.
Qed.

Ltac words_ok := repeat constructor.

Lemma prd_patterns_named (s : string) :
  is_lower s ->
  existsb (fun pattern => matches pattern s) prd_patterns = requirements_name s.
Proof.
  intros Hs. unfold requirements_name.
  change prd_patterns with
    (map (fun ws => Re.seq (words_pattern ws ++ dot_pdf))
       [["prd"]; ["product"; "requirement"]; ["requirement"; "document"];
        ["functional"; "spec"]; ["business"; "requirement"]]
     ++ map (fun ws => Re.seq (words_pattern ws ++ dot_docx))
       [["prd"]; ["product"; "requirement"]; ["requirement"; "document"]]).
  rewrite existsb_app. cbn [map existsb].
  rewrite !(pattern_named _ dot_pdf [".pdf"]) by (done || apply dot_pdf_accepts || words_ok).
  rewrite !(pattern_named _ dot_docx [".doc"; ".docx"])
    by (done || apply dot_docx_accepts || words_ok).
  reflexivity.
Qed.

Lemma design_patterns_named (s : string) :
  is_lower s ->
  existsb (fun pattern => matches pattern s) design_patterns = design_name s.
Proof.
  intros Hs. unfold design_name.
  change design_patterns with
    (map (fun ws => Re.seq (words_pattern ws ++ dot_pdf))
       [["hld"]; ["high"; "level"; "design"]; ["lld"]; ["low"; "level"; "design"];
        ["technical"; "design"]; ["architecture"]; ["design"; "document"]]
     ++ map (fun ws => Re.seq (words_pattern ws ++ dot_docx))
       [["hld"]; ["lld"]; ["design"]]).
  rewrite existsb_app. cbn [map existsb].
  rewrite !(pattern_named _ dot_pdf [".pdf"]) by (done || apply dot_pdf_accepts || words_ok).
  rewrite !(pattern_named _ dot_docx [".doc"; ".docx"])
    by (done || apply dot_docx_accepts || words_ok).
  reflexivity.
Qed.

Lemma filter_ext_all {A} (f g : A -> bool) (l : list A) :
  (forall x, f x = g x) -> List.filter f l = List.filter g l.
Proof. intros H. induction l as [|x l IH]; cbn; [done|]. by rewrite H, IH. Qed.

Lemma identify_prd_attachments_named (ticket_data : Ticket) :
  identify_prd_attachments ticket_data =
  List.filter (fun attachment => requirements_name (Py.lower (a_filename attachment)))
    (t_attachments ticket_data).
Proof.
  unfold identify_prd_attachments. destruct (t_attachments ticket_data) as [|a l] eqn:E;
    [reflexivity|].
  unfold identify_by. apply filter_ext_all. intros x. apply prd_patterns_named, lower_idem.
Qed.

Lemma identify_hld_lld_attachments_named (ticket_data : Ticket) :
  identify_hld_lld_attachments ticket_data =
  List.filter (fun attachment => design_name (Py.lower (a_filename attachment)))
    (t_attachments ticket_data).
Proof.
  unfold identify_hld_lld_attachments. destruct (t_attachments ticket_data) as [|a l] eqn:E;
    [reflexivity|].
  unfold identify_by. apply filter_ext_all. intros x. apply design_patterns_named, lower_idem.
Qed.

End ClassifierFacts2.

Section PageIdFacts.
Import Re.

Lemma rall_lit (w s : string) (g : option string) :
  rall (lit false w) s g =
  if Py.startswith s w then [(skip (String.length w) s, g)] else [].
Proof.
  revert s. induction w as [|a w IH]; intros s; [by destruct s|].
  cbn [lit rall]. destruct s as [|c s]; [reflexivity|].
  cbn [Py.startswith String.length skip]. unfold chr_is. rewrite (Ascii.eqb_sym a c).
  destruct (Ascii.eqb c a); [|reflexivity].
  cbn [flat_map fst snd andb]. rewrite IH. by rewrite List.app_nil_r.
Qed.

Lemma take_while_skip (p : ascii -> bool) (s : string) :
  take_while p s +:+ skip (String.length (take_while p s)) s = s.
Proof.
  induction s as [|c s IH]; [reflexivity|]. cbn [take_while].
  destruct (p c); [|reflexivity]. rewrite str_app_cons. cbn [String.length skip]. by rewrite IH.
Qed.

Lemma hd_star_then {A} (p : ascii -> bool) (post : string) (h : string -> A) (s : string) :
  stops p post ->
  hd_error (flat_map (fun s'' => if Py.startswith s'' post then [h s''] else [])
              (star_all p s))
  = let r := skip (String.length (take_while p s)) s in
    if Py.startswith r post then Some (h r) else None.
Proof.
  intros Hpost. induction s as [|c s IH]; cbn [star_all take_while].
  - cbn [flat_map String.length skip]. rewrite List.app_nil_r.
    by destruct (Py.startswith "" post).
  - destruct (p c) eqn:Hc.
    + rewrite flat_map_app. cbn [String.length skip]. cbn zeta in *.
      destruct (flat_map _ (star_all p s)) as [|x l] eqn:E.
      * cbn [app hd_error] in *. cbn [flat_map]. rewrite List.app_nil_r.
        destruct (Py.startswith (skip _ s) post) eqn:Hr; [discriminate|].
        destruct post as [|c' post]; [by destruct (skip _ s)|].
        cbn in Hpost. cbn [Py.startswith].
        destruct (Ascii.eqb_spec c' c) as [->|]; [congruence|reflexivity].
      * cbn [app hd_error] in *. exact IH.
    + cbn [flat_map String.length skip]. rewrite List.app_nil_r.
      by destruct (Py.startswith (String c s) post).
Qed.

Lemma consumed_app (a b : string) : consumed (a +:+ b) b = a.
Proof. unfold consumed. by rewrite str_app_length, Nat.add_sub, take_app. Qed.

Lemma hd_digits_then (post s : string) (g : option string) :
  stops digit post ->
  hd_error (rall (Cat (Group (Plus digit)) (lit false post)) s g)
  = let d := take_while digit s in
    let r := skip (String.length d) s in
    if Py.truthy d && Py.startswith r post
    then Some (skip (String.length post) r, Some d) else None.
Proof.
  intros Hpost. cbn [rall Plus]. destruct s as [|c s]; [reflexivity|].
  cbn [take_while]. destruct (digit c) eqn:Hc; [|reflexivity].
  cbn [flat_map fst snd Py.truthy andb String.length skip]. rewrite List.app_nil_r.
  rewrite map_map, flat_map_concat_map, map_map, <- flat_map_concat_map.
  cbn [fst snd].
  erewrite flat_map_ext; [|intros s''; apply rall_lit].
  rewrite (hd_star_then digit post
             (fun s'' => (skip (String.length post) s'', Some (consumed (String c s) s'')))
             s Hpost).
  cbn zeta. destruct (Py.startswith _ post); [|reflexivity].
  do 3 f_equal.
  rewrite <- (take_while_skip digit s) at 1.
  by rewrite <- str_app_cons, consumed_app.
Qed.

Lemma rall_cat_eps (r : regex) (s : string) (g : option string) :
  rall (Cat r Eps) s g = rall r s g.
Proof.
  cbn [rall]. induction (rall r s g) as [|[x y] l IH]; [reflexivity|]. cbn. by rewrite IH.
Qed.

Lemma py_match_digits (pre post s : string) :
  stops digit post ->
  (py_match (Cat (lit false pre) (Cat (Group (Plus digit)) (lit false post))) s
     ≫= m_group1)
  = digits_between pre post s /\
  (is_Some (py_match (Cat (lit false pre) (Cat (Group (Plus digit)) (lit false post))) s)
   <-> is_Some (digits_between pre post s)).
Proof.
  intros Hpost. unfold py_match, digits_between.
  change (rall (Cat (lit false pre) ?r) s None)
    with (flat_map (fun x => rall r (fst x) (snd x)) (rall (lit false pre) s None)).
  rewrite rall_lit. destruct (Py.startswith s pre); [|split; [done|by split; intros [? [=]]]].
  cbn [flat_map fst snd]. rewrite List.app_nil_r.
  pose proof (hd_digits_then post (skip (String.length pre) s) None Hpost) as H.
  cbn zeta in *.
  destruct (rall _ (skip (String.length pre) s) None) as [|[s' g'] l];
    cbn [hd_error] in H;
    destruct (Py.truthy _ && Py.startswith _ post); try discriminate.
  - split; [done|by split; intros [? [=]]].
  - injection H as -> ->. split; [done|]. split; eauto.
Qed.

Lemma search_digits (pre post s : string) :
  stops digit post ->
  match search (Cat (lit false pre) (Cat (Group (Plus digit)) (lit false post))) s with
  | Some m => m_group1 m = first_digits pre post s /\ is_Some (first_digits pre post s)
  | None => first_digits pre post s = None
  end.
Proof.
  intros Hpost. induction s as [|c s IH]; cbn [search first_digits].
  - destruct (py_match_digits pre post "" Hpost) as [Hg Hs].
    destruct (py_match _ "") as [m|]; cbn in Hg.
    + rewrite <- Hg. destruct (m_group1 m); [eauto|].
      rewrite <- Hg in Hs. destruct Hs as [Hs _]. destruct Hs as [? [=]]; eauto.
    + by rewrite <- Hg.
  - destruct (py_match_digits pre post (String c s) Hpost) as [Hg Hs].
    destruct (py_match _ (String c s)) as [m|]; cbn in Hg.
    + rewrite <- Hg. destruct (m_group1 m); [eauto|].
      rewrite <- Hg in Hs. destruct Hs as [Hs _]. destruct Hs as [? [=]]; eauto.
    + rewrite <- Hg. destruct (search _ s) as [m|]; cbn; exact IH.
Qed.

End PageIdFacts.

Section Consolidate.
Context {Env : Type} (C : Runtime Env).

Lemma consolidate_loop_eq (document_files : list string) (final_content : string)
    (w : World Env) :
  consolidate_loop document_files final_content w =
  Some (Ok (final_content
            +:+ Py.concat (map consolidated_part (stored_texts (w_fs w) document_files))), w).
Proof.
  revert final_content. induction document_files as [|doc_file document_files IH];
    intros final_content.
  - cbn. by rewrite str_app_nil_r.
  - cbn [consolidate_loop]. unfold bind at 1, os_path_exists.
    unfold stored_texts. cbn [omap list_omap]. fold (stored_texts (w_fs w) document_files).
    destruct (w_fs w !! doc_file) as [content|] eqn:E.
    + rewrite bool_decide_true by eauto. unfold bind at 1, read_text. rewrite E.
      rewrite IH. cbn [fmap option_fmap option_map map Py.concat]. by rewrite str_app_assoc.
    + rewrite bool_decide_false by (by intros [? [=]]). rewrite IH. reflexivity.
Qed.

Lemma consolidate_documents_eq (document_files : list string) (w : World Env) :
  consolidate_documents C document_files w =
  let final_content :=
    consolidated_header
    +:+ Py.concat (map consolidated_part (stored_texts (w_fs w) document_files)) in
  match open_w_error C (final_path C) with
  | Some e => Some (Raise e, w)
  | None => Some (Ok (final_path C),
                  set_fs (fun fs => <[final_path C := final_content]> fs) w)
  end.
Proof.
  unfold consolidate_documents, bind. rewrite consolidate_loop_eq.
  fold (final_path C). unfold write_text. by destruct (open_w_error C (final_path C)).
Qed.



End Consolidate.


Section PageId.
Context {Env : Type} (C : Runtime Env).

Lemma search_ext (r1 r2 : Re.regex) (s : string) :
  (forall s g, Re.rall r1 s g = Re.rall r2 s g) -> Re.search r1 s = Re.search r2 s.
Proof.
  intros H. induction s as [|c s IH]; cbn [Re.search]; unfold Re.py_match; rewrite H; [done|].
  by rewrite IH.
Qed.

Lemma rall_cat_congr (r1 r2 r2' : Re.regex) (s : string) (g : option string) :
  (forall s g, Re.rall r2 s g = Re.rall r2' s g) ->
  Re.rall (Re.Cat r1 r2) s g = Re.rall (Re.Cat r1 r2') s g.
Proof. intros H. cbn [Re.rall]. apply flat_map_ext. intros [x y]. apply H. Qed.

Lemma first_group_digits (pre post : string) (r : Re.regex) (rest : list Re.regex)
    (page_url : string) :
  stops Re.digit post ->
  (forall s g, Re.rall r s g =
     Re.rall (Re.Cat (Re.lit false pre)
                (Re.Cat (Re.Group (Re.Plus Re.digit)) (Re.lit false post))) s g) ->
  first_group (r :: rest) page_url =
  match first_digits pre post page_url with
  | Some d => Some d
  | None => first_group rest page_url
  end.
Proof.
  intros Hpost Hr. cbn [first_group]. rewrite (search_ext _ _ _ Hr).
  pose proof (search_digits pre post page_url Hpost) as H.
  destruct (Re.search _ page_url) as [m|].
  - destruct H as [-> [d ->]]. done.
  - by rewrite H.
Qed.

Lemma extract_page_id_spec (page_url : string) :
  _extract_confluence_page_id page_url = page_id_spec page_url.
Proof.
  unfold _extract_confluence_page_id, page_id_patterns, page_id_spec.
  rewrite (first_group_digits "/pages/" "/") by done.
  destruct (first_digits "/pages/" "/" page_url); [done|].
  rewrite (first_group_digits "pageId=" "");
    [|done|intros s g; apply rall_cat_congr; intros s' g'; symmetry; apply rall_cat_eps].
  destruct (first_digits "pageId=" "" page_url); [done|].
  rewrite (first_group_digits "/" "/") by done.
  by destruct (first_digits "/" "/" page_url).
Qed.

Lemma fetch_confluence_page_no_id (page_url source_ticket : string) (n : nat)
    (w : World Env) :
  _extract_confluence_page_id page_url = None ->
  fetch_confluence_page C page_url source_ticket n w = Some (Ok None, w).
Proof. intros H. unfold fetch_confluence_page, try_except. by rewrite H. Qed.

(** Claim C6.  [_extract_confluence_page_id] yields the digits of the
    first place of the URL that reads /pages/ digits /, else those of the
    first place that reads pageId= digits, else those of the first place
    that reads / digits /: the first pattern that matches wins.  The URL
    of the example yields 123456.  When no identifier is found,
    [fetch_confluence_page] returns [None] and leaves the world as it
    was. *)
Theorem page_id_first_pattern_wins :
  (forall page_url, _extract_confluence_page_id page_url = page_id_spec page_url) /\
  _extract_confluence_page_id
    "https://example.atlassian.net/wiki/spaces/X/pages/123456/Title" = Some "123456" /\
  (forall page_url source_ticket n (w : World Env),
     _extract_confluence_page_id page_url = None ->
     fetch_confluence_page C page_url source_ticket n w = Some (Ok None, w)).
Proof.
  split; [exact extract_page_id_spec|]. split; [by vm_compute|].
  exact fetch_confluence_page_no_id.
Qed.

End PageId.

(** Claim C2 as stated fails: a file named "functional spec.docx" contains
    a listed phrase and ends with a listed extension, and
    [identify_prd_attachments] does not keep it. *)
Lemma classifier_not_as_claimed :
  ~ (forall ticket_data : Ticket,
       identify_prd_attachments ticket_data =
         List.filter (fun a => claimed_requirements_name (Py.lower (a_filename a)))
           (t_attachments ticket_data) /\
       identify_hld_lld_attachments ticket_data =
         List.filter (fun a => claimed_design_name (Py.lower (a_filename a)))
           (t_attachments ticket_data)).
Proof.
  intros H.
  destruct (H (Example.ticket "T-1" ""
                 [Example.attachment "functional spec.docx" "url"])) as [H1 _].
  vm_compute in H1. discriminate.
Qed.

(** Claim C2, amended.  [identify_prd_attachments] keeps, in the order of
    the input, exactly the attachments whose lowercased name is on one
    line (a line feed at the very end aside) and either ends with .pdf
    after "prd", "product" then "requirement", "requirement" then
    "document", "functional" then "spec" or "business" then
    "requirement", or ends with .doc or .docx after one of the first three
    of these.  [identify_hld_lld_attachments] does the same with "hld",
    "high" then "level" then "design", "lld", "low" then "level" then
    "design", "technical" then "design", "architecture" and "design" then
    "document" before .pdf, and "hld", "lld" and "design" before .doc or
    .docx.  HLD_Architecture.docx is a design name, random_notes.docx is
    not. *)
Theorem classifiers_follow_pattern_tables (ticket_data : Ticket) :
  identify_prd_attachments ticket_data =
    List.filter (fun a => requirements_name (Py.lower (a_filename a)))
      (t_attachments ticket_data) /\
  identify_hld_lld_attachments ticket_data =
    List.filter (fun a => design_name (Py.lower (a_filename a)))
      (t_attachments ticket_data) /\
  design_name (Py.lower "HLD_Architecture.docx") = true /\
  design_name (Py.lower "random_notes.docx") = false.
Proof.
  split; [apply identify_prd_attachments_named|].
  split; [apply identify_hld_lld_attachments_named|].
  split; by vm_compute.
Qed.

Section Missing.
Context {Env : Type}.
Import DocumentAgent.

(** Claim C4.  For a ticket without attachments both classifiers return
    the empty list, and [check_for_missing_documents] returns a request
    for the requirements whose options are to provide text, to provide a
    path or URL, to skip, and to check the parent epic; then a request
    for the wiki exactly when [extract_confluence_links] finds no link in
    the description, as for the empty description; then a request for
    the design documents, with no option to check the parent. *)
Theorem no_attachments_missing_requests (ticket_data : Ticket) (a : AgentState Env) :
  t_attachments ticket_data = [] ->
  identify_prd_attachments ticket_data = [] /\
  identify_hld_lld_attachments ticket_data = [] /\
  exists requests a',
    check_for_missing_documents ticket_data a = Some (Ok requests, a') /\
    map (fun r => (mr_document_type r, mr_ticket_key r, mr_options r)) requests =
      [("prd", t_key ticket_data,
        ["Provide PRD content as text"; "Provide PRD file path/URL";
         "Skip PRD and continue with available information";
         "Check parent Epic for PRD"])]
      ++ match extract_confluence_links (t_description ticket_data) with
         | [] => [("confluence", t_key ticket_data,
                   ["Provide Confluence page URL(s)";
                    "Provide additional documentation as text";
                    "Skip Confluence and continue with available information"])]
         | _ => []
         end
      ++ [("design", t_key ticket_data,
           ["Provide design document file path/URL";
            "Provide design specifications as text";
            "Skip design docs and continue with available information"])] /\
    extract_confluence_links "" = [].
Proof.
  intros Hatt.
  assert (identify_prd_attachments ticket_data = []) as Hprd
    by (unfold identify_prd_attachments; by rewrite Hatt).
  assert (identify_hld_lld_attachments ticket_data = []) as Hdesign
    by (unfold identify_hld_lld_attachments; by rewrite Hatt).
  split; [done|]. split; [done|].
  unfold check_for_missing_documents. rewrite Hprd, Hdesign.
  destruct (extract_confluence_links (t_description ticket_data)) as [|link links];
    do 2 eexists; (split; [reflexivity|]); split; reflexivity.
Qed.

End Missing.

Lemma no_attachments_missing_requests_witness :
  t_attachments (Example.ticket "T-1" "" []) = [] /\
  exists requests a',
    DocumentAgent.check_for_missing_documents (Example.ticket "T-1" "" []) Example.agent
      = Some (Ok requests, a') /\
    map mr_document_type requests = ["prd"; "confluence"; "design"].
Proof.
  split; [reflexivity|].
  destruct (no_attachments_missing_requests (Example.ticket "T-1" "" []) Example.agent
              eq_refl) as (_ & _ & requests & a' & Hrun & Hreq & _).
  exists requests, a'. split; [exact Hrun|].
  apply (f_equal (map (fun x => fst (fst x)))) in Hreq.
  rewrite map_map in Hreq. exact Hreq.
Defined.

Section Fetchers.
Context {Env : Type} (C : Runtime Env).

Ltac step :=
  match goal with
  | |- context [match ?x with _ => _ end] =>
      lazymatch x with
      | context [match _ with _ => _ end] => fail
      | _ => destruct x eqn:?
      end
  end.

Lemma write_text_cases (p c : string) (w : World Env) :
  write_text C p c w =
  match open_w_error C p with
  | Some e => Some (Raise e, w)
  | None => Some (Ok tt, set_fs (fun fs => <[p := c]> fs) w)
  end.
Proof. unfold write_text. by destruct (open_w_error C p). Qed.

Lemma save_jira_content_eq (ticket_data : Ticket) (w : World Env) :
  save_jira_content C ticket_data None w =
  match open_w_error C (jira_path C (t_key ticket_data)) with
  | Some e => Some (Raise e, w)
  | None =>
      Some (Ok (jira_path C (t_key ticket_data)),
            set_fs (fun fs => <[jira_path C (t_key ticket_data) :=
                                 _format_jira_as_markdown ticket_data]> fs) w)
  end.
Proof.
  unfold save_jira_content, bind. rewrite write_text_cases.
  unfold jira_path. cbn [Py.concat]. rewrite str_app_nil_r.
  by destruct (open_w_error C _).
Qed.

(** [fetch_confluence_page] never raises, and what it returns is the path
    built from the ticket and the page number, with a file written there. *)
Lemma fetch_confluence_page_cases (page_url source_ticket : string) (n : nat)
    (w : World Env) :
  exists r w',
    fetch_confluence_page C page_url source_ticket n w = Some (Ok r, w') /\
    ((r = None /\ w_fs w' = w_fs w) \/
     (r = Some (confluence_path C source_ticket n) /\
      exists text, w_fs w' = <[confluence_path C source_ticket n := text]> (w_fs w))).
Proof.
  unfold fetch_confluence_page, try_except, bind, lift_res, external, ret.
  fold (confluence_path C source_ticket n).
  repeat (step; try (do 2 eexists; split; [reflexivity|]; left; split; reflexivity));
    simplify_eq.
  all: try (do 2 eexists; split; [reflexivity|]; left; split; reflexivity).
  all: try match goal with
       | H : write_text _ _ _ _ = _ |- _ => rewrite write_text_cases in H
       end.
  all: repeat match goal with
       | H : context [match open_w_error C ?p with _ => _ end] |- _ =>
           destruct (open_w_error C p) eqn:?
       end; simplify_eq.
  all: try (do 2 eexists; split; [reflexivity|]; left; split; reflexivity).
  all: do 2 eexists; split; [reflexivity|]; right; split; [reflexivity|]; eexists; reflexivity.
Qed.




End Fetchers.

Section ContainsFacts.

Lemma contains_iff (s p : string) :
  Py.contains s p = true <-> exists a b, s = a +:+ p +:+ b.
Proof.
  induction s as [|c s IH]; cbn [Py.contains]; rewrite orb_true_iff, startswith_iff.
  - split.
    + intros [(r & Hr)|]; [|done]. by exists "", r.
    + intros ([|x a] & b & H); [left; eauto|by rewrite str_app_cons in H].
  - rewrite IH. split.
    + intros [(r & Hr)|(a & b & ->)]; [by exists "", r|by exists (String c a), b].
    + intros ([|x a] & b & H); [left; eauto|].
      right. rewrite str_app_cons in H. injection H as -> ->. eauto.
Qed.

End ContainsFacts.

Section PathFacts.

Lemma str_app_inv_r (a b s : string) : a +:+ s = b +:+ s -> a = b.
Proof.
  intros H. apply (str_app_inv a s b s H).
  apply (f_equal String.length) in H. rewrite !str_app_length in H. lia.
Qed.

Lemma os_path_join_inj (a p p' : string) :
  Py.startswith p "/" = Py.startswith p' "/" ->
  Py.os_path_join a p = Py.os_path_join a p' -> p = p'.
Proof.
  unfold Py.os_path_join. intros <-. destruct (Py.startswith p "/"); [done|].
  destruct (negb (Py.truthy a) || Py.endswith a "/"); intros H.
  - by apply (inj (String.app a)) in H.
  - apply (inj (String.app a)) in H. by apply (inj (String.app "/")) in H.
Qed.

Lemma startswith_char (a c : ascii) (s : string) :
  Py.startswith (String a s) (String c "") = Ascii.eqb c a.
Proof. cbn [Py.startswith]. destruct s; apply andb_true_r. Qed.

End PathFacts.


Section UnitNames.
Context {Env : Type} (C : Runtime Env).


End UnitNames.

(** ** Loops that store units *)

Section StoredUnits.
Context {Env : Type} (C : Runtime Env).

Lemma pretty_N_go_digits (x : N) (s : string) :
  all Re.digit s = true -> all Re.digit (pretty_N_go x s) = true.
Proof.
  revert s. induction (N.lt_wf_0 x) as [x _ IH]; intros s Hs.
  assert (x = 0 \/ 0 < x)%N as [->|Hx] by lia; [by rewrite pretty_N_go_0|].
  rewrite pretty_N_go_step by done. apply IH; [by apply N.div_lt|].
  cbn [all]. rewrite Hs, andb_true_r.
  unfold pretty_N_char. by repeat case_match.
Qed.

Lemma pretty_digits (n : nat) : all Re.digit (pretty n) = true.
Proof.
  unfold pretty, pretty_nat, pretty, pretty_N. case_decide; [reflexivity|].
  by apply pretty_N_go_digits.
Qed.

(** A run of digits after a character that is no digit is the same run
    wherever the text before it is cut. *)
Lemma digits_suffix_inv (x y d1 d2 : string) (c1 c2 : ascii) :
  all Re.digit d1 = true -> all Re.digit d2 = true ->
  Re.digit c1 = false -> Re.digit c2 = false ->
  x +:+ String c1 d1 = y +:+ String c2 d2 -> d1 = d2.
Proof.
  intros Hd1 Hd2 Hc1 Hc2. revert y. induction x as [|a x IH]; intros [|b y];
    rewrite ?str_app_nil_l, ?str_app_cons; intros H.
  - by injection H.
  - injection H as -> ->. rewrite all_app in Hd1. cbn [all] in Hd1.
    rewrite Hc2, andb_false_r in Hd1. discriminate.
  - injection H as -> <-. rewrite all_app in Hd2. cbn [all] in Hd2.
    rewrite Hc1, andb_false_r in Hd2. discriminate.
  - injection H as -> H. by apply IH in H.
Qed.

Lemma attachment_path_shape (ty src : string) (n : nat) :
  exists x, attachment_path C ty src n = (x +:+ String "t" (pretty n)) +:+ "-content.md".
Proof.
  unfold attachment_path, Py.os_path_join. cbn [Py.concat].
  set (name := ty +:+ "-from-" +:+ src +:+ "-attachment" +:+ pretty n +:+ "-content.md" +:+ "").
  assert (name = ((ty +:+ "-from-" +:+ src +:+ "-attachmen") +:+ String "t" (pretty n))
                 +:+ "-content.md") as Hname.
  { unfold name. rewrite str_app_nil_r, !str_app_assoc. reflexivity. }
  destruct (Py.startswith name "/"); [by eexists|].
  destruct (negb (Py.truthy (documents_folder C)) || Py.endswith (documents_folder C) "/");
    rewrite Hname, <- !str_app_assoc; by eexists.
Qed.

(** The number of an attachment can be read off its path, whatever the
    category and the ticket. *)
Lemma attachment_path_number (ty src ty' src' : string) (n m : nat) :
  attachment_path C ty src n = attachment_path C ty' src' m -> n = m.
Proof.
  destruct (attachment_path_shape ty src n) as (x & ->).
  destruct (attachment_path_shape ty' src' m) as (y & ->).
  intros H. apply str_app_inv_r in H.
  apply digits_suffix_inv in H; try apply pretty_digits; try reflexivity.
  by apply (inj pretty) in H.
Qed.


(** [process_attachment] in one equation: the path it returns and the
    world it leaves, by the text that gets stored. *)
Lemma process_attachment_stored (attachment : Attachment) (ty src : string) (n : nat)
    (w : World Env) :
  process_attachment C attachment ty src n w =
  Some (Ok (match stored_text C (attachment_path C ty src n) attachment (w_env w) with
            | Some _ => Some (attachment_path C ty src n)
            | None => None
            end),
        {| w_fs :=
             match stored_text C (attachment_path C ty src n) attachment (w_env w) with
             | Some text =>
                 <[attachment_path C ty src n := attachment_markdown C attachment ty src text]>
                   (w_fs w)
             | None => w_fs w
             end;
           w_env := snd (download_attachment C (a_download_url attachment)
                           (a_filename attachment) (w_env w)) |}).
Proof.
  rewrite process_attachment_unfold. unfold stored_text, attachment_text.
  destruct (download_attachment C _ _ _) as [[b|e] e']; cbn [fst snd].
  - destruct (_extract_text_from_bytes C b _ _) as [[[|c text]|]|e];
      cbn [Py.truthy]; destruct (open_w_error C _); reflexivity.
  - destruct (open_w_error C _); reflexivity.
Qed.

Section Units.
Variables (ty src : Attachment -> string).

Lemma is_stored_succ (i : nat) (attachment : Attachment) (attachments : list Attachment)
    (e : Env) (k : nat) (x : Attachment) :
  is_stored C ty src i (attachment :: attachments) e (S k) x =
  is_stored C ty src (S i) attachments
    (snd (download_attachment C (a_download_url attachment) (a_filename attachment) e)) k x.
Proof. unfold is_stored. cbn [env_at]. by rewrite Nat.add_succ_r. Qed.

Lemma units_stored_nil (i : nat) (w : World Env) : units_stored C ty src i [] w w.
Proof. repeat split; done. Qed.

Lemma units_stored_cons (i : nat) (attachment : Attachment) (attachments : list Attachment)
    (w w1 w' : World Env) (p : option string) :
  process_attachment C attachment (ty attachment) (src attachment) i w = Some (Ok p, w1) ->
  units_stored C ty src (S i) attachments w1 w' ->
  units_stored C ty src i (attachment :: attachments) w w'.
Proof.
  rewrite process_attachment_stored. intros [= _ <-] (Henv & Hfiles & Hrest).
  cbn [w_env w_fs] in *. split; [exact Henv|]. split.
  - intros [|k] x text Hk Htext; cbn in Hk.
    + injection Hk as <-. cbn [env_at] in Htext. rewrite Nat.add_0_r in *.
      rewrite Hrest.
      * rewrite Htext. apply lookup_insert_eq.
      * intros k x _ _ Heq. apply attachment_path_number in Heq. lia.
    + cbn [env_at] in Htext. rewrite Nat.add_succ_r in *. by apply Hfiles.
  - intros q Hq. rewrite Hrest.
    + pose proof (Hq 0 attachment eq_refl) as H0. unfold is_stored in H0.
      cbn [env_at] in H0. rewrite Nat.add_0_r in H0.
      destruct (stored_text C _ attachment (w_env w)); [|done].
      apply lookup_insert_ne. by apply H0.
    + intros k x Hk Hs. replace (S i + k) with (i + S k) by lia. apply (Hq (S k) x Hk).
      by rewrite is_stored_succ.
Qed.

End Units.

End StoredUnits.

Section DesignLoop.
Context {Env : Type} (C : Runtime Env).
Import DocumentAgent.

(** One round of the loop of [process_design_attachments]. *)
Lemma design_round_stored (ticket_data : Ticket) (attachment : Attachment) (i : nat)
    (a : AgentState Env) :
  exists r a' p,
    try_except
      (let doc_type := doc_type_of (a_filename attachment) in
       filepath <- doc_processor (process_attachment C attachment doc_type
                                    (t_key ticket_data) i) ;;
       if negb (no_text filepath) then
         processed_files_append (text_of filepath) ;;;
         ret {| filepath := text_of filepath; document_type := doc_type;
                source_ticket := t_key ticket_data;
                filename := a_filename attachment;
                success := true; error_message := None |}
       else
         ret {| filepath := ""; document_type := doc_type;
                source_ticket := t_key ticket_data;
                filename := a_filename attachment;
                success := false;
                error_message := Some "Could not extract content" |})
      (fun e =>
         ret {| filepath := ""; document_type := "lld";
                source_ticket := t_key ticket_data;
                filename := a_filename attachment;
                success := false; error_message := Some e |}) a
    = Some (Ok r, a') /\
    process_attachment C attachment (doc_type_of (a_filename attachment)) (t_key ticket_data) i
      (ag_world a) = Some (Ok p, ag_world a') /\
    document_type r = doc_type_of (a_filename attachment) /\
    source_ticket r = t_key ticket_data /\
    filename r = a_filename attachment /\
    success r =
      match stored_text C (attachment_path C (doc_type_of (a_filename attachment))
                             (t_key ticket_data) i) attachment (w_env (ag_world a)) with
      | Some _ => true
      | None => false
      end /\
    filepath r =
      (if success r
       then attachment_path C (doc_type_of (a_filename attachment)) (t_key ticket_data) i
       else "") /\
    processed_files a' = processed_files a ++ (if success r then [filepath r] else []) /\
    missing_documents a' = missing_documents a /\
    user_provided_content a' = user_provided_content a.
Proof.
  cbn zeta. unfold try_except, bind, doc_processor, zoom.
  rewrite process_attachment_stored.
  destruct (stored_text C _ attachment (w_env (ag_world a))) as [text|].
  - cbn [no_text negb text_of]. rewrite truthy_attachment_path. cbn [negb].
    unfold processed_files_append, modify, ret. do 3 eexists.
    split; [reflexivity|]. cbn. repeat split; reflexivity.
  - cbn [no_text negb]. unfold ret. do 3 eexists.
    split; [reflexivity|]. cbn. rewrite List.app_nil_r. repeat split; reflexivity.
Qed.

Lemma process_design_loop_stored (ticket_data : Ticket) (attachments : list Attachment)
    (i : nat) (results : list ProcessedDocument) (a : AgentState Env) :
  exists rs a',
    process_design_loop C ticket_data attachments i results a
      = Some (Ok (results ++ rs), a') /\
    length rs = length attachments /\
    (forall k attachment,
       attachments !! k = Some attachment ->
       exists r, rs !! k = Some r /\
         document_type r = doc_type_of (a_filename attachment) /\
         source_ticket r = t_key ticket_data /\
         filename r = a_filename attachment /\
         success r =
           is_stored C (fun x => doc_type_of (a_filename x)) (fun _ => t_key ticket_data) i
             attachments (w_env (ag_world a)) k attachment /\
         filepath r =
           (if success r
            then attachment_path C (doc_type_of (a_filename attachment)) (t_key ticket_data)
                   (i + k)
            else "")) /\
    processed_files a' = processed_files a ++ map filepath (List.filter success rs) /\
    missing_documents a' = missing_documents a /\
    user_provided_content a' = user_provided_content a /\
    units_stored C (fun x => doc_type_of (a_filename x)) (fun _ => t_key ticket_data) i
      attachments (ag_world a) (ag_world a').
Proof.
  revert i results a. induction attachments as [|attachment attachments IH]; intros i results a.
  - exists [], a. rewrite !List.app_nil_r. repeat split; done.
  - cbn [process_design_loop]. unfold bind at 1.
    destruct (design_round_stored ticket_data attachment i a)
      as (r & a1 & p & Hrun & Hp & Hty & Hsrc & Hname & Hs & Hpath & Hfiles & Hm & Hu).
    cbn zeta in Hrun. rewrite Hrun.
    destruct (IH (S i) (results ++ [r]) a1)
      as (rs & a2 & -> & Hlen & Hrs & Hfiles2 & Hm2 & Hu2 & Hunits).
    exists (r :: rs), a2. rewrite <- List.app_assoc. split; [reflexivity|].
    split; [cbn; congruence|]. split; [|split; [|split; [congruence|split; [congruence|]]]].
    + intros [|k] x Hk; cbn in Hk.
      * injection Hk as <-. exists r. unfold is_stored. cbn [env_at].
        rewrite Nat.add_0_r. done.
      * destruct (Hrs k x Hk) as (r' & Hr' & ? & ? & ? & Hs' & Hpath').
        exists r'. rewrite is_stored_succ, Nat.add_succ_r.
        rewrite (process_attachment_env C _ _ _ _ _ _ _ Hp) in Hs'. done.
    + rewrite Hfiles2, Hfiles. cbn [List.filter]. destruct (success r); cbn;
        by rewrite <- ?List.app_assoc, ?List.app_nil_r.
    + eapply units_stored_cons; [exact Hp|exact Hunits].
Qed.

End DesignLoop.

Section BotLoops.
Context {Env : Type} (C : Runtime Env).
Import Chatbot.

Section Loop.
Variables (identify : Ticket -> list Attachment) (ty : Attachment -> string)
          (loop : list Attachment -> nat -> M (BotState Env) unit).

Hypothesis loop_nil : forall i b, loop [] i b = Some (Ok tt, b).

Hypothesis loop_cons : forall attachment attachments i b,
  exists b1 p,
    loop (attachment :: attachments) i b = loop attachments (S i) b1 /\
    same_session b b1 /\
    process_attachment C attachment (ty attachment) (source_of identify b attachment) i
      (b_world b) = Some (Ok p, b_world b1) /\
    processed_documents b1 =
      processed_documents b ++ match p with Some path => [path] | None => [] end.

Lemma bot_loop_stored (b0 : BotState Env) (attachments : list Attachment) (i : nat)
    (b : BotState Env) :
  same_session b0 b ->
  exists flags b',
    loop attachments i b = Some (Ok tt, b') /\
    same_session b0 b' /\
    length flags = length attachments /\
    (forall k attachment,
       attachments !! k = Some attachment ->
       flags !! k =
         Some (is_stored C ty (source_of identify b0) i attachments (w_env (b_world b))
                 k attachment)) /\
    processed_documents b' =
      processed_documents b ++
      stored_paths (fun attachment n =>
          attachment_path C (ty attachment) (source_of identify b0 attachment) n)
        attachments flags i /\
    units_stored C ty (source_of identify b0) i attachments (b_world b) (b_world b').
Proof.
  revert i b. induction attachments as [|attachment attachments IH]; intros i b Hsame.
  - exists [], b. rewrite loop_nil. cbn. rewrite List.app_nil_r.
    repeat split; try done; apply Hsame.
  - destruct (loop_cons attachment attachments i b) as (b1 & p & -> & Hs1 & Hp & Hdocs).
    rewrite (source_of_same identify b0 b attachment Hsame) in Hp.
    destruct (IH (S i) b1 (same_session_trans _ _ _ Hsame Hs1))
      as (flags & b2 & -> & Hs2 & Hlen & Hflags & Hdocs2 & Hunits).
    pose proof Hp as Hp'. rewrite process_attachment_stored in Hp'.
    injection Hp' as Hpath Hworld.
    exists (is_stored C ty (source_of identify b0) i (attachment :: attachments)
              (w_env (b_world b)) 0 attachment :: flags), b2.
    split; [reflexivity|]. split; [exact Hs2|]. split; [cbn; congruence|].
    split; [|split].
    + intros [|k] x Hk; cbn in Hk.
      * by injection Hk as <-.
      * rewrite is_stored_succ. rewrite <- Hworld in Hflags. exact (Hflags k x Hk).
    + rewrite Hdocs2, Hdocs, <- List.app_assoc. f_equal. cbn [stored_paths]. f_equal.
      unfold is_stored. cbn [env_at]. rewrite Nat.add_0_r. rewrite <- Hpath.
      by destruct (stored_text C _ attachment (w_env (b_world b))).
    + eapply units_stored_cons; [exact Hp|exact Hunits].
Qed.

End Loop.

Ltac bot_round C attachment ty identify i b :=
  unfold try_except, bind, get_state; cbn beta iota zeta;
  fold (source_of identify b attachment);
  unfold doc_processor, zoom;
  rewrite (process_attachment_stored C attachment ty (source_of identify b attachment) i);
  destruct (stored_text C _ attachment (w_env (b_world b))) as [text|];
  [ cbn [no_text negb text_of]; rewrite truthy_attachment_path; cbn [negb];
    unfold processed_documents_append, modify
  | cbn [no_text negb]; unfold ret ];
  do 2 eexists; (split; [reflexivity|]); (split; [done|]); (split; [reflexivity|]);
  cbn; rewrite ?List.app_nil_r; reflexivity.

Lemma _process_prd_loop_cons (attachment : Attachment) (attachments : list Attachment)
    (i : nat) (b : BotState Env) :
  exists b1 p,
    _process_prd_loop C (attachment :: attachments) i b
      = _process_prd_loop C attachments (S i) b1 /\
    same_session b b1 /\
    process_attachment C attachment "prd" (source_of identify_prd_attachments b attachment) i
      (b_world b) = Some (Ok p, b_world b1) /\
    processed_documents b1 =
      processed_documents b ++ match p with Some path => [path] | None => [] end.
Proof.
  cbn [_process_prd_loop]. unfold bind at 1.
  bot_round C attachment "prd" identify_prd_attachments i b.
Qed.

Lemma _process_design_loop_cons (attachment : Attachment) (attachments : list Attachment)
    (i : nat) (b : BotState Env) :
  exists b1 p,
    _process_design_loop C (attachment :: attachments) i b
      = _process_design_loop C attachments (S i) b1 /\
    same_session b b1 /\
    process_attachment C attachment (DocumentAgent.doc_type_of (a_filename attachment))
      (source_of identify_hld_lld_attachments b attachment) i (b_world b)
      = Some (Ok p, b_world b1) /\
    processed_documents b1 =
      processed_documents b ++ match p with Some path => [path] | None => [] end.
Proof.
  cbn [_process_design_loop]. unfold bind at 1.
  bot_round C attachment (DocumentAgent.doc_type_of (a_filename attachment))
    identify_hld_lld_attachments i b.
Qed.

Lemma _process_prd_loop_stored (attachments : list Attachment) (i : nat) (b : BotState Env) :
  exists flags b',
    _process_prd_loop C attachments i b = Some (Ok tt, b') /\
    same_session b b' /\
    length flags = length attachments /\
    (forall k attachment,
       attachments !! k = Some attachment ->
       flags !! k =
         Some (is_stored C (fun _ => "prd") (source_of identify_prd_attachments b) i
                 attachments (w_env (b_world b)) k attachment)) /\
    processed_documents b' =
      processed_documents b ++
      stored_paths (fun attachment n =>
          attachment_path C "prd" (source_of identify_prd_attachments b attachment) n)
        attachments flags i /\
    units_stored C (fun _ => "prd") (source_of identify_prd_attachments b) i attachments
      (b_world b) (b_world b').
Proof.
  apply (bot_loop_stored identify_prd_attachments (fun _ => "prd") (_process_prd_loop C));
    [done|apply _process_prd_loop_cons|apply same_session_refl].
Qed.

Lemma _process_design_loop_stored (attachments : list Attachment) (i : nat)
    (b : BotState Env) :
  exists flags b',
    _process_design_loop C attachments i b = Some (Ok tt, b') /\
    same_session b b' /\
    length flags = length attachments /\
    (forall k attachment,
       attachments !! k = Some attachment ->
       flags !! k =
         Some (is_stored C (fun x => DocumentAgent.doc_type_of (a_filename x))
                 (source_of identify_hld_lld_attachments b) i
                 attachments (w_env (b_world b)) k attachment)) /\
    processed_documents b' =
      processed_documents b ++
      stored_paths (fun attachment n =>
          attachment_path C (DocumentAgent.doc_type_of (a_filename attachment))
            (source_of identify_hld_lld_attachments b attachment) n)
        attachments flags i /\
    units_stored C (fun x => DocumentAgent.doc_type_of (a_filename x))
      (source_of identify_hld_lld_attachments b) i attachments (b_world b) (b_world b').
Proof.
  apply (bot_loop_stored identify_hld_lld_attachments
           (fun x => DocumentAgent.doc_type_of (a_filename x)) (_process_design_loop C));
    [done|apply _process_design_loop_cons|apply same_session_refl].
Qed.

End BotLoops.

Lemma stored_numbers_In (rs : list ProcessedDocument) (i n : nat) :
  In n (stored_numbers rs i) <->
  exists k r, n = i + k /\ rs !! k = Some r /\ success r = true.
Proof.
  revert i. induction rs as [|r rs IH]; intros i; cbn [stored_numbers].
  - split; [intros []|]. intros (k & r & _ & H & _). by rewrite lookup_nil in H.
  - rewrite in_app_iff, IH. split.
    + intros [H|(k & r' & -> & Hk & Hs)].
      * destruct (success r) eqn:Hs; [|destruct H]. destruct H as [<-|[]].
        exists 0, r. rewrite Nat.add_0_r. done.
      * exists (S k), r'. split; [lia|done].
    + intros ([|k] & r' & -> & Hk & Hs).
      * left. cbn in Hk. injection Hk as ->. rewrite Hs, Nat.add_0_r. by left.
      * right. exists k, r'. split; [lia|done].
Qed.

(** Claim C1 as stated fails: a fetch that fails uses up its number.  With
    two requirements attachments of which the first cannot be downloaded,
    the one stored unit has number 2. *)
Lemma failed_fetch_consumes_number :
  ~ (forall (C : Runtime nat) (ticket_data : Ticket) (a : AgentState nat) rs a',
       DocumentAgent.process_prd_attachments C ticket_data a = Some (Ok rs, a') ->
       processed_files a' =
         processed_files a ++
         map (attachment_path C "prd" (t_key ticket_data))
           (List.seq 1 (length (List.filter success rs)))).
Proof.
  intros H.
  specialize (H Example.runtime
                (Example.ticket "T-1" ""
                   [Example.attachment "PRD-a.pdf" "bad"; Example.attachment "PRD-b.pdf" "good"])
                Example.agent _ _ eq_refl).
  vm_compute in H. discriminate.
Qed.

Section Numbering.
Context {Env : Type} (C : Runtime Env).

(** Claim C1, amended.  The number of a unit is the place of its
    attachment in the list the loop runs over, counted from the first
    number of the loop, whether or not the fetches before it succeeded.
    [process_prd_attachments] returns one result for each classified
    attachment and appends to the stored files, in order, the paths
    numbered by the places (from 1) of the results that succeeded; these
    numbers increase strictly.  The loop of the chatbot appends, for the
    attachments whose fetch succeeded, the path numbered by the place of
    the attachment. *)
Theorem sequence_numbers_are_positions :
  (forall ticket_data (a : AgentState Env),
     exists rs a',
       DocumentAgent.process_prd_attachments C ticket_data a = Some (Ok rs, a') /\
       length rs = length (identify_prd_attachments ticket_data) /\
       processed_files a' =
         processed_files a ++
         map (fun n => Py.os_path_join (documents_folder C)
                (Py.concat ["prd"; "-from-"; t_key ticket_data; "-attachment"; pretty n;
                            "-content.md"]))
           (stored_numbers rs 1) /\
       StronglySorted lt (stored_numbers rs 1) /\
       (forall n, In n (stored_numbers rs 1) <->
          exists k r, n = 1 + k /\ rs !! k = Some r /\ success r = true)) /\
  (forall attachments i (b : BotState Env),
     exists flags b',
       Chatbot._process_prd_loop C attachments i b = Some (Ok tt, b') /\
       length flags = length attachments /\
       processed_documents b' =
         processed_documents b ++
         stored_paths (fun attachment n =>
             Py.os_path_join (documents_folder C)
               (Py.concat ["prd"; "-from-";
                           source_of identify_prd_attachments b attachment;
                           "-attachment"; pretty n; "-content.md"]))
           attachments flags i).
Proof.
  split.
  - intros ticket_data a. unfold DocumentAgent.process_prd_attachments.
    destruct (identify_prd_attachments ticket_data) as [|x l] eqn:E.
    + exists [], a. split; [reflexivity|]. split; [done|].
      split; [cbn; by rewrite List.app_nil_r|]. split; [constructor|].
      intros n. apply stored_numbers_In.
    + destruct (process_prd_loop_rounds C ticket_data (x :: l) 1 [] a)
        as (rs & a' & Hrun & Hrounds).
      exists rs, a'. cbn [app] in Hrun. split; [exact Hrun|].
      split; [by eapply rounds_length|].
      split; [by apply (rounds_stored_numbers C "prd" _ _ _ _ _ _ Hrounds)|].
      split; [apply stored_numbers_sorted|]. intros n. apply stored_numbers_In.
  - intros attachments i b.
    destruct (_process_prd_loop_spec C attachments i b) as (flags & b' & Hrun & _ & Hlen & Hp).
    exists flags, b'. done.
Qed.

Import DocumentAgent.

(** Claim C9.  The category of a design attachment is "hld" exactly when
    its lowercased name contains "hld" or "high", and "lld" otherwise.
    [process_design_attachments] returns, for every classified
    attachment, a result with this category; the result is a success
    exactly when a text was found in the attachment and its file could be
    written, and then the text is stored in the file named by the
    category, the ticket and the place of the attachment.  The loop of
    the chatbot stores the same files and appends their paths, and
    [_process_design_documents] runs it over the design attachments of
    the ticket followed by those of the epic before it turns to the wiki
    links.  In the example Architecture.pdf and technical_design.docx are
    stored under "lld", LLD-draft.pdf, whose download fails, gets the
    category "lld" and no file, and "High-level design.pdf" is stored
    under "hld"; the chatbot stores Architecture.pdf of the ticket under
    "lld" and HLD-overview.docx of the epic under "hld". *)
Theorem design_category_from_name :
  (forall name,
     (doc_type_of name = "hld" <->
      Py.contains (Py.lower name) "hld" = true \/ Py.contains (Py.lower name) "high" = true) /\
     (doc_type_of name = "hld" \/ doc_type_of name = "lld")) /\
  (forall ticket_data (a : AgentState Env),
     exists rs a',
       process_design_attachments C ticket_data a = Some (Ok rs, a') /\
       length rs = length (identify_hld_lld_attachments ticket_data) /\
       (forall k attachment,
          identify_hld_lld_attachments ticket_data !! k = Some attachment ->
          exists r, rs !! k = Some r /\
            document_type r = doc_type_of (a_filename attachment) /\
            success r =
              is_stored C (fun x => doc_type_of (a_filename x)) (fun _ => t_key ticket_data) 1
                (identify_hld_lld_attachments ticket_data) (w_env (ag_world a)) k attachment /\
            filepath r =
              if success r
              then Py.os_path_join (documents_folder C)
                     (Py.concat [doc_type_of (a_filename attachment); "-from-";
                                 t_key ticket_data; "-attachment"; pretty (1 + k);
                                 "-content.md"])
              else "") /\
       processed_files a' = processed_files a ++ map filepath (List.filter success rs) /\
       units_stored C (fun x => doc_type_of (a_filename x)) (fun _ => t_key ticket_data) 1
         (identify_hld_lld_attachments ticket_data) (ag_world a) (ag_world a')) /\
  (forall attachments i (b : BotState Env),
     exists flags b',
       Chatbot._process_design_loop C attachments i b = Some (Ok tt, b') /\
       length flags = length attachments /\
       (forall k attachment,
          attachments !! k = Some attachment ->
          flags !! k =
            Some (is_stored C (fun x => doc_type_of (a_filename x))
                    (source_of identify_hld_lld_attachments b) i attachments
                    (w_env (b_world b)) k attachment)) /\
       processed_documents b' =
         processed_documents b ++
         stored_paths (fun attachment n =>
             Py.os_path_join (documents_folder C)
               (Py.concat [doc_type_of (a_filename attachment); "-from-";
                           source_of identify_hld_lld_attachments b attachment;
                           "-attachment"; pretty n; "-content.md"]))
           attachments flags i /\
       units_stored C (fun x => doc_type_of (a_filename x))
         (source_of identify_hld_lld_attachments b) i attachments (b_world b) (b_world b')) /\
  (forall fuel (b : BotState Env),
     exists b',
       Chatbot._process_design_loop C
         (identify_hld_lld_attachments (current_ticket b)
          ++ match current_epic b with
             | Some epic => identify_hld_lld_attachments epic
             | None => []
             end) 1 b = Some (Ok tt, b') /\
       Chatbot._process_design_documents C fuel b
         = Chatbot._process_confluence_links C fuel b') /\
  (exists rs a',
     process_design_attachments Example.runtime
       (Example.ticket "T-1" ""
          [Example.attachment "Architecture.pdf" "a";
           Example.attachment "notes.txt" "n";
           Example.attachment "technical_design.docx" "t";
           Example.attachment "LLD-draft.pdf" "bad";
           Example.attachment "High-level design.pdf" "h"])
       Example.agent = Some (Ok rs, a') /\
     map filename rs = ["Architecture.pdf"; "technical_design.docx"; "LLD-draft.pdf";
                        "High-level design.pdf"] /\
     map document_type rs = ["lld"; "lld"; "lld"; "hld"] /\
     map success rs = [true; true; false; true] /\
     processed_files a' = ["documents/lld-from-T-1-attachment1-content.md";
                           "documents/lld-from-T-1-attachment2-content.md";
                           "documents/hld-from-T-1-attachment4-content.md"] /\
     w_fs (ag_world a') !! "documents/lld-from-T-1-attachment1-content.md" =
       Some (attachment_markdown Example.runtime (Example.attachment "Architecture.pdf" "a")
               "lld" "T-1" (Py.concat ["page one"; Py.nl; " page two"])) /\
     w_fs (ag_world a') !! "documents/lld-from-T-1-attachment2-content.md" =
       Some (attachment_markdown Example.runtime
               (Example.attachment "technical_design.docx" "t") "lld" "T-1" "paragraph") /\
     w_fs (ag_world a') !! "documents/lld-from-T-1-attachment3-content.md" = None /\
     is_Some (w_fs (ag_world a') !! "documents/hld-from-T-1-attachment4-content.md")) /\
  (exists b',
     Chatbot._process_design_documents Example.runtime 0
       (Example.bot
          (Example.ticket "T-1" "" [Example.attachment "Architecture.pdf" "a"])
          (Some (Example.ticket "E-1" "" [Example.attachment "HLD-overview.docx" "h"])))
       = Some (Ok tt, b') /\
     processed_documents b' = ["documents/lld-from-T-1-attachment1-content.md";
                               "documents/hld-from-E-1-attachment2-content.md"] /\
     w_fs (b_world b') !! "documents/lld-from-T-1-attachment1-content.md" =
       Some (attachment_markdown Example.runtime (Example.attachment "Architecture.pdf" "a")
               "lld" "T-1" (Py.concat ["page one"; Py.nl; " page two"])) /\
     w_fs (b_world b') !! "documents/hld-from-E-1-attachment2-content.md" =
       Some (attachment_markdown Example.runtime (Example.attachment "HLD-overview.docx" "h")
               "hld" "E-1" "paragraph")) /\
  doc_type_of "Architecture.pdf" = "lld" /\
  doc_type_of "technical_design.docx" = "lld".
Proof.
  split.
  { intros name. unfold doc_type_of. rewrite <- orb_true_iff.
    destruct (Py.contains (Py.lower name) "hld" || Py.contains (Py.lower name) "high");
      split; try (by left); try (by right); split; done. }
  split.
  { intros ticket_data a. unfold process_design_attachments.
    destruct (identify_hld_lld_attachments ticket_data) as [|x l] eqn:E.
    - exists [], a. split; [reflexivity|]. split; [done|].
      split; [intros k attachment Hk; by rewrite lookup_nil in Hk|].
      split; [cbn; by rewrite List.app_nil_r|]. apply units_stored_nil.
    - destruct (process_design_loop_stored C ticket_data (x :: l) 1 [] a)
        as (rs & a' & Hrun & Hlen & Hrs & Hfiles & _ & _ & Hunits).
      exists rs, a'. cbn [app] in Hrun. split; [exact Hrun|]. split; [exact Hlen|].
      split; [|done].
      intros k attachment Hk.
      destruct (Hrs k attachment Hk) as (r & Hr & Hty & _ & _ & Hs & Hpath).
      exists r. done. }
  split.
  { intros attachments i b.
    destruct (_process_design_loop_stored C attachments i b)
      as (flags & b' & Hrun & _ & Hlen & Hflags & Hp & Hunits).
    exists flags, b'. done. }
  split.
  { intros fuel b.
    destruct (_process_design_loop_stored C
                (identify_hld_lld_attachments (current_ticket b)
                 ++ match current_epic b with
                    | Some epic => identify_hld_lld_attachments epic
                    | None => []
                    end) 1 b)
      as (flags & b' & Hrun & _).
    exists b'. split; [exact Hrun|].
    unfold Chatbot._process_design_documents, bind at 1, get_state. unfold bind at 1.
    assert ((match current_epic b with
             | Some epic => identify_hld_lld_attachments (current_ticket b)
                            ++ identify_hld_lld_attachments epic
             | None => identify_hld_lld_attachments (current_ticket b)
             end)
            = identify_hld_lld_attachments (current_ticket b)
              ++ match current_epic b with
                 | Some epic => identify_hld_lld_attachments epic
                 | None => []
                 end) as ->.
    { destruct (current_epic b); [done|by rewrite List.app_nil_r]. }
    destruct (_ ++ _) as [|x l] eqn:E.
    - cbn in Hrun. by injection Hrun as <-.
    - by rewrite Hrun. }
  split.
  { do 2 eexists. split; [vm_compute; reflexivity|].
    repeat split; try (by vm_compute). by eexists. }
  split; [|by vm_compute].
  eexists. split; [vm_compute; reflexivity|]. repeat split; by vm_compute.
Qed.

End Numbering.

(** ** Further properties *)

Section ClassifierExtras.

Lemma filter_filter_same {A} (f : A -> bool) (l : list A) :
  List.filter f (List.filter f l) = List.filter f l.
Proof.
  induction l as [|x l IH]; [reflexivity|]. cbn. destruct (f x) eqn:E; [|exact IH].
  cbn. by rewrite E, IH.
Qed.

Lemma identify_by_nil (patterns : list Re.regex) : identify_by patterns [] = [].
Proof. reflexivity. Qed.

Lemma identify_prd_attachments_filter (ticket_data : Ticket) :
  identify_prd_attachments ticket_data = identify_by prd_patterns (t_attachments ticket_data).
Proof. unfold identify_prd_attachments. by destruct (t_attachments ticket_data). Qed.

Lemma identify_hld_lld_attachments_filter (ticket_data : Ticket) :
  identify_hld_lld_attachments ticket_data
  = identify_by design_patterns (t_attachments ticket_data).
Proof. unfold identify_hld_lld_attachments. by destruct (t_attachments ticket_data). Qed.

Lemma filter_sublist {A} (f : A -> bool) (l : list A) : sublist (List.filter f l) l.
Proof.
  induction l as [|x l IH]; [constructor|]. cbn. destruct (f x); by constructor.
Qed.

(** Both classifiers keep the order of the input, and classifying what a
    classifier returned changes nothing. *)
Theorem classifiers_idempotent (ticket_data classified : Ticket) :
  (sublist (identify_prd_attachments ticket_data) (t_attachments ticket_data) /\
   sublist (identify_hld_lld_attachments ticket_data) (t_attachments ticket_data)) /\
  (t_attachments classified = identify_prd_attachments ticket_data ->
   identify_prd_attachments classified = identify_prd_attachments ticket_data) /\
  (t_attachments classified = identify_hld_lld_attachments ticket_data ->
   identify_hld_lld_attachments classified = identify_hld_lld_attachments ticket_data).
Proof.
  rewrite !identify_prd_attachments_filter, !identify_hld_lld_attachments_filter.
  split; [split; apply filter_sublist|].
  split; intros ->; apply filter_filter_same.
Qed.

(** A name on one line that has one of the words before a final .pdf is
    kept as a requirements document, whatever the case of its letters. *)
Theorem prd_before_pdf_is_kept (ticket_data : Ticket) (attachment : Attachment)
    (body : string) :
  In attachment (t_attachments ticket_data) ->
  Py.lower (a_filename attachment) = body +:+ ".pdf" ->
  one_line body = true ->
  Py.contains body "prd" = true ->
  In attachment (identify_prd_attachments ticket_data).
Proof.
  intros Hin Hname Hline Hprd. rewrite identify_prd_attachments_named.
  apply filter_In. split; [done|]. unfold requirements_name.
  apply orb_true_iff. left. cbn [existsb]. apply orb_true_iff. left.
  apply named_iff. exists ".pdf", "", body. rewrite Hname, str_app_nil_r.
  split; [by left|]. split; [by left|]. split; [done|]. split; [done|].
  cbn [in_order]. apply occurs_then_iff. apply contains_iff in Hprd as (a & b & ->). eauto.
Qed.

End ClassifierExtras.

Lemma prd_before_pdf_is_kept_witness :
  In (Example.attachment "My PRD v2.PDF" "u")
     (identify_prd_attachments
        (Example.ticket "T-1" "" [Example.attachment "notes.txt" "v";
                                  Example.attachment "My PRD v2.PDF" "u"])).
Proof.
  apply (prd_before_pdf_is_kept _ _ "my prd v2"); [right; by left|reflexivity..].
Defined.

Section ExtractionExtras.
Context {Env : Type} (C : Runtime Env).

(** What is neither PDF nor Word nor left to the HTML reader is decoded
    as text, and decoding never fails: the result is never [None]. *)
Theorem text_is_always_extracted (content_bytes : bytes) (filename content_type : string) :
  is_pdf filename content_type = false ->
  is_word filename content_type = false ->
  is_html_only filename content_type = false ->
  _extract_text_from_bytes C content_bytes filename content_type
  = Ok (Some (decode_utf8_ignore C content_bytes)).
Proof.
  unfold is_pdf, is_word, is_html_only, _extract_text_from_bytes.
  intros -> -> H.
  destruct ((Py.endswith (Py.lower filename) ".txt" || Py.endswith (Py.lower filename) ".md")
            || Py.contains (Py.lower content_type) "text"); [reflexivity|].
  cbn [negb andb] in H. rewrite H. reflexivity.
Qed.

(** The Word branch fails closed like the PDF branch. *)
Theorem docx_extraction_fails_closed (content_bytes : bytes) (filename content_type : string) :
  is_pdf filename content_type = false ->
  is_word filename content_type = true ->
  (forall e, Document_paragraphs C content_bytes = Raise e ->
     _extract_text_from_bytes C content_bytes filename content_type = Ok None) /\
  (forall paragraphs e,
     Document_paragraphs C content_bytes = Ok paragraphs -> In (Raise e) paragraphs ->
     _extract_text_from_bytes C content_bytes filename content_type = Ok None) /\
  (forall texts, Document_paragraphs C content_bytes = Ok (map Ok texts) ->
     _extract_text_from_bytes C content_bytes filename content_type
     = Ok (Some (Py.strip (Py.join Py.nl texts)))).
Proof.
  unfold is_pdf, is_word. intros Hpdf Hword. unfold _extract_text_from_bytes.
  rewrite Hpdf, Hword. unfold _extract_docx_text. repeat apply conj.
  - intros e ->. reflexivity.
  - intros paragraphs e -> Hin. cbn [res_bind res_try].
    destruct (join_lines_raise paragraphs e "" Hin) as [e' ->]. reflexivity.
  - intros texts ->. cbn [res_bind res_try]. rewrite join_lines_ok. cbn [res_bind res_try].
    by rewrite str_app_nil_l, concat_lines_join.
Qed.

End ExtractionExtras.

Lemma text_is_always_extracted_witness :
  _extract_text_from_bytes Example.runtime [Byte.x41] "notes.md" "application/octet-stream"
  = Ok (Some "A").
Proof.
  exact (text_is_always_extracted Example.runtime [Byte.x41] "notes.md"
           "application/octet-stream" eq_refl eq_refl eq_refl).
Defined.

Lemma docx_extraction_fails_closed_witness :
  _extract_text_from_bytes Example.runtime [Byte.x41] "Design.DOCX" "application/octet-stream"
  = Ok (Some "paragraph").
Proof.
  exact (proj2 (proj2 (docx_extraction_fails_closed Example.runtime [Byte.x41] "Design.DOCX"
                         "application/octet-stream" eq_refl eq_refl)) ["paragraph"] eq_refl).
Defined.

Section FetchExtras.
Context {Env : Type} (C : Runtime Env).





Lemma universal_newlines_id (c : string) :
  Py.contains c (String Py.cr "") = false -> Py.universal_newlines c = c.
Proof.
  induction c as [|x c IH]; [reflexivity|]. cbn [Py.contains Py.startswith].
  intros H. apply orb_false_iff in H as [Hx Hc]. cbn [Py.universal_newlines].
  rewrite Ascii.eqb_sym in Hx. destruct (Ascii.eqb x Py.cr) eqn:E.
  - cbn in Hx. destruct c; discriminate.
  - by rewrite IH.
Qed.

(** What [save_markdown_file] stored is what reading the file in text
    mode gives back, up to the line ends: a carriage return comes back
    as a line feed, a text without one comes back as it was. *)
Theorem saved_file_reads_back (content name : string) (w w' : World Env) (p : string) :
  save_markdown_file C content name w = Some (Ok p, w') ->
  read_text p w' = Some (Ok (Py.universal_newlines content), w') /\
  (Py.contains content (String Py.cr "") = false ->
   read_text p w' = Some (Ok content, w')).
Proof.
  unfold save_markdown_file, bind. rewrite write_text_cases.
  destruct (open_w_error C _); [discriminate|]. intros [= <- <-].
  unfold read_text. cbn. rewrite lookup_insert_eq. split; [done|].
  intros H. by rewrite universal_newlines_id.
Qed.

End FetchExtras.

Lemma saved_file_reads_back_witness :
  read_text "documents/generated.md"
    (set_fs (fun fs => <["documents/generated.md" := "text"]> fs) Example.world)
  = Some (Ok "text",
          set_fs (fun fs => <["documents/generated.md" := "text"]> fs) Example.world).
Proof.
  exact (proj2 (saved_file_reads_back Example.runtime "text" "generated.md" Example.world _
                  "documents/generated.md" eq_refl) eq_refl).
Defined.

Section ConsolidateExtras.
Context {Env : Type} (C : Runtime Env).




Lemma stored_texts_insert_other (fs : gmap string string) (p c : string)
    (l : list string) :
  ~ In p l -> stored_texts (<[p := c]> fs) l = stored_texts fs l.
Proof.
  unfold stored_texts. induction l as [|f l IH]; [reflexivity|]. intros H.
  cbn. rewrite lookup_insert_ne by (intros ->; apply H; by left).
  rewrite IH by (intros ?; apply H; by right). reflexivity.
Qed.

Lemma unit_path_not_final (name : string) :
  unit_name name = true -> Py.os_path_join (documents_folder C) name <> final_path C.
Proof.
  unfold unit_name, final_path. intros Hn Heq.
  apply andb_true_iff in Hn as [Hn Hfinal]. apply andb_true_iff in Hn as [_ Hplain].
  apply os_path_join_inj in Heq.
  - subst name. by vm_compute in Hfinal.
  - destruct (Py.startswith name "/") eqn:Hs; [|reflexivity].
    apply startswith_iff in Hs as (r & ->).
    assert (Py.contains ("/" +:+ r) "/" = true) as Hc.
    { apply contains_iff. by exists "", r. }
    by rewrite Hc in Hplain.
Qed.

(** The artifact is made from the listed units alone.  When every listed
    file is a unit of the documents folder (a plain name ending with .md
    other than final-content.md, so that no path of the list leads to the
    artifact), what the artifact held before does not matter, and
    consolidating again gives the same world. *)
Theorem consolidation_is_repeatable (document_files : list string) (w w' : World Env)
    (p : string) :
  List.Forall (fun doc_file => exists name,
                 unit_name name = true /\
                 doc_file = Py.os_path_join (documents_folder C) name) document_files ->
  consolidate_documents C document_files w = Some (Ok p, w') ->
  consolidate_documents C document_files w' = Some (Ok p, w').
Proof.
  intros Hunits.
  assert (~ In (final_path C) document_files) as Hnot.
  { intros Hin. eapply List.Forall_forall in Hunits; [|exact Hin].
    destruct Hunits as (name & Hn & Heq). symmetry in Heq.
    by apply unit_path_not_final in Heq. }
  rewrite !consolidate_documents_eq. cbn zeta.
  destruct (open_w_error C (final_path C)); [discriminate|]. intros [= <- <-].
  cbn [w_fs set_fs]. rewrite stored_texts_insert_other by done.
  do 2 f_equal. unfold set_fs. cbn. f_equal. apply insert_insert_eq.
Qed.

End ConsolidateExtras.


Lemma consolidation_is_repeatable_witness :
  exists w',
    consolidate_documents Example.runtime ["documents/b.md"; "documents/a.md"] Example.stored
      = Some (Ok "documents/final-content.md", w') /\
    consolidate_documents Example.runtime ["documents/b.md"; "documents/a.md"] w'
      = Some (Ok "documents/final-content.md", w').
Proof.
  exists (set_fs (fun fs => <["documents/final-content.md" :=
                             artifact_text (w_fs Example.stored)
                               ["documents/b.md"; "documents/a.md"]]> fs)
            Example.stored).
  split; [reflexivity|].
  apply (consolidation_is_repeatable Example.runtime ["documents/b.md"; "documents/a.md"]
           Example.stored).
  - repeat constructor; [by exists "b.md"|by exists "a.md"].
  - reflexivity.
Defined.

Section UniqueNames.
Context {Env : Type} (C : Runtime Env).

Lemma attachment_path_inj (ty src : string) (n m : nat) :
  attachment_path C ty src n = attachment_path C ty src m -> n = m.
Proof.
  unfold attachment_path. intros H. apply os_path_join_inj in H.
  - cbn [Py.concat] in H.
    apply (inj (String.app ty)) in H. apply (inj (String.app "-from-")) in H.
    apply (inj (String.app src)) in H. apply (inj (String.app "-attachment")) in H.
    apply str_app_inv_r in H. by apply (inj pretty) in H.
  - cbn [Py.concat]. destruct ty as [|a ty];
      rewrite ?str_app_nil_l, !str_app_cons, !startswith_char; reflexivity.
Qed.

Lemma sorted_lt_NoDup (l : list nat) : StronglySorted lt l -> List.NoDup l.
Proof.
  induction 1 as [|x l _ IH Hx]; constructor; [|done].
  intros Hin. eapply List.Forall_forall in Hx; [|exact Hin]. lia.
Qed.

Lemma NoDup_map_inj {A B} (f : A -> B) (l : list A) :
  (forall x y, f x = f y -> x = y) -> List.NoDup l -> List.NoDup (map f l).
Proof.
  intros Hf. induction 1 as [|x l Hx _ IH]; cbn; constructor; [|done].
  intros Hin. apply in_map_iff in Hin as (y & Hy & Hin). apply Hf in Hy. by subst.
Qed.

(** The units one call of [process_prd_attachments] stores have different
    files: none overwrites another. *)
Theorem stored_units_do_not_collide (ticket_data : Ticket) (a : AgentState Env) :
  exists rs a' new,
    DocumentAgent.process_prd_attachments C ticket_data a = Some (Ok rs, a') /\
    processed_files a' = processed_files a ++ new /\
    length new = length (List.filter success rs) /\
    List.NoDup new.
Proof.
  unfold DocumentAgent.process_prd_attachments.
  destruct (identify_prd_attachments ticket_data) as [|x l] eqn:E.
  { exists [], a, []. rewrite List.app_nil_r. repeat split; constructor. }
  destruct (process_prd_loop_rounds C ticket_data (x :: l) 1 [] a)
    as (rs & a' & Hrun & Hrounds).
  pose proof (rounds_stored_numbers C "prd" _ _ _ _ _ _ Hrounds) as Hfiles.
  pose proof (stored_numbers_sorted rs 1) as Hsorted.
  exists rs, a'. eexists. split; [exact Hrun|]. split; [exact Hfiles|].
  split.
  - rewrite length_map. clear. generalize 1. induction rs as [|r rs IH]; intros i; [done|].
    cbn. destruct (success r); cbn; by rewrite IH.
  - apply NoDup_map_inj; [|by apply sorted_lt_NoDup].
    intros n m. apply attachment_path_inj.
Qed.

End UniqueNames.

Section PageIdExtras.

Lemma take_while_all (p : ascii -> bool) (s : string) : all p (take_while p s) = true.
Proof.
  induction s as [|c s IH]; [reflexivity|]. cbn [take_while].
  destruct (p c) eqn:E; [|reflexivity]. cbn. by rewrite E, IH.
Qed.

Lemma digits_between_sound (pre post s d : string) :
  digits_between pre post s = Some d ->
  Py.truthy d = true /\ all Re.digit d = true /\ exists b, s = pre +:+ d +:+ post +:+ b.
Proof.
  unfold digits_between. destruct (Py.startswith s pre) eqn:Hpre; [|done].
  apply startswith_iff in Hpre as (rest & ->). rewrite skip_app.
  destruct (Py.truthy _ && Py.startswith _ post) eqn:H; [|done]. intros [= <-].
  apply andb_true_iff in H as [H1 H2]. split; [done|]. split; [apply take_while_all|].
  apply startswith_iff in H2 as (b & Hb). exists b. f_equal.
  rewrite <- Hb. symmetry. apply take_while_skip.
Qed.

Lemma first_digits_sound (pre post s d : string) :
  first_digits pre post s = Some d ->
  Py.truthy d = true /\ all Re.digit d = true /\
  exists a b, s = a +:+ pre +:+ d +:+ post +:+ b.
Proof.
  induction s as [|c s IH]; cbn [first_digits].
  - destruct (digits_between pre post "") as [d'|] eqn:E; [|done]. intros [= ->].
    apply digits_between_sound in E as (? & ? & b & Hb). repeat split; try done.
    by exists "", b.
  - destruct (digits_between pre post (String c s)) as [d'|] eqn:E.
    + intros [= ->]. apply digits_between_sound in E as (? & ? & b & Hb).
      repeat split; try done. by exists "", b.
    + intros H. apply IH in H as (? & ? & a & b & ->). repeat split; try done.
      by exists (String c a), b.
Qed.

(** A page identifier is never empty, consists of digits only, and stands
    in the URL. *)
Theorem page_id_is_digits_of_the_url (page_url d : string) :
  _extract_confluence_page_id page_url = Some d ->
  Py.truthy d = true /\ all Re.digit d = true /\ Py.contains page_url d = true.
Proof.
  rewrite extract_page_id_spec. unfold page_id_spec. intros H.
  assert (exists pre post, first_digits pre post page_url = Some d) as (pre & post & Hd).
  { destruct (first_digits "/pages/" "/" page_url) eqn:E1; [injection H as ->; eauto|].
    destruct (first_digits "pageId=" "" page_url) eqn:E2; [injection H as ->; eauto|].
    eauto. }
  apply first_digits_sound in Hd as (? & ? & a & b & ->). repeat split; try done.
  apply contains_iff. exists (a +:+ pre), (post +:+ b). by rewrite !str_app_assoc.
Qed.

End PageIdExtras.

Lemma page_id_is_digits_of_the_url_witness :
  Py.truthy "42" = true /\ all Re.digit "42" = true /\
  Py.contains "https://wiki.example/viewpage.action?pageId=42" "42" = true.
Proof.
  exact (page_id_is_digits_of_the_url "https://wiki.example/viewpage.action?pageId=42" "42"
           eq_refl).
Defined.

Section LinkExtras.

Lemma matches_to_suffix (r : Re.regex) (s s' : string) :
  matches_to r s s' -> exists u, s = u +:+ s'.
Proof.
  revert s s'. induction r as [|p|r1 IH1 r2 IH2|r1 IH1 r2 IH2|p|r1 IH1|]; intros s s';
    cbn [matches_to].
  - intros ->. by exists "".
  - intros (c & -> & _). by exists (String c "").
  - intros (m & H1 & H2). apply IH1 in H1 as (u1 & ->). apply IH2 in H2 as (u2 & ->).
    exists (u1 +:+ u2). by rewrite str_app_assoc.
  - intros [H|H]; eauto.
  - intros (u & -> & _). eauto.
  - eauto.
  - intros [-> _]. by exists "".
Qed.

Lemma py_match_text (r : Re.regex) (s : string) (m : Re.match_obj) :
  Re.py_match r s = Some m -> s = Re.m_pre m +:+ Re.m_text m +:+ Re.m_rest m.
Proof.
  unfold Re.py_match. destruct (Re.rall r s None) as [|[s' g'] l] eqn:E; [done|].
  intros [= <-]. cbn.
  destruct (matches_to_suffix r s s') as (u & ->).
  { apply (rall_sound r s None s' g'). rewrite E. by left. }
  by rewrite consumed_app.
Qed.

Lemma search_text (r : Re.regex) (s : string) (m : Re.match_obj) :
  Re.search r s = Some m -> s = Re.m_pre m +:+ Re.m_text m +:+ Re.m_rest m.
Proof.
  revert m. induction s as [|c s IH]; intros m; cbn [Re.search].
  - destruct (Re.py_match r "") eqn:E; [|done]. intros [= <-]. by apply (py_match_text r).
  - destruct (Re.py_match r (String c s)) eqn:E.
    + intros [= <-]. by apply (py_match_text r).
    + destruct (Re.search r s) as [m'|]; [|done]. intros [= <-]. cbn.
      by rewrite str_app_cons, <- (IH m' eq_refl).
Qed.

Lemma contains_app_r (a b x : string) :
  Py.contains b x = true -> Py.contains (a +:+ b) x = true.
Proof.
  rewrite !contains_iff. intros (u & v & ->). exists (a +:+ u), v. by rewrite str_app_assoc.
Qed.

Lemma findall_fuel_contains (fuel : nat) (r : Re.regex) (s x : string) :
  In x (Re.findall_fuel fuel r s) -> Py.contains s x = true.
Proof.
  revert s. induction fuel as [|fuel IH]; intros s; cbn [Re.findall_fuel]; [intros []|].
  destruct (Re.search r s) as [m|] eqn:E; [|intros []].
  apply search_text in E. intros [<-|Hin].
  - apply contains_iff. eauto.
  - rewrite E. apply contains_app_r, contains_app_r.
    destruct (Re.m_text m) as [|c t].
    + destruct (Re.m_rest m) as [|c' rest']; [destruct Hin|].
      apply (contains_app_r (String c' "") rest'). by apply IH.
    + by apply IH.
Qed.

(** The bound of [Re.findall] is never reached: more fuel finds the same
    matches. *)
Lemma findall_fuel_enough (r : Re.regex) (n m : nat) (s : string) :
  String.length s < n -> String.length s < m ->
  Re.findall_fuel n r s = Re.findall_fuel m r s.
Proof.
  revert m s. induction n as [|n IH]; intros m s Hn Hm; [lia|].
  destruct m as [|m]; [lia|]. cbn [Re.findall_fuel].
  destruct (Re.search r s) as [mo|] eqn:E; [|done]. f_equal.
  apply search_text in E. apply (f_equal String.length) in E.
  rewrite !str_app_length in E.
  destruct (Re.m_text mo) as [|c t]; [destruct (Re.m_rest mo) as [|c' rest']; [done|]|];
    cbn [String.length] in E; apply IH; cbn [String.length]; lia.
Qed.

Lemma dict_fromkeys_spec (seen l : list string) :
  List.NoDup (dict_fromkeys seen l) /\
  forall x, In x (dict_fromkeys seen l) -> In x l /\ ~ In x seen.
Proof.
  revert seen. induction l as [|y l IH]; intros seen; cbn [dict_fromkeys].
  - split; [constructor|intros x []].
  - destruct (existsb (String.eqb y) seen) eqn:E.
    + destruct (IH seen) as [Hnd Hin]. split; [done|]. intros x Hx.
      destruct (Hin x Hx). split; [by right|done].
    + destruct (IH (y :: seen)) as [Hnd Hin]. split.
      * constructor; [|done]. intros Hy. destruct (Hin y Hy) as [_ Hn]. apply Hn. by left.
      * intros x [<-|Hx].
        -- split; [by left|]. intros Hs.
           assert (existsb (String.eqb y) seen = true); [|congruence].
           apply existsb_exists. exists y. split; [done|apply String.eqb_refl].
        -- destruct (Hin x Hx) as [H1 H2]. split; [by right|]. intros Hs. apply H2. by right.
Qed.

(** The links found in a text are different from one another, and each of
    them stands in the text. *)
Theorem links_are_distinct_parts_of_the_text (text : string) :
  List.NoDup (extract_confluence_links text) /\
  forall link, In link (extract_confluence_links text) -> Py.contains text link = true.
Proof.
  unfold extract_confluence_links. destruct (negb (Py.truthy text)).
  { split; [constructor|intros link []]. }
  destruct (dict_fromkeys_spec []
              (flat_map (fun pattern => Re.findall pattern text) confluence_patterns))
    as [Hnd Hin].
  split; [done|]. intros link Hl. apply Hin in Hl as [Hl _].
  apply in_flat_map in Hl as (pattern & _ & Hl). by eapply findall_fuel_contains.
Qed.

End LinkExtras.

Section AgentExtras.
Context {Env : Type} (C : Runtime Env).
Import DocumentAgent.

(** For every ticket [check_for_missing_documents] returns, in the order
    requirements, wiki, design, one request for each of the three checks
    that found nothing, records the same three in the missing documents,
    and touches neither the stored files nor the world. *)
Theorem missing_requests_mirror_the_checks (ticket_data : Ticket) (a : AgentState Env) :
  exists requests a',
    check_for_missing_documents ticket_data a = Some (Ok requests, a') /\
    map mr_document_type requests =
      if_none (identify_prd_attachments ticket_data) "prd"
      ++ if_none (extract_confluence_links (t_description ticket_data)) "confluence"
      ++ if_none (identify_hld_lld_attachments ticket_data) "design" /\
    Forall (fun r => mr_ticket_key r = t_key ticket_data) requests /\
    missing_documents a' =
      missing_documents a
      ++ if_none (identify_prd_attachments ticket_data) "PRD"
      ++ if_none (extract_confluence_links (t_description ticket_data)) "Confluence"
      ++ if_none (identify_hld_lld_attachments ticket_data) "Design Documents" /\
    processed_files a' = processed_files a /\
    ag_world a' = ag_world a.
Proof.
  unfold check_for_missing_documents.
  destruct (identify_prd_attachments ticket_data);
    destruct (extract_confluence_links (t_description ticket_data));
    destruct (identify_hld_lld_attachments ticket_data);
    do 2 eexists; (split; [reflexivity|]); cbn;
    rewrite <- ?List.app_assoc, ?List.app_nil_r; repeat split; repeat constructor.
Qed.

(** [process_jira_content] never raises: when the file cannot be written
    it reports the error in a result without success and stores nothing;
    otherwise the file of the ticket is written and its path appended. *)
Theorem process_jira_content_reports_errors (ticket_data : Ticket) (a : AgentState Env) :
  exists r a',
    process_jira_content C ticket_data a = Some (Ok r, a') /\
    match open_w_error C (jira_path C (t_key ticket_data)) with
    | Some e =>
        success r = false /\ error_message r = Some e /\ filepath r = "" /\ a' = a
    | None =>
        success r = true /\ filepath r = jira_path C (t_key ticket_data) /\
        processed_files a' = processed_files a ++ [jira_path C (t_key ticket_data)] /\
        w_fs (ag_world a') !! jira_path C (t_key ticket_data)
          = Some (_format_jira_as_markdown ticket_data)
    end.
Proof.
  unfold process_jira_content, try_except, bind, doc_processor, zoom.
  rewrite save_jira_content_eq. destruct (open_w_error C _) as [e|].
  - do 2 eexists. split; [reflexivity|]. cbn. by destruct a.
  - do 2 eexists. split; [reflexivity|]. cbn. by rewrite lookup_insert_eq.
Qed.

(** The tool [consolidate_documents] passes the stored files to the
    processor; an error of the write comes out as an exception whose
    message starts with "Failed to consolidate documents: ". *)
Theorem consolidate_tool_wraps_errors (a : AgentState Env) :
  match open_w_error C (final_path C) with
  | Some e => consolidate_documents C a = Some (Raise ("Failed to consolidate documents: " +:+ e), a)
  | None =>
      exists a',
        consolidate_documents C a = Some (Ok (final_path C), a') /\
        processed_files a' = processed_files a /\
        w_fs (ag_world a') !! final_path C
          = Some (consolidated_header
                  +:+ Py.concat (map consolidated_part
                                   (stored_texts (w_fs (ag_world a)) (processed_files a))))
  end.
Proof.
  unfold consolidate_documents, try_except, bind, get_state, doc_processor, zoom.
  rewrite consolidate_documents_eq. cbn zeta. destruct (open_w_error C _) as [e|].
  - cbn. by destruct a.
  - eexists. split; [reflexivity|]. cbn. by rewrite lookup_insert_eq.
Qed.

End AgentExtras.

Section SummaryExtras.
Context {Env : Type} (C : Runtime Env).
Import DocumentAgent.

Lemma filter_all_true {A} (f : A -> bool) (l : list A) :
  List.Forall (fun x => f x = true) l -> List.filter f l = l.
Proof. induction 1 as [|x l Hx _ IH]; cbn; [done|]. by rewrite Hx, IH. Qed.

Lemma truthy_confluence_path (src : string) (n : nat) :
  Py.truthy (confluence_path C src n) = true.
Proof. apply truthy_os_path_join. reflexivity. Qed.

(** Only paths that are not empty are ever stored, so the summary counts
    no failure: after [process_prd_attachments], however many fetches
    failed, [get_processing_summary] reports every stored file as
    successful and zero failed documents. *)
Theorem summary_counts_no_failure (ticket_data : Ticket) (a : AgentState Env) :
  List.Forall (fun p => Py.truthy p = true) (processed_files a) ->
  exists rs a' summary,
    process_prd_attachments C ticket_data a = Some (Ok rs, a') /\
    get_processing_summary a' = Some (Ok summary, a') /\
    failed_documents summary = 0 /\
    successful_documents summary = total_documents summary /\
    total_documents summary
      = length (processed_files a) + length (List.filter success rs).
Proof.
  intros Hall. unfold process_prd_attachments.
  assert (exists rs a', (match identify_prd_attachments ticket_data with
                         | [] => ret []
                         | _ => process_prd_loop C ticket_data
                                  (identify_prd_attachments ticket_data) 1 []
                         end) a = Some (Ok rs, a') /\
            processed_files a' = processed_files a
              ++ map (attachment_path C "prd" (t_key ticket_data)) (stored_numbers rs 1))
    as (rs & a' & Hrun & Hfiles).
  { destruct (identify_prd_attachments ticket_data) as [|x l] eqn:E.
    - exists [], a. split; [reflexivity|]. cbn. by rewrite List.app_nil_r.
    - destruct (process_prd_loop_rounds C ticket_data (x :: l) 1 [] a)
        as (rs & a' & Hrun & Hrounds).
      exists rs, a'. split; [exact Hrun|].
      apply (rounds_stored_numbers C "prd" _ _ _ _ _ _ Hrounds). }
  exists rs, a'. eexists. split; [exact Hrun|].
  split; [unfold get_processing_summary, bind, get_state, ret; reflexivity|]. cbn.
  assert (List.Forall (fun p => Py.truthy p = true) (processed_files a')) as Hall'.
  { rewrite Hfiles. apply List.Forall_app. split; [done|].
    apply List.Forall_forall. intros p Hp. apply in_map_iff in Hp as (n & <- & _).
    apply truthy_attachment_path. }
  rewrite (filter_all_true _ _ Hall'). split; [lia|]. split; [done|].
  rewrite Hfiles, length_app, length_map. f_equal. clear.
  generalize 1. induction rs as [|r rs IH]; intros i; [done|].
  cbn. destruct (success r); cbn; by rewrite IH.
Qed.

(** A URL of the user that contains "confluence" is fetched as the wiki
    page number 1 of the ticket, whatever was fetched before:
    [process_user_provided_url] leaves the world [fetch_confluence_page]
    leaves for that number, reports a success exactly when a path came
    back, and then appends that path, conf-from-TICKET-page1-content.md.
    The file is written over what it held, so of two such URLs for one
    ticket only the page of the second is kept. *)
Theorem user_wiki_urls_share_one_file (url content_type ticket_key : string)
    (a : AgentState Env) :
  Py.contains (Py.lower url) "confluence" = true ->
  exists p w' r a',
    fetch_confluence_page C url ticket_key 1 (ag_world a) = Some (Ok p, w') /\
    process_user_provided_url C url content_type ticket_key a = Some (Ok r, a') /\
    ag_world a' = w' /\
    missing_documents a' = missing_documents a /\
    match p with
    | Some path =>
        path = confluence_path C ticket_key 1 /\
        (exists text, w_fs w' = <[path := text]> (w_fs (ag_world a))) /\
        success r = true /\ filepath r = path /\
        processed_files a' = processed_files a ++ [path] /\
        user_provided_content a' = user_provided_content a ++ [content_type]
    | None =>
        w_fs w' = w_fs (ag_world a) /\
        success r = false /\ filepath r = "" /\
        error_message r = Some "Could not fetch content from URL" /\
        processed_files a' = processed_files a /\
        user_provided_content a' = user_provided_content a
    end.
Proof.
  intros Hc. unfold process_user_provided_url, try_except, bind, doc_processor, zoom.
  rewrite Hc.
  destruct (fetch_confluence_page_cases C url ticket_key 1 (ag_world a))
    as (r & w' & Hrun & [[-> Hfs]|[-> (text & Hfs)]]); rewrite Hrun.
  - do 4 eexists. split; [reflexivity|]. split; [reflexivity|]. done.
  - cbn [no_text negb text_of]. rewrite truthy_confluence_path. cbn [negb].
    do 4 eexists. split; [reflexivity|]. split; [reflexivity|]. cbn.
    repeat split; try done. by exists text.
Qed.

End SummaryExtras.

Lemma summary_counts_no_failure_witness :
  exists rs a' summary,
    DocumentAgent.process_prd_attachments Example.runtime
      (Example.ticket "T-1" ""
         [Example.attachment "PRD-a.pdf" "bad"; Example.attachment "PRD-b.pdf" "good"])
      Example.agent = Some (Ok rs, a') /\
    DocumentAgent.get_processing_summary a' = Some (Ok summary, a') /\
    failed_documents summary = 0 /\
    successful_documents summary = total_documents summary /\
    total_documents summary = 0 + length (List.filter success rs).
Proof.
  apply (summary_counts_no_failure Example.runtime _ Example.agent). constructor.
Defined.

(** Two pages fetched for the ticket T-1 on a network that answers: both
    go to the same file, which in the end holds the second. *)
Lemma user_wiki_urls_share_one_file_witness :
  exists r1 a1 r2 a2,
    DocumentAgent.process_user_provided_url Example.online
      "https://confluence.example/pages/7/Plan" "design" "T-1" Example.agent
      = Some (Ok r1, a1) /\
    DocumentAgent.process_user_provided_url Example.online
      "https://confluence.example/pages/8/Notes" "design" "T-1" a1
      = Some (Ok r2, a2) /\
    success r1 = true /\ success r2 = true /\
    filepath r1 = "documents/conf-from-T-1-page1-content.md" /\
    filepath r2 = "documents/conf-from-T-1-page1-content.md" /\
    processed_files a2 = ["documents/conf-from-T-1-page1-content.md";
                          "documents/conf-from-T-1-page1-content.md"] /\
    Py.contains
      (default "" (w_fs (ag_world a1) !! "documents/conf-from-T-1-page1-content.md"))
      "pages/7/Plan" = true /\
    Py.contains
      (default "" (w_fs (ag_world a2) !! "documents/conf-from-T-1-page1-content.md"))
      "pages/7/Plan" = false /\
    Py.contains
      (default "" (w_fs (ag_world a2) !! "documents/conf-from-T-1-page1-content.md"))
      "pages/8/Notes" = true.
Proof.
  destruct (user_wiki_urls_share_one_file Example.online
              "https://confluence.example/pages/7/Plan" "design" "T-1" Example.agent eq_refl)
    as (p1 & w1 & r1 & a1 & Hf1 & Hrun1 & Hw1 & Hm1 & H1).
  vm_compute in Hf1. injection Hf1 as <- <-.
  destruct H1 as (_ & _ & Hs1 & Hp1 & Hfiles1 & Hu1).
  destruct (user_wiki_urls_share_one_file Example.online
              "https://confluence.example/pages/8/Notes" "design" "T-1" a1 eq_refl)
    as (p2 & w2 & r2 & a2 & Hf2 & Hrun2 & Hw2 & Hm2 & H2).
  rewrite Hw1 in Hf2. vm_compute in Hf2. injection Hf2 as <- <-.
  destruct H2 as (_ & _ & Hs2 & Hp2 & Hfiles2 & Hu2).
  exists r1, a1, r2, a2. split; [exact Hrun1|]. split; [exact Hrun2|].
  split; [exact Hs1|]. split; [exact Hs2|]. split; [exact Hp1|]. split; [exact Hp2|].
  split; [by rewrite Hfiles2, Hfiles1|].
  rewrite Hw1, Hw2. repeat split; by vm_compute.
Defined.

Section ConfluenceLoop.
Context {Env : Type} (C : Runtime Env).
Import DocumentAgent.

Lemma process_confluence_loop_spec (source : string) (links : list string) (i : nat)
    (results : list ProcessedDocument) (a : AgentState Env) :
  exists rs a',
    process_confluence_loop C source links i results a = Some (Ok (results ++ rs), a') /\
    length rs = length links /\
    processed_files a' =
      processed_files a ++ map (confluence_path C source) (stored_numbers rs i) /\
    (forall k r, rs !! k = Some r ->
       document_type r = "confluence" /\ source_ticket r = source /\
       filename r = "confluence-page-" +:+ pretty (i + k)).
Proof.
  revert i results a. induction links as [|link links IH]; intros i results a.
  - exists [], a. rewrite !List.app_nil_r. repeat split; try done;
      try (by rewrite lookup_nil in *).
  - cbn [process_confluence_loop]. unfold bind at 1, try_except, bind, doc_processor, zoom.
    destruct (fetch_confluence_page_cases C link source i (ag_world a))
      as (r & w' & Hrun & [[-> Hfs]|[-> (text & Hfs)]]); rewrite Hrun.
    + cbn [no_text negb]. unfold ret at 1.
      match goal with
      | |- context [process_confluence_loop C source links (S i) (results ++ [?r0]) ?a0] =>
          destruct (IH (S i) (results ++ [r0]) a0) as (rs & a' & -> & Hlen & Hfiles & Hrs);
          exists (r0 :: rs), a'
      end.
      rewrite <- List.app_assoc. split; [reflexivity|]. split; [cbn; congruence|].
      split; [exact Hfiles|].
      intros [|k] r Hk; cbn in Hk.
      * injection Hk as <-. by rewrite Nat.add_0_r.
      * replace (i + S k) with (S i + k) by lia. by apply Hrs.
    + cbn [no_text negb text_of]. rewrite truthy_confluence_path. cbn [negb].
      unfold processed_files_append, modify, ret.
      match goal with
      | |- context [process_confluence_loop C source links (S i) (results ++ [?r0]) ?a0] =>
          destruct (IH (S i) (results ++ [r0]) a0) as (rs & a' & -> & Hlen & Hfiles & Hrs);
          exists (r0 :: rs), a'
      end.
      rewrite <- List.app_assoc. split; [reflexivity|]. split; [cbn; congruence|].
      split; [rewrite Hfiles; cbn; by rewrite <- List.app_assoc|].
      intros [|k] r Hk; cbn in Hk.
      * injection Hk as <-. by rewrite Nat.add_0_r.
      * replace (i + S k) with (S i + k) by lia. by apply Hrs.
Qed.

(** [process_confluence_links] never raises and returns one result for
    each link, named after the place of the link; the pages it stores
    are numbered by the places of their links, failed fetches included
    in the count. *)
Theorem wiki_pages_are_numbered_by_position (links : list string) (source : string)
    (a : AgentState Env) :
  exists rs a',
    process_confluence_links C links source a = Some (Ok rs, a') /\
    length rs = length links /\
    processed_files a' =
      processed_files a ++ map (confluence_path C source) (stored_numbers rs 1) /\
    (forall k r, rs !! k = Some r -> filename r = "confluence-page-" +:+ pretty (1 + k)).
Proof.
  unfold process_confluence_links. destruct links as [|link links].
  - exists [], a. rewrite List.app_nil_r. repeat split; try done;
      try (by rewrite lookup_nil in *).
  - destruct (process_confluence_loop_spec source (link :: links) 1 [] a)
      as (rs & a' & Hrun & Hlen & Hfiles & Hrs).
    exists rs, a'. repeat split; try done. intros k r Hk. by apply Hrs.
Qed.

End ConfluenceLoop.

Section ChatbotExtras.
Context {Env : Type} (C : Runtime Env).
Import Chatbot.

(** With nothing gathered, phase 3 writes no artifact and leaves the
    session as it was; otherwise it consolidates the gathered files in
    their order and, when the artifact can be written, records its path;
    an error of the write is swallowed. *)
Theorem phase_3_consolidates_what_was_gathered (b : BotState Env) :
  exists b',
    _phase_3_consolidation C b = Some (Ok tt, b') /\
    processed_documents b' = processed_documents b /\
    match processed_documents b, open_w_error C (final_path C) with
    | [], _ => b' = b
    | _ :: _, Some e => b' = b
    | _ :: _, None =>
        final_content_path b' = Some (final_path C) /\
        w_fs (b_world b') !! final_path C =
          Some (consolidated_header
                +:+ Py.concat (map consolidated_part
                                 (stored_texts (w_fs (b_world b)) (processed_documents b))))
    end.
Proof.
  unfold _phase_3_consolidation, bind, get_state.
  destruct (processed_documents b) as [|p l] eqn:E.
  - exists b. done.
  - unfold try_except, bind, doc_processor, zoom. rewrite consolidate_documents_eq.
    cbn zeta. destruct (open_w_error C (final_path C)) as [e|].
    + eexists. split; [reflexivity|]. cbn. split; [done|]. by destruct b.
    + eexists. split; [reflexivity|]. cbn. by rewrite lookup_insert_eq.
Qed.

(** When the ticket or its epic has a requirements attachment, the
    chatbot asks nothing and returns whatever the fuel: it runs its loop
    over the attachments of the ticket followed by those of the epic,
    numbered from 1 through both.  An attachment is stored exactly when a
    text is found in it and its file can be written; the paths of the
    stored ones are appended in order, each under the number of its
    place, and the environment has only moved on by the downloads. *)
Theorem prd_attachments_are_numbered_through (fuel : nat) (b : BotState Env) :
  let attachments :=
    identify_prd_attachments (current_ticket b)
    ++ match current_epic b with
       | Some epic => identify_prd_attachments epic
       | None => []
       end in
  attachments <> [] ->
  exists flags b',
    _process_prd_attachments C fuel b = Some (Ok tt, b') /\
    same_session b b' /\
    length flags = length attachments /\
    (forall k attachment,
       attachments !! k = Some attachment ->
       flags !! k =
         Some (is_stored C (fun _ => "prd") (source_of identify_prd_attachments b) 1
                 attachments (w_env (b_world b)) k attachment)) /\
    processed_documents b' =
      processed_documents b ++
      stored_paths (fun attachment n =>
          attachment_path C "prd" (source_of identify_prd_attachments b attachment) n)
        attachments flags 1 /\
    units_stored C (fun _ => "prd") (source_of identify_prd_attachments b) 1 attachments
      (b_world b) (b_world b').
Proof.
  cbn zeta. intros Hne. unfold _process_prd_attachments, bind at 1, get_state.
  assert ((match current_epic b with
           | Some epic => identify_prd_attachments (current_ticket b)
                          ++ identify_prd_attachments epic
           | None => identify_prd_attachments (current_ticket b)
           end)
          = identify_prd_attachments (current_ticket b)
            ++ match current_epic b with
               | Some epic => identify_prd_attachments epic
               | None => []
               end) as ->.
  { destruct (current_epic b); [done|by rewrite List.app_nil_r]. }
  destruct (_ ++ _) as [|x l] eqn:E; [done|].
  destruct (_process_prd_loop_stored C (x :: l) 1 b)
    as (flags & b' & Hrun & Hsame & Hlen & Hflags & Hp & Hunits).
  exists flags, b'. done.
Qed.

End ChatbotExtras.

Lemma prd_attachments_are_numbered_through_witness :
  exists b',
    Chatbot._process_prd_attachments Example.runtime 0
      (Example.bot
         (Example.ticket "T-1" ""
            [Example.attachment "PRD-a.pdf" "good"; Example.attachment "PRD-b.pdf" "bad"])
         (Some (Example.ticket "E-1" "" [Example.attachment "PRD-e.pdf" "good"])))
      = Some (Ok tt, b') /\
    processed_documents b' =
      ["documents/prd-from-T-1-attachment1-content.md";
       "documents/prd-from-E-1-attachment3-content.md"] /\
    w_env (b_world b') = 3 /\
    is_Some (w_fs (b_world b') !! "documents/prd-from-T-1-attachment1-content.md") /\
    w_fs (b_world b') !! "documents/prd-from-T-1-attachment2-content.md" = None /\
    is_Some (w_fs (b_world b') !! "documents/prd-from-E-1-attachment3-content.md").
Proof.
  destruct (prd_attachments_are_numbered_through Example.runtime 0
              (Example.bot
                 (Example.ticket "T-1" ""
                    [Example.attachment "PRD-a.pdf" "good";
                     Example.attachment "PRD-b.pdf" "bad"])
                 (Some (Example.ticket "E-1" "" [Example.attachment "PRD-e.pdf" "good"]))))
    as (flags & b' & Hrun & _ & Hlen & Hflags & Hdocs & Henv & Hfiles & Hrest);
    [discriminate|].
  exists b'. split; [exact Hrun|].
  destruct flags as [|f1 [|f2 [|f3 [|]]]]; try discriminate Hlen.
  pose proof (Hflags 0 _ eq_refl) as H1. injection H1 as ->.
  pose proof (Hflags 1 _ eq_refl) as H2. injection H2 as ->.
  pose proof (Hflags 2 _ eq_refl) as H3. injection H3 as ->.
  split; [exact Hdocs|]. split; [exact Henv|].
  split; [eexists; exact (Hfiles 0 _ _ eq_refl eq_refl)|].
  split.
  - rewrite Hrest; [reflexivity|].
    intros [|[|[|k]]] x Hk Hs; vm_compute in Hk; try discriminate Hk;
      injection Hk as <-; vm_compute in Hs; try discriminate Hs;
      vm_compute; intros ?; discriminate.
  - eexists. exact (Hfiles 2 _ _ eq_refl eq_refl).
Defined.

Section ChatbotExtras2.
Context {Env : Type} (C : Runtime Env).
Import Chatbot.


End ChatbotExtras2.

